(** * Session sandbox manager of livebench/tools/productivity/code_execution_sandbox.py

    A shallow embedding of the Python module: Python [str] values are lists
    of Unicode code points, [bytes] are lists of bytes, the objects of the
    module are records, and every call that leaves the module (E2B SDK,
    [subprocess], [requests], the file system, the environment) is answered
    by an environment record and written to a trace of calls.  What
    [print] writes is left out; so are the exceptions that do not derive
    from [Exception]. *)

From Stdlib Require Import NArith ZArith String Ascii Bool Lia List.
From Stdlib.Strings Require Import Byte.
From Stdlib Require Import DecimalString.
Import ListNotations.

(* ================================================================= *)
(** ** Python strings *)

(** A Python [str] is a sequence of code points. *)
Definition str := list N.

(** A Python [bytes] object. *)
Definition bytes := list byte.

(** A literal of the source, written as a Rocq string of ASCII characters. *)
Fixpoint py (s : string) : str :=
  match s with
  | EmptyString => []
  | String a r => N_of_ascii a :: py r
  end.

Definition str_eqb (a b : str) : bool :=
  if list_eq_dec N.eq_dec a b then true else false.

(** [Py_UNICODE_ISSPACE]: the code points [str.isspace], [str.strip] and the
    class [\s] of [re] (on [str] patterns) call whitespace. *)
Definition is_space (c : N) : bool :=
  ((9 <=? c) && (c <=? 13) || (28 <=? c) && (c <=? 32)
   || (c =? 133) || (c =? 160) || (c =? 5760)
   || (8192 <=? c) && (c <=? 8202)
   || (c =? 8232) || (c =? 8233) || (c =? 8239) || (c =? 8287)
   || (c =? 12288))%N.

Fixpoint take_while (f : N -> bool) (s : str) : str :=
  match s with
  | c :: r => if f c then c :: take_while f r else []
  | [] => []
  end.

Fixpoint drop_while (f : N -> bool) (s : str) : str :=
  match s with
  | c :: r => if f c then drop_while f r else s
  | [] => []
  end.

(** [a.startswith(b)] *)
Fixpoint startswith (s p : str) {struct p} : bool :=
  match p, s with
  | [], _ => true
  | c :: p', d :: s' => (c =? d)%N && startswith s' p'
  | _ :: _, [] => false
  end.

(** [needle in s] *)
Fixpoint contains (needle s : str) : bool :=
  startswith s needle ||
  match s with
  | [] => false
  | _ :: r => contains needle r
  end.

(** [s.strip()] *)
Definition strip (s : str) : str :=
  rev (drop_while is_space (rev (drop_while is_space s))).

(** [sep.join(parts)] *)
Fixpoint join (sep : str) (parts : list str) : str :=
  match parts with
  | [] => []
  | [p] => p
  | p :: r => p ++ sep ++ join sep r
  end.

(** [str(n)] for an integer. *)
Definition str_of_Z (z : Z) : str :=
  py (NilZero.string_of_int (Z.to_int z)).

Definition str_of_nat (n : nat) : str := str_of_Z (Z.of_nat n).

(* ================================================================= *)
(** ** The fragment of [re] the module uses

    [re.findall(r'ARTIFACT_PATH:(\S+)', stdout_str)] needs literals, the
    class [\S], the greedy [+] and one capturing group.  The matcher is the
    backtracking matcher of [re]: a greedy [+] takes the longest run and
    gives characters back one at a time while the rest of the pattern
    fails. *)
Module Re.

Inductive atom :=
| Lit (c : N)       (* a literal character *)
| NotSpace.         (* \S *)

Inductive node :=
| One (a : atom)
| Plus (a : atom)   (* a+ , greedy *)
| Open              (* ( *)
| Close.            (* ) *)

Definition pattern := list node.

Definition atom_ok (a : atom) (c : N) : bool :=
  match a with
  | Lit d => (d =? c)%N
  | NotSpace => negb (is_space c)
  end.

(** Tries [k] repetitions, then [k-1], ... down to one. *)
Fixpoint backtrack {A} (k : nat) (f : nat -> option A) : option A :=
  match k with
  | O => None
  | S k' =>
      match f k with
      | Some r => Some r
      | None => backtrack k' f
      end
  end.

(** [match_here p s cur grp]: the pattern [p] matched at the start of [s];
    [cur] is the text of the group that is open, [grp] the text of the
    group already closed.  Returns the unread input and group 1. *)
Fixpoint match_here (p : pattern) (s : str) (cur : option str)
         (grp : option str) : option (str * option str) :=
  match p with
  | [] => Some (s, grp)
  | One a :: p' =>
      match s with
      | c :: s' =>
          if atom_ok a c
          then match_here p' s' (option_map (fun g => g ++ [c]) cur) grp
          else None
      | [] => None
      end
  | Plus a :: p' =>
      let run := take_while (atom_ok a) s in
      backtrack (length run)
        (fun k => match_here p' (skipn k s)
                    (option_map (fun g => g ++ firstn k s) cur) grp)
  | Open :: p' => match_here p' s (Some []) grp
  | Close :: p' => match_here p' s None cur
  end.

(** What [findall] reports for one match of a pattern with one group. *)
Definition group1 (g : option str) : str :=
  match g with Some t => t | None => [] end.

(** [findall]: matches are searched from left to right and do not overlap;
    after a match the search resumes where the match ended (one character
    further when the match was empty).  [skip] counts the characters of
    the last match that are still to be passed. *)
Fixpoint findall_from (p : pattern) (skip : nat) (s : str) {struct s}
  : list str :=
  match skip with
  | S k =>
      match s with
      | _ :: s' => findall_from p k s'
      | [] => []
      end
  | O =>
      match match_here p s None None with
      | Some (rest, g) =>
          group1 g ::
          match s with
          | _ :: s' => findall_from p (pred (length s - length rest)) s'
          | [] => []
          end
      | None =>
          match s with
          | _ :: s' => findall_from p 0 s'
          | [] => []
          end
      end
  end.

Definition findall (p : pattern) (s : str) : list str := findall_from p 0 s.

Definition literal (s : str) : pattern := map (fun c => One (Lit c)) s.

End Re.

(** The marker of the artifact protocol. *)
Definition ARTIFACT_MARKER : str := py "ARTIFACT_PATH:".

(** [r'ARTIFACT_PATH:(\S+)'] *)
Definition artifact_pattern : Re.pattern :=
  Re.literal ARTIFACT_MARKER ++ [Re.Open; Re.Plus Re.NotSpace; Re.Close].

(** [re.findall(r'ARTIFACT_PATH:(\S+)', stdout_str)] *)
Definition find_artifact_paths (stdout_str : str) : list str :=
  Re.findall artifact_pattern stdout_str.

Definition NL : str := [10%N].

(* ================================================================= *)
(** ** More of [str] and [os.path] *)

Definition is_linebreak (c : N) : bool :=
  ((10 <=? c) && (c <=? 13) || (28 <=? c) && (c <=? 30)
   || (c =? 133) || (c =? 8232) || (c =? 8233))%N.

(** [s.splitlines()]; [cur] is the line being read, reversed. *)
Fixpoint splitlines_from (s : str) (cur : str) : list str :=
  match s with
  | [] => match cur with [] => [] | _ => [rev cur] end
  | c :: r =>
      if (c =? 13)%N then
        match r with
        | d :: r' =>
            if (d =? 10)%N then rev cur :: splitlines_from r' []
            else rev cur :: splitlines_from r []
        | [] => [rev cur]
        end
      else if is_linebreak c then rev cur :: splitlines_from r []
      else splitlines_from r (c :: cur)
  end.

Definition splitlines (s : str) : list str := splitlines_from s [].

Definition SEP : N := 47%N.   (* "/" *)

Definition endswith_sep (s : str) : bool :=
  match rev s with
  | c :: _ => (c =? SEP)%N
  | [] => false
  end.

(** One step of [posixpath.join]. *)
Definition join2 (path b : str) : str :=
  if startswith b [SEP] then b
  else match path with
       | [] => b
       | _ => if endswith_sep path then path ++ b else path ++ [SEP] ++ b
       end.

(** [os.path.join(a, *p)] *)
Definition os_path_join (a : str) (p : list str) : str := fold_left join2 p a.

(** The text after the last "/" ([os.path.basename]). *)
Fixpoint basename_from (s : str) (cur : str) : str :=
  match s with
  | [] => rev cur
  | c :: r => if (c =? SEP)%N then basename_from r [] else basename_from r (c :: cur)
  end.

Definition os_path_basename (p : str) : str := basename_from p [].

(** [os.path.dirname]: the head up to the last "/", its trailing "/"
    removed unless the head is made of "/" only. *)
Definition os_path_dirname (p : str) : str :=
  let head := firstn (length p - length (os_path_basename p)) p in
  if forallb (fun c => (c =? SEP)%N) head then head
  else rev (drop_while (fun c => (c =? SEP)%N) (rev head)).

(* ================================================================= *)
(** ** Exceptions, results and the monad of the embedding *)

(** The classes the module names or distinguishes; all of them derive from
    [Exception].  [KeyboardInterrupt] and [SystemExit], which no handler of
    the module is meant for, are outside the model. *)
Inductive exn_class :=
| FileNotFoundError
| RuntimeError
| AttributeError
| TypeError
| CalledProcessError
| RequestException
| OtherException.

Record exn := mk_exn { exn_kind : exn_class; exn_str : str (* str(e) *) }.

Inductive result (A : Type) :=
| Ok (a : A)
| Raise (e : exn).
Arguments Ok {A} a.
Arguments Raise {A} e.

(** A computation over a state [S] that returns or raises; the state
    survives a raise, as the mutations of Python objects do. *)
Definition M (S A : Type) : Type := S -> result A * S.

Definition ret {S A} (a : A) : M S A := fun s => (Ok a, s).

Definition raise {S A} (e : exn) : M S A := fun s => (Raise e, s).

Definition bind {S A B} (m : M S A) (k : A -> M S B) : M S B :=
  fun s =>
    match m s with
    | (Ok a, s') => k a s'
    | (Raise e, s') => (Raise e, s')
    end.

(** [try: m except Exception as e: h e] *)
Definition try_except {S A} (m : M S A) (h : exn -> M S A) : M S A :=
  fun s =>
    match m s with
    | (Ok a, s') => (Ok a, s')
    | (Raise e, s') => h e s'
    end.

(** [try: m finally: fin]; an exception of [fin] replaces the outcome. *)
Definition try_finally {S A} (m : M S A) (fin : M S unit) : M S A :=
  fun s =>
    match m s with
    | (r, s') =>
        match fin s' with
        | (Ok _, s'') => (r, s'')
        | (Raise e, s'') => (Raise e, s'')
        end
    end.

(** A pure library call that may raise. *)
Definition of_result {S A} (r : result A) : M S A := fun s => (r, s).

Declare Scope py_scope.
Delimit Scope py_scope with py.
Notation "x <- m ;; k" := (bind m (fun x => k))
  (at level 61, m at next level, right associativity) : py_scope.
Notation "m ;;; k" := (bind m (fun _ => k))
  (at level 61, right associativity) : py_scope.
Open Scope py_scope.

(* ================================================================= *)
(** ** Values that cross the module's boundary *)

(** The argument of a file write, and what a read returns. *)
Inductive pyval :=
| VStr (s : str)
| VBytes (b : bytes).

(** [logs.stdout] / [logs.stderr] of an execution: a list of [str] (E2B),
    a list with an element that is no [str] (on which [join] raises), or a
    [str] or any other object, given by its [str()]. *)
Inductive outval :=
| OutLines (l : list str)
| OutBadList
| OutText (rendering : str).

(** [execution.logs]: an object with [stdout] and [stderr], or an object
    without them (the default [""] of [getattr] included), given by its
    [str()]. *)
Inductive logsval :=
| LogsObj (stdout stderr : outval)
| LogsOther (rendering : str).

(** A value of [execution.error] other than [None]: its truth value and
    its [str()]. *)
Record errval := mk_err { err_truthy : bool; err_str : str }.

(** A [str] used as error. *)
Definition err_of_str (s : str) : errval :=
  mk_err (match s with [] => false | _ => true end) s.

(** What [run_code] returns. *)
Record Execution := mk_exec { logs : logsval; error : option errval }.

(** The helper class [ExecutionResult] of the two local adapters. *)
Definition ExecutionResult (stdout stderr : outval) (error : option errval)
  : Execution :=
  mk_exec (LogsObj stdout stderr) error.

(** A value of the global state dictionary: a [str], or another object
    (which [os.path.join] refuses), given by its truth value. *)
Inductive gval :=
| GStr (s : str)
| GOther (truthy : bool).

Definition gval_truthy (v : gval) : bool :=
  match v with
  | GStr [] => false
  | GStr _ => true
  | GOther b => b
  end.

(** A dictionary with [str] keys, in insertion order. *)
Definition dict (V : Type) := list (str * V).

Fixpoint dict_get {V} (d : dict V) (k : str) : option V :=
  match d with
  | [] => None
  | (k', v) :: r => if str_eqb k' k then Some v else dict_get r k
  end.

(** [d[k] = v] *)
Fixpoint dict_set {V} (d : dict V) (k : str) (v : V) : dict V :=
  match d with
  | [] => [(k, v)]
  | (k', v') :: r =>
      if str_eqb k' k then (k', v) :: r else (k', v') :: dict_set r k v
  end.

Definition dict_has {V} (d : dict V) (k : str) : bool :=
  match dict_get d k with Some _ => true | None => false end.

(* ================================================================= *)
(** ** The sandbox objects *)

(** An E2B [Sandbox]: an opaque handle and its [id] attribute, if any. *)
Record E2BSandbox := mk_e2b { e2b_handle : N; e2b_id : option str }.

Record DockerSandbox := mk_docker {
  docker_id : str;
  docker_timeout : Z;
  docker_project_root : str;
  docker_compose_file : str
}.

Record Beta9Sandbox := mk_beta9 {
  beta9_id : str;
  beta9_timeout : Z;
  beta9_endpoint_name : str;
  beta9_volume_name : str
}.

(** What [subprocess.run] hands back before [text] and [check] are applied. *)
Record Completed := mk_completed {
  returncode : Z;
  raw_stdout : bytes;
  raw_stderr : bytes
}.

(** The JSON object of the execution endpoint: [result.get("stdout", "")],
    [result.get("stderr", "")] and [result.get("error")]. *)
Record EndpointReply := mk_reply {
  reply_stdout : outval;
  reply_stderr : outval;
  reply_error : option errval
}.

(** Every call that leaves the module. *)
Inductive call :=
| CGetenv (name : str)
| CE2BCreate (template : str) (timeout : Z)
| CE2BRunCode (sb : E2BSandbox) (code : str)
| CE2BList (sb : E2BSandbox) (path : str)
| CE2BWrite (sb : E2BSandbox) (path : str) (content : pyval)
| CE2BRead (sb : E2BSandbox) (path : str) (format : str)
| CE2BKill (sb : E2BSandbox)
| CSubprocess (cmd : list str) (input : option bytes)
| CPathExists (path : str)
| CReadFile (path : str)
| CWriteFile (path : str) (content : bytes)
| CMakedirs (path : str)
| CUnlink (path : str)
| CTempFile
| CConfigRead (path : str)
| CRequestsPost (url : str) (code : str) (token : str) (timeout : Z)
| CGlobalState.

Definition trace := list call.

(** The world outside the module.  Each answer may depend on every call
    made so far. *)
Record Env := mk_env {
  (* module level *)
  Sandbox_imported : bool;          (* [Sandbox] is not [None] *)
  beta9_imported : bool;            (* [beta9] is not [None] *)
  project_root : str;               (* abspath of the five-levels-up directory *)
  home : str;                       (* [Path.home()] *)
  (* pure library functions *)
  str_lower : str -> str;
  utf8_encode : str -> result bytes;
  utf8_decode : bytes -> result str;
  (* calls *)
  os_getenv : trace -> str -> option str;
  Sandbox_create : trace -> str -> Z -> result E2BSandbox;
  e2b_run_code : trace -> E2BSandbox -> str -> result Execution;
  e2b_files_list : trace -> E2BSandbox -> str -> result (list str);
  e2b_files_write : trace -> E2BSandbox -> str -> pyval -> result unit;
  e2b_files_read : trace -> E2BSandbox -> str -> str -> result pyval;
  e2b_kill : trace -> E2BSandbox -> result unit;
  subprocess_raw : trace -> list str -> option bytes -> result Completed;
  os_path_exists : trace -> str -> bool;
  read_file : trace -> str -> result bytes;
  write_file : trace -> str -> bytes -> result unit;
  os_makedirs : trace -> str -> result unit;
  os_unlink : trace -> str -> result unit;
  temp_file : trace -> result str;
  config_read : trace -> str -> result (dict (dict str));
  requests_post : trace -> str -> str -> str -> Z -> result EndpointReply;
  get_global_state : trace -> result (dict gval)
}.

(** A call: the environment answers from the calls made so far, and the
    call is appended to them. *)
Definition io {A} (c : call) (answer : trace -> result A) : M trace A :=
  fun t => (answer t, t ++ [c]).

(* ================================================================= *)
(** ** The program *)

Section Program.

Variable env : Env.

(** *** [subprocess.run] *)

(** [subprocess.run(cmd, input=input, check=check)] without [text]: the
    output is [bytes].  With [check], a nonzero status raises. *)
Definition check_status (check : bool) (c : Completed) : M trace unit :=
  if check && negb (returncode c =? 0)%Z
  then raise (mk_exn CalledProcessError
                (py "Command returned non-zero exit status "
                 ++ str_of_Z (returncode c)))
  else ret tt.

Definition subprocess_run (cmd : list str) (input : option bytes)
           (check : bool) : M trace (Z * bytes * bytes) :=
  c <- io (CSubprocess cmd input) (fun t => subprocess_raw env t cmd input) ;;
  check_status check c ;;;
  ret (returncode c, raw_stdout c, raw_stderr c).

(** The same with [text=True]: the output is decoded to [str]. *)
Definition subprocess_run_text (cmd : list str) (input : option bytes)
           (check : bool) : M trace (Z * str * str) :=
  c <- io (CSubprocess cmd input) (fun t => subprocess_raw env t cmd input) ;;
  out <- of_result (utf8_decode env (raw_stdout c)) ;;
  err <- of_result (utf8_decode env (raw_stderr c)) ;;
  check_status check c ;;;
  ret (returncode c, out, err).

(** [v.encode('utf-8')]: a method of [str]; [bytes] has none. *)
Definition encode (v : pyval) : result bytes :=
  match v with
  | VStr s => utf8_encode env s
  | VBytes _ =>
      Raise (mk_exn AttributeError
               (py "'bytes' object has no attribute 'encode'"))
  end.

(** [content if isinstance(content, (bytes, bytearray)) else
    content.encode('utf-8')] *)
Definition as_bytes (content : pyval) : result bytes :=
  match content with
  | VBytes b => Ok b
  | VStr s => utf8_encode env s
  end.

(** The names a listing prints, one per line. *)
Definition listing (stdout : str) : list str :=
  map strip (filter (fun f => match strip f with [] => false | _ => true end)
                    (splitlines stdout)).

(** *** DockerSandbox *)

Definition DockerSandbox_init : M trace DockerSandbox :=
  let root := project_root env in
  let compose_file := os_path_join root [py "docker-compose.yml"] in
  _ <- io (CPathExists compose_file)
          (fun t => Ok (os_path_exists env t compose_file)) ;;
  ret (mk_docker (py "docker-sandbox") 3600 root compose_file).

(** [docker compose -f <compose_file> exec -T django ...] *)
Definition docker_exec (d : DockerSandbox) (args : list str) : list str :=
  [py "docker"; py "compose"; py "-f"; docker_compose_file d;
   py "exec"; py "-T"; py "django"] ++ args.

Definition Docker_run_code (d : DockerSandbox) (code : str)
  : M trace Execution :=
  try_except
    (r <- subprocess_run_text (docker_exec d [py "python"; py "-c"; code])
                              None false ;;
     let '(rc, out, err) := r in
     ret (ExecutionResult (OutText out) (OutText err)
            (if (rc =? 0)%Z then None
             else Some (err_of_str
                          (py "Process exited with code " ++ str_of_Z rc)))))
    (fun e => ret (ExecutionResult (OutText []) (OutText [])
                     (Some (err_of_str (exn_str e))))).

Definition Docker_list (d : DockerSandbox) (path : str)
  : M trace (list str) :=
  try_except
    (r <- subprocess_run_text (docker_exec d [py "ls"; py "-1"; path])
                              None false ;;
     let '(rc, out, _) := r in
     if (rc =? 0)%Z then ret (listing out) else ret [])
    (fun _ => ret []).

Definition Docker_write (d : DockerSandbox) (path : str) (content : pyval)
  : M trace unit :=
  let dir_path := os_path_dirname path in
  (match dir_path with
   | [] => ret tt
   | _ =>
       if str_eqb dir_path (py "/") then ret tt
       else
         subprocess_run (docker_exec d [py "mkdir"; py "-p"; dir_path])
                        None false ;;;
         ret tt
   end) ;;;
  input_bytes <- of_result (as_bytes content) ;;
  subprocess_run
    (docker_exec d [py "sh"; py "-c"; py "cat > '" ++ path ++ py "'"])
    (Some input_bytes) true ;;;
  ret tt.

Definition Docker_read (d : DockerSandbox) (path : str) (format : str)
  : M trace pyval :=
  r <- subprocess_run (docker_exec d [py "cat"; path]) None false ;;
  let '(rc, out, _) := r in
  if negb (rc =? 0)%Z
  then raise (mk_exn FileNotFoundError (py "File not found: " ++ path))
  else if str_eqb format (py "bytes")
       then b <- of_result (encode (VBytes out)) ;; ret (VBytes b)
       else ret (VBytes out).

(** *** Beta9Sandbox *)

Definition Beta9Sandbox_init : Beta9Sandbox :=
  mk_beta9 (py "beta9-sandbox") 3600 (py "agento-code-exec")
           (py "agento-sandbox-vol").

Definition failed (msg : str) : Execution :=
  ExecutionResult (OutText []) (OutText []) (Some (err_of_str msg)).

(** [section.get(option, fallback)] *)
Definition get_or (section : dict str) (k : str) (fallback : str) : str :=
  match dict_get section k with
  | Some v => v
  | None => fallback
  end.

(** [try: m except requests.exceptions.RequestException as e: h e] *)
Definition try_except_request {S A} (m : M S A) (h : exn -> M S A)
  : M S A :=
  try_except m
    (fun e => match exn_kind e with
              | RequestException => h e
              | _ => raise e
              end).

Definition Beta9_run_code (b : Beta9Sandbox) (code : str)
  : M trace Execution :=
  try_except
    (let config_path := os_path_join (home env) [py ".beta9"; py "config.ini"] in
     found <- io (CPathExists config_path)
                 (fun t => Ok (os_path_exists env t config_path)) ;;
     if negb found then
       let config_path_json :=
         os_path_join (home env) [py ".beta9"; py "contexts.json"] in
       found_json <- io (CPathExists config_path_json)
                        (fun t => Ok (os_path_exists env t config_path_json)) ;;
       if found_json
       then ret (failed (py "Please update Beta9Sandbox to support contexts.json (found but not using)"))
       else ret (failed (py "Beta9 config not found (~/.beta9/config.ini)"))
     else
       config <- io (CConfigRead config_path)
                    (fun t => config_read env t config_path) ;;
       match dict_get config (py "default") with
       | None => ret (failed (py "No [default] section in Beta9 config"))
       | Some section =>
           let gateway_host := get_or section (py "gateway_host") (py "localhost") in
           let port := get_or section (py "gateway_port") (py "1993") in
           let gateway_port :=
             if str_eqb port (py "1993") then py "1994" else port in
           let token := get_or section (py "token") [] in
           let gateway_url :=
             if negb (startswith gateway_host (py "http"))
             then py "http://" ++ gateway_host ++ py ":" ++ gateway_port
             else gateway_host ++ py ":" ++ gateway_port in
           let endpoint_url :=
             gateway_url ++ py "/endpoint/" ++ beta9_endpoint_name b
             ++ py "/v2" in
           try_except_request
             (result <- io (CRequestsPost endpoint_url code token
                                          (beta9_timeout b))
                           (fun t => requests_post env t endpoint_url code
                                                   token (beta9_timeout b)) ;;
              ret (ExecutionResult (reply_stdout result)
                                   (reply_stderr result)
                                   (reply_error result)))
             (fun e => ret (failed (py "Beta9 API Error: " ++ exn_str e)))
       end)
    (fun e => ret (failed (exn_str e))).

Definition Beta9_list (b : Beta9Sandbox) (path : str)
  : M trace (list str) :=
  try_except
    (r <- subprocess_run_text
            [py "beta9"; py "ls"; beta9_volume_name b ++ py ":" ++ path]
            None false ;;
     let '(rc, out, _) := r in
     if (rc =? 0)%Z then ret (listing out) else ret [])
    (fun _ => ret []).

(** [path if path.startswith('/') else f"/{path}"] *)
Definition volume_path (path : str) : str :=
  if startswith path (py "/") then path else py "/" ++ path.

Definition Beta9_write (b : Beta9Sandbox) (path : str) (content : pyval)
  : M trace unit :=
  temp_path <- io CTempFile (fun t => temp_file env t) ;;
  data <- of_result (as_bytes content) ;;
  io (CWriteFile temp_path data) (fun t => write_file env t temp_path data) ;;;
  try_finally
    (try_except
       (let remote_path := volume_path path in
        subprocess_run
          [py "beta9"; py "cp"; temp_path;
           beta9_volume_name b ++ py ":" ++ remote_path]
          None true ;;;
        ret tt)
       (fun _ => ret tt))          (* the error is printed, not raised *)
    (io (CUnlink temp_path) (fun t => os_unlink env t temp_path)).

Definition Beta9_read (b : Beta9Sandbox) (path : str) (format : str)
  : M trace pyval :=
  let remote_path := volume_path path in
  local_temp <- io CTempFile (fun t => temp_file env t) ;;
  try_finally
    (try_except
       (subprocess_run
          [py "beta9"; py "cp";
           beta9_volume_name b ++ py ":" ++ remote_path; local_temp]
          None true ;;;
        content <- io (CReadFile local_temp)
                      (fun t => read_file env t local_temp) ;;
        if str_eqb format (py "bytes") then ret (VBytes content)
        else s <- of_result (utf8_decode env content) ;; ret (VStr s))
       (fun _ => raise (mk_exn FileNotFoundError
                          (py "File not found: " ++ path))))
    (found <- io (CPathExists local_temp)
                 (fun t => Ok (os_path_exists env t local_temp)) ;;
     if found
     then io (CUnlink local_temp) (fun t => os_unlink env t local_temp)
     else ret tt).

(** *** The adapter interface, by dynamic dispatch *)

Inductive backend :=
| E2B (s : E2BSandbox)
| Beta9 (s : Beta9Sandbox)
| Docker (s : DockerSandbox).

Definition run_code (sb : backend) (code : str) : M trace Execution :=
  match sb with
  | E2B s => io (CE2BRunCode s code) (fun t => e2b_run_code env t s code)
  | Beta9 s => Beta9_run_code s code
  | Docker s => Docker_run_code s code
  end.

Definition files_list (sb : backend) (path : str) : M trace (list str) :=
  match sb with
  | E2B s => io (CE2BList s path) (fun t => e2b_files_list env t s path)
  | Beta9 s => Beta9_list s path
  | Docker s => Docker_list s path
  end.

Definition files_write (sb : backend) (path : str) (content : pyval)
  : M trace unit :=
  match sb with
  | E2B s => io (CE2BWrite s path content)
                (fun t => e2b_files_write env t s path content)
  | Beta9 s => Beta9_write s path content
  | Docker s => Docker_write s path content
  end.

Definition files_read (sb : backend) (path : str) (format : str)
  : M trace pyval :=
  match sb with
  | E2B s => io (CE2BRead s path format)
                (fun t => e2b_files_read env t s path format)
  | Beta9 s => Beta9_read s path format
  | Docker s => Docker_read s path format
  end.

(** [sandbox.files._resolve_path(path)]: the two local adapters define
    it; the files object of E2B does not. *)
Definition files_resolve_path (sb : backend) (path : str) : M trace str :=
  match sb with
  | E2B _ =>
      raise (mk_exn AttributeError
               (py "'Filesystem' object has no attribute '_resolve_path'"))
  | Beta9 _ | Docker _ => ret path
  end.

(** [sandbox.kill()]; the two local adapters do nothing. *)
Definition kill (sb : backend) : M trace unit :=
  match sb with
  | E2B s => io (CE2BKill s) (fun t => e2b_kill env t s)
  | Beta9 _ | Docker _ => ret tt
  end.

(** *** SessionSandbox *)

Record SessionSandbox := mk_session {
  sandbox : option backend;
  sandbox_id : option str;
  uploaded_reference_files : dict str;     (* local_path -> remote_path *)
  use_local_fallback : bool
}.

(** [SessionSandbox()] *)
Definition SessionSandbox_init : SessionSandbox :=
  mk_session None None [] false.

(** The state of a method call: the object [self] and the calls made. *)
Record State := mk_state { self : SessionSandbox; world : trace }.

Definition lift {A} (m : M trace A) : M State A :=
  fun st =>
    match m (world st) with
    | (r, t) => (r, mk_state (self st) t)
    end.

Definition get_self : M State SessionSandbox := fun st => (Ok (self st), st).

Definition set_self (f : SessionSandbox -> SessionSandbox) : M State unit :=
  fun st => (Ok tt, mk_state (f (self st)) (world st)).

Definition set_sandbox (v : option backend) (s : SessionSandbox) :=
  mk_session v (sandbox_id s) (uploaded_reference_files s)
             (use_local_fallback s).

Definition set_sandbox_id (v : option str) (s : SessionSandbox) :=
  mk_session (sandbox s) v (uploaded_reference_files s)
             (use_local_fallback s).

Definition set_uploaded (v : dict str) (s : SessionSandbox) :=
  mk_session (sandbox s) (sandbox_id s) v (use_local_fallback s).

Definition set_use_local_fallback (v : bool) (s : SessionSandbox) :=
  mk_session (sandbox s) (sandbox_id s) (uploaded_reference_files s) v.

(** A method called on a value that may be [None]. *)
Definition on_object {S A} (o : option backend) (f : backend -> M S A)
  : M S A :=
  match o with
  | Some sb => f sb
  | None =>
      raise (mk_exn AttributeError (py "'NoneType' object has no attribute"))
  end.

Definition E2B_PLACEHOLDER : str := py "your-e2b-api-key-here".

(** [e2b_key and e2b_key.strip() and e2b_key != "your-e2b-api-key-here"] *)
Definition key_usable (e2b_key : option str) : bool :=
  match e2b_key with
  | None => false
  | Some k =>
      match k with [] => false | _ => true end
      && match strip k with [] => false | _ => true end
      && negb (str_eqb k E2B_PLACEHOLDER)
  end.

(** The block under [if self.sandbox is None:]. *)
Definition create_sandbox (timeout : Z) : M State unit :=
  e2b_key <- lift (io (CGetenv (py "E2B_API_KEY"))
                      (fun t => Ok (os_getenv env t (py "E2B_API_KEY")))) ;;
  if Sandbox_imported env && key_usable e2b_key then
    try_except
      (sb <- lift (io (CE2BCreate (py "gdpval-workspace") timeout)
                      (fun t => Sandbox_create env t (py "gdpval-workspace")
                                               timeout)) ;;
       set_self (set_sandbox (Some (E2B sb))) ;;;
       set_self (set_sandbox_id (e2b_id sb)) ;;;
       set_self (set_use_local_fallback false))
      (fun _ =>
         set_self (set_use_local_fallback true) ;;;
         set_self (set_sandbox (Some (Beta9 Beta9Sandbox_init))) ;;;
         set_self (set_sandbox_id (Some (py "beta9-fallback"))))
  else if beta9_imported env then
    set_self (set_sandbox (Some (Beta9 Beta9Sandbox_init))) ;;;
    set_self (set_sandbox_id (Some (py "beta9-primary"))) ;;;
    set_self (set_use_local_fallback true)
  else
    set_self (set_use_local_fallback true) ;;;
    d <- lift DockerSandbox_init ;;
    set_self (set_sandbox (Some (Docker d))) ;;;
    set_self (set_sandbox_id (Some (py "docker-fallback"))).

(** The health check of an existing sandbox: [Some sb] when the method
    returns [sb] at once, [None] when it goes on. *)
Definition health_check : M State (option backend) :=
  s <- get_self ;;
  match sandbox s with
  | Some sb =>
      try_except
        (lift (files_list sb (py "/")) ;;;
         ret (Some sb))
        (fun _ =>
           try_except (lift (kill sb)) (fun _ => ret tt) ;;;
           set_self (set_sandbox None) ;;;
           set_self (set_sandbox_id None) ;;;
           set_self (set_uploaded []) ;;;
           ret None)
  | None => ret None
  end.

Definition get_or_create_sandbox (timeout : Z) : M State (option backend) :=
  healthy <- health_check ;;
  match healthy with
  | Some sb => ret (Some sb)
  | None =>
      s <- get_self ;;
      (match sandbox s with
       | None => create_sandbox timeout
       | Some _ => ret tt
       end) ;;;
      s' <- get_self ;;
      ret (sandbox s')
  end.

Definition upload_reference_file (local_path remote_dir : str)
  : M State str :=
  found <- lift (io (CPathExists local_path)
                    (fun t => Ok (os_path_exists env t local_path))) ;;
  if negb found
  then raise (mk_exn FileNotFoundError
                (py "Reference file not found: " ++ local_path))
  else
    s <- get_self ;;
    match dict_get (uploaded_reference_files s) local_path with
    | Some remote_path => ret remote_path
    | None =>
        sb <- get_or_create_sandbox 3600 ;;
        content <- lift (io (CReadFile local_path)
                            (fun t => read_file env t local_path)) ;;
        let filename := os_path_basename local_path in
        let remote_path := remote_dir ++ py "/" ++ filename in
        try_except
          (on_object sb (fun o => lift (files_write o remote_path
                                                    (VBytes content))) ;;;
           set_self (fun s => set_uploaded
                       (dict_set (uploaded_reference_files s)
                                 local_path remote_path) s) ;;;
           s1 <- get_self ;;
           (if use_local_fallback s1
            then on_object sb (fun o => lift (files_resolve_path o remote_path)) ;;;
                 ret tt
            else ret tt) ;;;
           ret remote_path)
          (fun e =>
             raise (mk_exn RuntimeError
                      (py "Failed to upload file " ++ local_path ++ py " to "
                       ++ remote_path ++ py ": " ++ exn_str e)))
    end.

Definition download_artifact (remote_path local_dir : str) : M State str :=
  s <- get_self ;;
  match sandbox s with
  | None => raise (mk_exn RuntimeError (py "No active sandbox"))
  | Some sb =>
      try_except
        (content_bytes <- lift (files_read sb remote_path (py "bytes")) ;;
         lift (io (CMakedirs local_dir)
                  (fun t => os_makedirs env t local_dir)) ;;;
         let filename := os_path_basename remote_path in
         let local_path := os_path_join local_dir [filename] in
         (match content_bytes with
          | VBytes b =>
              lift (io (CWriteFile local_path b)
                       (fun t => write_file env t local_path b))
          | VStr _ =>
              (* the file is opened, then [f.write] refuses a [str] *)
              lift (io (CWriteFile local_path [])
                       (fun t => write_file env t local_path [])) ;;;
              raise (mk_exn TypeError
                       (py "a bytes-like object is required, not 'str'"))
          end) ;;;
         ret local_path)
        (fun e =>
           raise (mk_exn RuntimeError
                    (py "Failed to download " ++ remote_path ++ py ": "
                     ++ exn_str e)))
  end.

(** *** execute_code *)

(** The values of the response dictionary. *)
Inductive rval :=
| RNone
| RBool (b : bool)
| RInt (z : Z)
| RStr (s : str)
| RList (l : list str)
| RLogs (l : logsval).

(** The process: the class attribute [SessionSandbox._instance] and the
    calls made. *)
Record Process := mk_process {
  _instance : option SessionSandbox;
  calls : trace
}.

Definition lift_io {A} (m : M trace A) : M Process A :=
  fun p =>
    match m (calls p) with
    | (r, t) => (r, mk_process (_instance p) t)
    end.

(** [SessionSandbox.get_instance()] *)
Definition get_instance : M Process SessionSandbox :=
  fun p =>
    match _instance p with
    | Some s => (Ok s, p)
    | None =>
        (Ok SessionSandbox_init,
         mk_process (Some SessionSandbox_init) (calls p))
    end.

(** Methods run on the singleton [s]; what they do to it stays in
    [_instance]. *)
Definition on_session {A} (s : SessionSandbox) (m : M State A)
  : M Process A :=
  fun p =>
    match m (mk_state s (calls p)) with
    | (r, st) => (r, mk_process (Some (self st)) (world st))
    end.

(** The text searched for markers. *)
Definition stdout_text (l : logsval) : result str :=
  match l with
  | LogsObj (OutLines lines) _ => Ok (join NL lines)
  | LogsObj OutBadList _ =>
      Raise (mk_exn TypeError (py "sequence item: expected str instance"))
  | LogsObj (OutText s) _ => Ok s
  | LogsOther s => Ok s
  end.

(** An argument of [os.path.join]. *)
Definition fspath (v : gval) : result str :=
  match v with
  | GStr s => Ok s
  | GOther _ =>
      Raise (mk_exn TypeError
               (py "expected str, bytes or os.PathLike object"))
  end.

Definition truthy (v : option gval) : bool :=
  match v with
  | Some g => gval_truthy g
  | None => false
  end.

(** The loop over [artifact_paths]: a download that raises is skipped. *)
Fixpoint download_each (artifact_paths : list str) (sandbox_dir : str)
         (downloaded_artifacts : list str) : M State (list str) :=
  match artifact_paths with
  | [] => ret downloaded_artifacts
  | remote_path :: rest =>
      d <- try_except
             (local_path <- download_artifact remote_path sandbox_dir ;;
              ret (downloaded_artifacts ++ [local_path]))
             (fun _ => ret downloaded_artifacts) ;;
      download_each rest sandbox_dir d
  end.

(** [f"{sandbox_id}"] *)
Definition fmt_id (o : option str) : str :=
  match o with
  | Some s => s
  | None => py "None"
  end.

Definition CHECK_MARK : str := [9989%N].
Definition CROSS_MARK : str := [10060%N].
Definition PAPERCLIP : str := [128206%N].
Definition BULLET : str := [8226%N].
Definition INBOX : str := [128229%N].
Definition WARNING_SIGN : str := [9888%N; 65039%N].

Definition reference_files_note (uploaded : dict str) : str :=
  match uploaded with
  | [] => []
  | _ =>
      NL ++ NL ++ PAPERCLIP
      ++ py " REFERENCE FILES AVAILABLE in sandbox at /home/user/reference_files/:"
      ++ concat (map (fun kv =>
                        NL ++ py "  " ++ BULLET ++ py " "
                        ++ os_path_basename (snd kv) ++ py " at " ++ snd kv)
                     uploaded)
  end.

Definition downloaded_note (downloaded_artifacts : list str) : str :=
  match downloaded_artifacts with
  | [] => []
  | _ =>
      NL ++ NL ++ INBOX ++ py " DOWNLOADED "
      ++ str_of_nat (length downloaded_artifacts)
      ++ py " ARTIFACT(S) - Use these paths for submit_work:"
      ++ concat (map (fun p => NL ++ py "  " ++ CHECK_MARK ++ py " " ++ p)
                     downloaded_artifacts)
      ++ NL ++ NL ++ WARNING_SIGN
      ++ py " IMPORTANT: Use the paths above (not /tmp/ paths) when calling submit_work!"
  end.

(** The artifact step: which local paths were downloaded. *)
Definition collect_artifacts (success : bool) (stdout_str : str)
           (global_state : dict gval) : M State (list str) :=
  if success && contains ARTIFACT_MARKER stdout_str then
    let artifact_paths := find_artifact_paths stdout_str in
    if match artifact_paths with [] => false | _ => true end
       && truthy (dict_get global_state (py "data_path"))
    then
      let current_date :=
        match dict_get global_state (py "current_date") with
        | Some v => v
        | None => GStr (py "unknown")
        end in
      data_path <- match dict_get global_state (py "data_path") with
                   | Some v => of_result (fspath v)
                   | None => raise (mk_exn OtherException (py "'data_path'"))
                   end ;;
      date <- of_result (fspath current_date) ;;
      let sandbox_dir := os_path_join data_path [py "sandbox"; date] in
      lift (io (CMakedirs sandbox_dir)
               (fun t => os_makedirs env t sandbox_dir)) ;;;
      download_each artifact_paths sandbox_dir []
    else ret []
  else ret [].

(** [error is None] *)
Definition error_is_none (execution : Execution) : bool :=
  match error execution with
  | None => true
  | Some _ => false
  end.

(** The response of a run that returned [execution]. *)
Definition response (execution : Execution) (s : SessionSandbox)
           (downloaded_artifacts : list str) : dict rval :=
  let success := error_is_none execution in
  let message :=
    (if success
     then CHECK_MARK ++ py " Code executed in " ++ fmt_id (sandbox_id s)
     else CROSS_MARK ++ py " " ++ fmt_id (sandbox_id s)
          ++ py " execution reported an error")
    ++ reference_files_note (uploaded_reference_files s)
    ++ downloaded_note downloaded_artifacts in
  [ (py "success", RBool success);
    (py "exit_code", RInt (if success then 0 else 1));
    (py "stdout", if success then RLogs (logs execution) else RStr []);
    (py "stderr",
      match error execution with
      | Some e => if err_truthy e then RStr (err_str e) else RStr []
      | None => RStr []
      end);
    (py "sandbox_id",
      match sandbox_id s with Some i => RStr i | None => RNone end);
    (py "message", RStr message) ]
  ++ match downloaded_artifacts with
     | [] => []
     | _ => [(py "downloaded_artifacts", RList downloaded_artifacts)]
     end.

(** The rest of the outer [try], once [run_code] has returned. *)
Definition report (execution : Execution) (global_state : dict gval)
  : M State (dict rval) :=
  let success := error_is_none execution in
  stdout_str <- of_result (stdout_text (logs execution)) ;;
  downloaded_artifacts <- collect_artifacts success stdout_str global_state ;;
  s <- get_self ;;
  ret (response execution s downloaded_artifacts).

(** The response of the inner handler. *)
Definition execution_failed (e : exn) : dict rval :=
  [ (py "success", RBool false);
    (py "error", RStr (py "Sandbox execution failed: " ++ exn_str e)) ].

(** The response of the outer handler. *)
Definition unexpected_error (e : exn) : dict rval :=
  [ (py "success", RBool false);
    (py "error",
      RStr (py "Unexpected error during sandbox execution: " ++ exn_str e)) ].

(** The body of the outer [try]. *)
Definition run_and_collect (code : str) (global_state : dict gval)
  : M State (dict rval) :=
  sb <- get_or_create_sandbox 3600 ;;
  r <- try_except
         (execution <- on_object sb (fun o => lift (run_code o code)) ;;
          ret (inl execution))
         (fun e => ret (inr (execution_failed e))) ;;
  match r with
  | inr failure => ret failure
  | inl execution => report execution global_state
  end.

(** [global_state = {}; try: global_state = _get_global_state() except
    Exception: pass] *)
Definition read_global_state : M trace (dict gval) :=
  try_except (io CGlobalState (fun t => get_global_state env t))
             (fun _ => ret []).

Definition execute_code (code language : str) : M Process (dict rval) :=
  match code with
  | [] => ret [ (py "error", RStr (py "Code cannot be empty")) ]
  | _ =>
      let language := strip (str_lower env language) in
      if negb (str_eqb language (py "python")) then
        ret [ (py "error",
                RStr (py "Language '" ++ language ++ py "' not supported"));
              (py "supported_languages", RList [py "python"]) ]
      else
        global_state <- lift_io read_global_state ;;
        session_sandbox <- get_instance ;;
        try_except
          (on_session session_sandbox (run_and_collect code global_state))
          (fun e => ret (unexpected_error e))
  end.

(** *** The rest of the module *)

(** [SessionSandbox.cleanup] *)
Definition cleanup : M State unit :=
  s <- get_self ;;
  match sandbox s with
  | Some sb =>
      try_except (lift (kill sb)) (fun _ => ret tt) ;;;
      set_self (set_sandbox None) ;;;
      set_self (set_sandbox_id None) ;;;
      set_self (set_uploaded [])
  | None => ret tt
  end.

(** [SessionSandbox.reset] *)
Definition reset : M Process unit :=
  fun p =>
    match
      (match _instance p with
       | Some s =>
           match sandbox s with
           | Some sb => lift_io (try_except (kill sb) (fun _ => ret tt))
           | None => ret tt
           end
       | None => ret tt
       end) p
    with
    | (r, p') => (r, mk_process None (calls p'))
    end.

(** [cleanup_session_sandbox] *)
Definition cleanup_session_sandbox : M Process unit := reset.

Definition REFERENCE_DIR : str := py "/home/user/reference_files".

(** The loop of [upload_task_reference_files]: an upload that raises is
    reported and skipped. *)
Fixpoint upload_each (reference_file_paths : list str)
         (remote_paths : list str) : M State (list str) :=
  match reference_file_paths with
  | [] => ret remote_paths
  | local_path :: rest =>
      r <- try_except
             (remote_path <- upload_reference_file local_path REFERENCE_DIR ;;
              ret (remote_paths ++ [remote_path]))
             (fun _ => ret remote_paths) ;;
      upload_each rest r
  end.

Definition upload_task_reference_files (reference_file_paths : list str)
  : M Process (list str) :=
  match reference_file_paths with
  | [] => ret []
  | _ =>
      session_sandbox <- get_instance ;;
      on_session session_sandbox
        (get_or_create_sandbox 3600 ;;;
         upload_each reference_file_paths [])
  end.

End Program.

(* ================================================================= *)
(** ** The artifact protocol, in the words of its description *)

(** A path token: one non-whitespace character or more. *)
Definition token (tok : str) : Prop :=
  tok <> [] /\ Forall (fun c => is_space c = false) tok.

(** The text after a token: the end of the text or a whitespace. *)
Definition ends_token (rest : str) : Prop :=
  match rest with
  | [] => True
  | c :: _ => is_space c = true
  end.

(** The marker stands in [s] right after [pre], followed by a character
    that is no whitespace. *)
Definition marked_at (s pre : str) : Prop :=
  exists c post, s = pre ++ ARTIFACT_MARKER ++ c :: post /\ is_space c = false.

(** What the words "the substring after each occurrence of the marker, up
    to the next whitespace" describe: one entry per position where the
    marker stands. *)
Fixpoint tokens_after_each_marker (s : str) : list str :=
  (if startswith s ARTIFACT_MARKER
   then [take_while (fun c => negb (is_space c))
                    (skipn (length ARTIFACT_MARKER) s)]
   else [])
  ++ match s with
     | [] => []
     | _ :: r => tokens_after_each_marker r
     end.

(* ================================================================= *)
(** ** Requests and runs *)

(** A request that passes the validation of [execute_code]. *)
Definition valid_request (env : Env) (code language : str) : Prop :=
  code <> [] /\ strip (str_lower env language) = py "python".

(** From the process [p], [execute_code] reads the global state [gs],
    obtains the session, and [run_code] returns [execution], leaving the
    session and the calls as in [st]. *)
Definition reaches_backend (env : Env) (code : str) (p : Process)
           (gs : dict gval) (execution : Execution) (st : State) : Prop :=
  exists p0 s p1 sb st1,
    lift_io (read_global_state env) p = (Ok gs, p0)
    /\ get_instance p0 = (Ok s, p1)
    /\ get_or_create_sandbox env 3600 (mk_state s (calls p1)) = (Ok sb, st1)
    /\ on_object sb (fun o => lift (run_code env o code)) st1
       = (Ok execution, st).

(** The process a method leaves behind. *)
Definition process_of (st : State) : Process :=
  mk_process (Some (self st)) (world st).

(* ================================================================= *)
(** ** Concrete worlds, for running the program *)

Definition ascii_lower (s : str) : str :=
  map (fun c => if ((65 <=? c) && (c <=? 90))%N then (c + 32)%N else c) s.

Definition not_ascii : exn :=
  mk_exn OtherException (py "codec can't handle a character outside ASCII").

(** UTF-8 on its ASCII part. *)
Fixpoint ascii_encode (s : str) : result bytes :=
  match s with
  | [] => Ok []
  | c :: r =>
      match (if (c <? 128)%N then Byte.of_N c else None), ascii_encode r with
      | Some b, Ok bs => Ok (b :: bs)
      | _, _ => Raise not_ascii
      end
  end.

Fixpoint ascii_decode (b : bytes) : result str :=
  match b with
  | [] => Ok []
  | x :: r =>
      match ascii_decode r with
      | Ok s => if (Byte.to_N x <? 128)%N then Ok (Byte.to_N x :: s)
                else Raise not_ascii
      | Raise e => Raise e
      end
  end.

(** A PNG-like payload, with a NUL byte. *)
Definition png_bytes : bytes := [x89; x50; x4e; x47; x00; x0d; x0a].

(** A run that prints two markers. *)
Definition two_artifacts : Execution :=
  mk_exec (LogsObj (OutLines [py "a"; py "ARTIFACT_PATH:/tmp/x.txt"; py "b";
                              py "ARTIFACT_PATH:/tmp/y.png"])
                   (OutLines []))
          None.

Definition os_error (msg : string) : exn := mk_exn OtherException (py msg).

(** A world given by: which libraries import, the credential, what the
    E2B run and the E2B listing answer, what a subprocess answers, what
    [os.makedirs] answers and what the global state holds.  Sandboxes are
    created with the id "sbx-1", local files exist and hold [png_bytes]. *)
Definition scenario (sdk b9 : bool) (key : option str)
           (run : result Execution) (probe : result (list str))
           (sub : trace -> list str -> option bytes -> result Completed)
           (mkd : result unit) (gs : result (dict gval)) : Env :=
  mk_env sdk b9 (py "/app") (py "/root")
         ascii_lower ascii_encode ascii_decode
         (fun _ _ => key)
         (fun _ _ _ => Ok (mk_e2b 1 (Some (py "sbx-1"))))
         (fun _ _ _ => run)
         (fun _ _ _ => probe)
         (fun _ _ _ _ => Ok tt)
         (fun _ _ _ _ => Ok (VBytes png_bytes))
         (fun _ _ => Ok tt)
         sub
         (fun _ _ => true)
         (fun _ _ => Ok png_bytes)
         (fun _ _ _ => Ok tt)
         (fun _ _ => mkd)
         (fun _ _ => Ok tt)
         (fun _ => Ok (py "/tmp/tmp0"))
         (fun _ _ => Ok [])
         (fun _ _ _ _ _ => Raise (mk_exn RequestException (py "unreachable")))
         (fun _ => gs).

(** Every command exits with status 1. *)
Definition failing_commands : trace -> list str -> option bytes -> result Completed :=
  fun _ _ _ => Ok (mk_completed 1 [] []).

Definition task_state : dict gval :=
  [ (py "data_path", GStr (py "/data"));
    (py "current_date", GStr (py "2026-01-01")) ].

(** The same output, from a run that ended in an error. *)
Definition two_artifacts_failed : Execution :=
  mk_exec (logs two_artifacts)
          (Some (mk_err true (py "NameError: name 'x' is not defined"))).

(** E2B configured and alive. *)
Definition cloud_world : Env :=
  scenario true true (Some (py "e2b_live_key")) (Ok two_artifacts) (Ok []) failing_commands
           (Ok tt) (Ok task_state).

(** The same, with no [data_path] in the global state. *)
Definition cloud_world_no_data_path : Env :=
  scenario true true (Some (py "e2b_live_key")) (Ok two_artifacts) (Ok []) failing_commands
           (Ok tt) (Ok [ (py "current_date", GStr (py "2026-01-01")) ]).

(** The same, where the run reports an error. *)
Definition cloud_world_failed_run : Env :=
  scenario true true (Some (py "e2b_live_key")) (Ok two_artifacts_failed)
           (Ok []) failing_commands (Ok tt) (Ok task_state).

(** The same, where the download directory cannot be created. *)
Definition cloud_world_readonly : Env :=
  scenario true true (Some (py "e2b_live_key")) (Ok two_artifacts) (Ok []) failing_commands
           (Raise (os_error "[Errno 13] Permission denied: '/data/sandbox'"))
           (Ok task_state).

(** The same, where the sandbox no longer answers the listing. *)
Definition cloud_world_dead : Env :=
  scenario true true (Some (py "e2b_live_key")) (Ok two_artifacts)
           (Raise (os_error "sandbox not found")) failing_commands
           (Ok tt) (Ok task_state).

(** A credential, but no E2B SDK; the Beta9 library imports and every
    [beta9] command fails. *)
Definition volume_world : Env :=
  scenario false true (Some (py "e2b_live_key")) (Ok two_artifacts) (Ok []) failing_commands
           (Ok tt) (Ok task_state).

(** The files of the container, read back from the calls: the last
    [cat > 'path'] fed to it. *)
Fixpoint container_file (write_cmd : list str) (t : trace)
         (found : option bytes) : option bytes :=
  match t with
  | [] => found
  | CSubprocess cmd (Some b) :: r =>
      if list_eq_dec (list_eq_dec N.eq_dec) cmd write_cmd
      then container_file write_cmd r (Some b)
      else container_file write_cmd r found
  | _ :: r => container_file write_cmd r found
  end.

Definition compose_file_of (root : str) : str :=
  os_path_join root [py "docker-compose.yml"].

(** A container that keeps its files: [cat path] prints what was written
    to [path], every other command succeeds and prints nothing. *)
Definition container_commands (root : str)
  : trace -> list str -> option bytes -> result Completed :=
  fun t cmd _ =>
    match skipn 7 cmd with
    | [verb; path] =>
        if str_eqb verb (py "cat") then
          match container_file
                  ([py "docker"; py "compose"; py "-f"; compose_file_of root;
                    py "exec"; py "-T"; py "django"; py "sh"; py "-c";
                    py "cat > '" ++ path ++ py "'"]) t None with
          | Some b => Ok (mk_completed 0 b [])
          | None => Ok (mk_completed 1 [] [])
          end
        else Ok (mk_completed 0 [] [])
    | _ => Ok (mk_completed 0 [] [])
    end.

(** Neither E2B nor Beta9: the local container, which keeps its files. *)
Definition container_world : Env :=
  scenario false false None (Ok two_artifacts) (Ok []) (container_commands (py "/app"))
           (Ok tt) (Ok task_state).

(** A session on E2B, with one reference file uploaded. *)
Definition cloud_session : SessionSandbox :=
  mk_session (Some (E2B (mk_e2b 1 (Some (py "sbx-1")))))
             (Some (py "sbx-1"))
             [ (py "/in/a.png", py "/home/user/reference_files/a.png") ]
             false.

Definition fresh_process : Process := mk_process None [].

Definition fresh_state : State := mk_state SessionSandbox_init [].

(** A command that did not succeed: it raised, or exited with a status
    other than 0. *)
Definition command_failed (r : result Completed) : Prop :=
  match r with
  | Ok c => returncode c <> 0%Z
  | Raise _ => True
  end.

(** The command by which the Beta9 adapter copies [temp_path] to [path] on
    its volume. *)
Definition beta9_cp (b : Beta9Sandbox) (temp_path path : str) : list str :=
  [py "beta9"; py "cp"; temp_path;
   beta9_volume_name b ++ py ":" ++ volume_path path].

(* ================================================================= *)
(** ** beta9_endpoint.py: the function deployed as "agento-code-exec" *)

Module Endpoint.

(** The calls of [run_code] on the worker. *)
Inductive ecall :=
| EMakedirs (path : str)
| EGetcwd
| EChdir (path : str)
| EExec (code : str).

Definition etrace := list ecall.

(** What [exec(code, ...)] did under the two redirections: the text that
    reached each capture and the exception it ended with, if any. *)
Record Ran := mk_ran {
  wrote_stdout : str;
  wrote_stderr : str;
  ended_with : option exn
}.

(** What [traceback.print_exc()] did: the text that reached the capture of
    stderr, and the exception it raised, if any (the code that ran may
    have replaced [sys.stderr]). *)
Record Printed := mk_printed {
  print_wrote : str;
  print_raised : option exn
}.

Record WorkerEnv := mk_worker {
  worker_makedirs : etrace -> str -> result unit;
  worker_getcwd : etrace -> result str;
  worker_chdir : etrace -> str -> result unit;
  worker_exec : etrace -> str -> Ran;
  worker_print_exc : etrace -> exn -> Printed
}.

(** The dictionary [run_code] returns. *)
Record Reply := mk_reply_dict {
  r_stdout : str;
  r_stderr : str;
  r_exit_code : Z;
  r_error : option str;
  r_files_dir : str
}.

(** The state of one call: the calls made and the two captures
    ([stdout_capture], [stderr_capture]). *)
Record Worker := mk_wstate {
  wcalls : etrace;
  stdout_capture : str;
  stderr_capture : str
}.

Definition eio {A} (c : ecall) (answer : etrace -> result A) : M Worker A :=
  fun s =>
    (answer (wcalls s),
     mk_wstate (wcalls s ++ [c]) (stdout_capture s) (stderr_capture s)).

(** [exec(code, {"__name__": "__main__"})] under the redirections: the
    captures grow by what the code wrote, and the exception of the code is
    raised. *)
Definition exec_code (w : WorkerEnv) (code : str) : M Worker unit :=
  fun s =>
    let ran := worker_exec w (wcalls s) code in
    (match ended_with ran with
     | None => Ok tt
     | Some ex => Raise ex
     end,
     mk_wstate (wcalls s ++ [EExec code])
               (stdout_capture s ++ wrote_stdout ran)
               (stderr_capture s ++ wrote_stderr ran)).

(** [traceback.print_exc()] in the handler of [ex]. *)
Definition print_exc (w : WorkerEnv) (ex : exn) : M Worker unit :=
  fun s =>
    let p := worker_print_exc w (wcalls s) ex in
    (match print_raised p with
     | None => Ok tt
     | Some e => Raise e
     end,
     mk_wstate (wcalls s) (stdout_capture s)
               (stderr_capture s ++ print_wrote p)).

Definition captures : M Worker (str * str) :=
  fun s => (Ok (stdout_capture s, stderr_capture s), s).

(** The first [try] of [run_code]: the working directory becomes
    "/sandbox", or "/tmp/sandbox_files" when that fails. *)
Definition enter_files_dir (w : WorkerEnv) : M Worker str :=
  try_except
    (eio (EChdir (py "/sandbox"))
         (fun t => worker_chdir w t (py "/sandbox")) ;;;
     ret (py "/sandbox"))
    (fun _ =>
       let files_dir := py "/tmp/sandbox_files" in
       eio (EMakedirs files_dir) (fun t => worker_makedirs w t files_dir) ;;;
       eio (EChdir files_dir) (fun t => worker_chdir w t files_dir) ;;;
       ret files_dir).

(** The body of [run_code]. *)
Definition run_code_body (w : WorkerEnv) (code : str) : M Worker Reply :=
  eio (EMakedirs (py "/sandbox"))
      (fun t => worker_makedirs w t (py "/sandbox")) ;;;
  cwd <- eio EGetcwd (fun t => worker_getcwd w t) ;;
  files_dir <- enter_files_dir w ;;
  outcome <-
    try_finally
      (try_except
         (* with redirect_stdout(...), redirect_stderr(...): *)
         (exit_code <-
            try_except
              (exec_code w code ;;; ret 0%Z)
              (fun ex => print_exc w ex ;;; ret 1%Z) ;;
          ret (exit_code, None))
         (fun e => ret (1%Z, Some (exn_str e))))
      (eio (EChdir cwd) (fun t => worker_chdir w t cwd)) ;;
  let '(exit_code, error_message) := outcome in
  c <- captures ;;
  ret (mk_reply_dict (fst c) (snd c) exit_code error_message files_dir).

Definition run_code (w : WorkerEnv) (code : str) : M etrace Reply :=
  fun t =>
    match run_code_body w code (mk_wstate t [] []) with
    | (r, s) => (r, wcalls s)
    end.

End Endpoint.

(** The JSON object of the endpoint as [Beta9Sandbox.run_code] reads it:
    [result.get("stdout", "")], [result.get("stderr", "")],
    [result.get("error")]. *)
Definition reply_of_endpoint (r : Endpoint.Reply) : EndpointReply :=
  mk_reply (OutText (Endpoint.r_stdout r)) (OutText (Endpoint.r_stderr r))
           (option_map err_of_str (Endpoint.r_error r)).

(** The configuration file of the Beta9 adapter. *)
Definition beta9_config_path (env : Env) : str :=
  os_path_join (home env) [py ".beta9"; py "config.ini"].

(* ================================================================= *)
(** ** What holds of every session the module builds *)

(** The sandbox, its id and the fallback flag agree. *)
Definition session_ok (s : SessionSandbox) : Prop :=
  match sandbox s with
  | None => True
  | Some (E2B h) =>
      sandbox_id s = e2b_id h /\ use_local_fallback s = false
  | Some (Beta9 b) =>
      b = Beta9Sandbox_init /\ use_local_fallback s = true
      /\ (sandbox_id s = Some (py "beta9-fallback")
          \/ sandbox_id s = Some (py "beta9-primary"))
  | Some (Docker d) =>
      sandbox_id s = Some (py "docker-fallback")
      /\ use_local_fallback s = true
  end.

Definition process_ok (p : Process) : Prop :=
  match _instance p with
  | Some s => session_ok s
  | None => True
  end.

(** A sandbox that is one of the two local adapters. *)
Definition is_local (sb : backend) : bool :=
  match sb with
  | E2B _ => false
  | Beta9 _ | Docker _ => true
  end.


(** A method that leaves the fields of [self] as they are. *)
Definition keeps_self {A} (m : M State A) : Prop :=
  forall st, self (snd (m st)) = self st.

(** The elements of [l] a mask selects, in order. *)
Fixpoint keep {A} (mask : list bool) (l : list A) : list A :=
  match mask, l with
  | b :: m, x :: r => if b then x :: keep m r else keep m r
  | _, _ => []
  end.

(** The local path a download of [remote_path] into [local_dir] writes. *)
Definition local_copy (local_dir remote_path : str) : str :=
  os_path_join local_dir [os_path_basename remote_path].

(** The local container, where every command fails. *)
Definition broken_container_world : Env :=
  scenario false false None (Ok two_artifacts) (Ok []) failing_commands
           (Ok tt) (Ok task_state).

(** A session on the local container. *)
Definition container_session : SessionSandbox :=
  mk_session (Some (Docker (mk_docker (py "docker-sandbox") 3600 (py "/app")
                                      (py "/app/docker-compose.yml"))))
             (Some (py "docker-fallback")) [] true.

(** A method that keeps [session_ok]. *)
Definition keeps_ok {A} (m : M State A) : Prop :=
  forall st, session_ok (self st) -> session_ok (self (snd (m st))).

(** A worker on which the code raises after printing nothing. *)
Definition crashing_worker : Endpoint.WorkerEnv :=
  Endpoint.mk_worker
    (fun _ _ => Ok tt) (fun _ => Ok (py "/workspace")) (fun _ _ => Ok tt)
    (fun _ _ => Endpoint.mk_ran [] []
                  (Some (mk_exn OtherException (py "ValueError: boom"))))
    (fun _ e =>
       Endpoint.mk_printed
         (py "Traceback (most recent call last): " ++ exn_str e) None).

(** A worker on which the code replaces [sys.stderr] by a number and then
    raises: [traceback.print_exc()] raises in its turn. *)
Definition broken_stderr_worker : Endpoint.WorkerEnv :=
  Endpoint.mk_worker
    (fun _ _ => Ok tt) (fun _ => Ok (py "/workspace")) (fun _ _ => Ok tt)
    (fun _ _ => Endpoint.mk_ran [] []
                  (Some (mk_exn OtherException (py "ValueError: boom"))))
    (fun _ _ =>
       Endpoint.mk_printed []
         (Some (mk_exn AttributeError
                  (py "'int' object has no attribute 'write'")))).

(** What [crashing_worker] answers. *)
Definition crash_reply : Endpoint.Reply :=
  Endpoint.mk_reply_dict
    [] (py "Traceback (most recent call last): ValueError: boom") 1 None
    (py "/sandbox").

(** A world on Beta9: the configuration is there, and the endpoint
    answers [crash_reply]. *)
Definition beta9_world : Env :=
  mk_env false true (py "/app") (py "/root")
         ascii_lower ascii_encode ascii_decode
         (fun _ _ => None)
         (fun _ _ _ => Raise (os_error "no SDK"))
         (fun _ _ _ => Raise (os_error "no SDK"))
         (fun _ _ _ => Raise (os_error "no SDK"))
         (fun _ _ _ _ => Raise (os_error "no SDK"))
         (fun _ _ _ _ => Raise (os_error "no SDK"))
         (fun _ _ => Raise (os_error "no SDK"))
         failing_commands
         (fun _ _ => true)
         (fun _ _ => Ok png_bytes)
         (fun _ _ _ => Ok tt)
         (fun _ _ => Ok tt)
         (fun _ _ => Ok tt)
         (fun _ => Ok (py "/tmp/tmp0"))
         (fun _ _ => Ok [ (py "default",
                           [ (py "gateway_host", py "gateway.local");
                             (py "token", py "secret") ]) ])
         (fun _ _ _ _ _ => Ok (reply_of_endpoint crash_reply))
         (fun _ => Ok task_state).

(** The world [e], where a path exists as [exists_] says. *)
Definition with_path_exists (exists_ : trace -> str -> bool) (e : Env) : Env :=
  mk_env (Sandbox_imported e) (beta9_imported e) (project_root e) (home e)
         (str_lower e) (utf8_encode e) (utf8_decode e)
         (os_getenv e) (Sandbox_create e) (e2b_run_code e)
         (e2b_files_list e) (e2b_files_write e) (e2b_files_read e)
         (e2b_kill e) (subprocess_raw e) exists_
         (read_file e) (write_file e) (os_makedirs e) (os_unlink e)
         (temp_file e) (config_read e) (requests_post e)
         (get_global_state e).

(** Beta9 without its configuration files. *)
Definition unconfigured_world : Env :=
  with_path_exists (fun _ _ => false) beta9_world.

(** [global_state.get("current_date", "unknown")], when it is a [str]. *)
Definition current_date_of (gs : dict gval) : option str :=
  match dict_get gs (py "current_date") with
  | None => Some (py "unknown")
  | Some (GStr d) => Some d
  | Some (GOther _) => None
  end.

(** The call that creates an E2B sandbox. *)
Definition is_create (c : call) : bool :=
  match c with
  | CE2BCreate _ _ => true
  | _ => false
  end.

(** A write to an E2B sandbox. *)
Definition is_write (c : call) : bool :=
  match c with
  | CE2BWrite _ _ _ => true
  | _ => false
  end.

(** E2B configured and alive, where the local files are removed as soon
    as one of them has been written to the sandbox. *)
Definition removed_after_write_world : Env :=
  with_path_exists (fun t _ => negb (existsb is_write t)) cloud_world.

(** The downloads of [artifact_paths] into [local_dir], made one after
    the other from [st]: which of them return. *)
Fixpoint downloads_returned (env : Env) (artifact_paths : list str)
         (local_dir : str) (st : State) : list bool :=
  match artifact_paths with
  | [] => []
  | remote_path :: rest =>
      match download_artifact env remote_path local_dir st with
      | (Ok _, st1) => true :: downloads_returned env rest local_dir st1
      | (Raise _, st1) => false :: downloads_returned env rest local_dir st1
      end
  end.

(** The state after these downloads. *)
Fixpoint after_downloads (env : Env) (artifact_paths : list str)
         (local_dir : str) (st : State) : State :=
  match artifact_paths with
  | [] => st
  | remote_path :: rest =>
      after_downloads env rest local_dir
        (snd (download_artifact env remote_path local_dir st))
  end.

(** E2B configured and alive, where reading "/tmp/x.txt" back fails. *)
Definition cloud_world_unreadable : Env :=
  mk_env (Sandbox_imported cloud_world) (beta9_imported cloud_world)
         (project_root cloud_world) (home cloud_world)
         (str_lower cloud_world) (utf8_encode cloud_world)
         (utf8_decode cloud_world)
         (os_getenv cloud_world) (Sandbox_create cloud_world)
         (e2b_run_code cloud_world)
         (e2b_files_list cloud_world) (e2b_files_write cloud_world)
         (fun t sb path format =>
            if str_eqb path (py "/tmp/x.txt")
            then Raise (mk_exn OtherException (py "file not found"))
            else e2b_files_read cloud_world t sb path format)
         (e2b_kill cloud_world) (subprocess_raw cloud_world)
         (os_path_exists cloud_world)
         (read_file cloud_world) (write_file cloud_world)
         (os_makedirs cloud_world) (os_unlink cloud_world)
         (temp_file cloud_world) (config_read cloud_world)
         (requests_post cloud_world)
         (get_global_state cloud_world).

(* ================================================================= *)
(** * Properties *)

(** ** Strings and paths *)

Lemma str_eqb_eq (a b : str) : str_eqb a b = true <-> a = b.
Proof.
  unfold str_eqb. destruct (list_eq_dec N.eq_dec a b); split; congruence.
Qed.

Lemma str_eqb_refl (a : str) : str_eqb a a = true.
Proof. now apply str_eqb_eq. Qed.

Lemma str_eqb_neq (a b : str) : str_eqb a b = false <-> a <> b.
Proof.
  unfold str_eqb. destruct (list_eq_dec N.eq_dec a b); split; congruence.
Qed.

Example scan_two :
  find_artifact_paths
    (py "a" ++ NL ++ py "ARTIFACT_PATH:/tmp/x.txt" ++ NL ++ py "b" ++ NL
     ++ py "ARTIFACT_PATH:/tmp/y.png" ++ NL)
  = [py "/tmp/x.txt"; py "/tmp/y.png"].
Proof. vm_compute. reflexivity. Qed.

Example scan_nested :
  find_artifact_paths (py "ARTIFACT_PATH:ARTIFACT_PATH:/x")
  = [py "ARTIFACT_PATH:/x"].
Proof. vm_compute. reflexivity. Qed.

Example scan_blank :
  find_artifact_paths (py "ARTIFACT_PATH: /x") = [].
Proof. vm_compute. reflexivity. Qed.

Example dirname_ref :
  os_path_dirname (py "/home/user/reference_files/a.csv")
  = py "/home/user/reference_files"
  /\ os_path_dirname (py "/a.csv") = py "/"
  /\ os_path_dirname (py "a.csv") = []
  /\ os_path_basename (py "/tmp/x.txt") = py "x.txt"
  /\ os_path_join (py "/data") [py "sandbox"; py "2026-01-01"]
     = py "/data/sandbox/2026-01-01".
Proof. vm_compute. repeat split. Qed.

(** ** The scanner *)

Section ScannerFacts.

Import Re.

Lemma startswith_app (m s : str) : startswith (m ++ s) m = true.
Proof.
  induction m as [|c m IH]; simpl; [reflexivity|].
  now rewrite N.eqb_refl, IH.
Qed.

Lemma startswith_split (s m : str) :
  startswith s m = true -> s = m ++ skipn (length m) s.
Proof.
  revert s. induction m as [|c m IH]; intros s H; simpl in *; [reflexivity|].
  destruct s as [|d s]; [discriminate|].
  apply andb_prop in H as [Hc Hs]. apply N.eqb_eq in Hc. subst d.
  simpl. f_equal. now apply IH.
Qed.

Lemma match_literal (m : str) (p : pattern) (s : str) (grp : option str) :
  match_here (literal m ++ p) s None grp
  = if startswith s m then match_here p (skipn (length m) s) None grp
    else None.
Proof.
  revert s. induction m as [|c m IH]; intros s; simpl; [reflexivity|].
  destruct s as [|d s]; [reflexivity|].
  simpl. destruct (c =? d)%N; simpl; [apply IH|reflexivity].
Qed.

Lemma take_drop_while (f : N -> bool) (s : str) :
  take_while f s ++ drop_while f s = s.
Proof.
  induction s as [|c s IH]; simpl; [reflexivity|].
  destruct (f c); simpl; [now rewrite IH|reflexivity].
Qed.

Lemma firstn_take_while (f : N -> bool) (s : str) :
  firstn (length (take_while f s)) s = take_while f s.
Proof.
  induction s as [|c s IH]; simpl; [reflexivity|].
  destruct (f c); simpl; [now rewrite IH|reflexivity].
Qed.

Lemma skipn_take_while (f : N -> bool) (s : str) :
  skipn (length (take_while f s)) s = drop_while f s.
Proof.
  induction s as [|c s IH]; simpl; [reflexivity|].
  destruct (f c); simpl; [now rewrite IH|reflexivity].
Qed.

(** The group [(\S+)] takes the whole run of non-whitespace: nothing
    follows it in the pattern, so nothing is given back. *)
Lemma match_token (s : str) :
  match_here [Open; Plus NotSpace; Close] s None None
  = match take_while (atom_ok NotSpace) s with
    | [] => None
    | tok => Some (drop_while (atom_ok NotSpace) s, Some tok)
    end.
Proof.
  simpl.
  pose proof (firstn_take_while (atom_ok NotSpace) s) as Hf.
  pose proof (skipn_take_while (atom_ok NotSpace) s) as Hs.
  destruct (take_while (atom_ok NotSpace) s) as [|c tok] eqn:E.
  - reflexivity.
  - change (Datatypes.length (c :: tok)) with (S (Datatypes.length tok)) in *.
    cbn [backtrack]. rewrite Hf, Hs. reflexivity.
Qed.

(** One attempt of the whole pattern at the start of [s]. *)
Lemma match_artifact (s : str) :
  match_here artifact_pattern s None None
  = if startswith s ARTIFACT_MARKER
    then match take_while (atom_ok NotSpace)
                          (skipn (length ARTIFACT_MARKER) s) with
         | [] => None
         | tok => Some (drop_while (atom_ok NotSpace)
                                   (skipn (length ARTIFACT_MARKER) s), Some tok)
         end
    else None.
Proof.
  unfold artifact_pattern. rewrite match_literal.
  destruct (startswith s ARTIFACT_MARKER); [apply match_token|reflexivity].
Qed.

Lemma match_artifact_marked (s rest : str) (g : option str) :
  match_here artifact_pattern s None None = Some (rest, g) ->
  marked_at s [].
Proof.
  rewrite match_artifact.
  destruct (startswith s ARTIFACT_MARKER) eqn:Hs; [|discriminate].
  apply startswith_split in Hs.
  destruct (skipn (length ARTIFACT_MARKER) s) as [|c post] eqn:Hk;
    [discriminate|].
  simpl. destruct (is_space c) eqn:Hc; simpl; [discriminate|].
  intros _. exists c, post. split; [exact Hs|exact Hc].
Qed.

Lemma take_while_token (tok rest : str) :
  Forall (fun c => is_space c = false) tok -> ends_token rest ->
  take_while (atom_ok NotSpace) (tok ++ rest) = tok
  /\ drop_while (atom_ok NotSpace) (tok ++ rest) = rest.
Proof.
  intros Ht Hr. induction Ht as [|c tok Hc Ht IH]; simpl.
  - destruct rest as [|c r]; simpl; [now split|].
    simpl in Hr. rewrite Hr. simpl. now split.
  - rewrite Hc. simpl. destruct IH as [IH1 IH2]. now rewrite IH1, IH2.
Qed.

Lemma skipn_marker (s : str) :
  skipn (length ARTIFACT_MARKER) (ARTIFACT_MARKER ++ s) = s.
Proof. reflexivity. Qed.

Lemma match_artifact_token (tok rest : str) :
  token tok -> ends_token rest ->
  match_here artifact_pattern (ARTIFACT_MARKER ++ tok ++ rest) None None
  = Some (rest, Some tok).
Proof.
  intros [Hne Ht] Hr. rewrite match_artifact, startswith_app, skipn_marker.
  destruct (take_while_token tok rest Ht Hr) as [H1 H2]. rewrite H1, H2.
  destruct tok; [contradiction|reflexivity].
Qed.

(** Passing the characters of the last match. *)
Lemma findall_skip (p : pattern) (a b : str) :
  findall_from p (length a) (a ++ b) = findall_from p 0 b.
Proof.
  induction a as [|c a IH]; [reflexivity|].
  simpl. exact IH.
Qed.

Lemma marked_at_cons (c : N) (s pre : str) :
  marked_at s pre -> marked_at (c :: s) (c :: pre).
Proof.
  intros (d & post & -> & Hd). exists d, post. split; [reflexivity|exact Hd].
Qed.

Lemma scan_no_marker (s : str) :
  (forall pre, ~ marked_at s pre) -> find_artifact_paths s = [].
Proof.
  unfold find_artifact_paths, findall.
  induction s as [|c s IH]; intros H.
  - simpl. destruct (match_here artifact_pattern [] None None)
      as [[rest g]|] eqn:E; [|reflexivity].
    exfalso. apply (H []). eapply match_artifact_marked; eauto.
  - cbn [findall_from].
    destruct (match_here artifact_pattern (c :: s) None None)
      as [[rest g]|] eqn:E.
    + exfalso. apply (H []). eapply match_artifact_marked; eauto.
    + apply IH. intros pre Hm. apply (H (c :: pre)).
      now apply marked_at_cons.
Qed.

Lemma findall_from_zero (p : pattern) (s : str) :
  findall_from p 0 s
  = match match_here p s None None with
    | Some (rest, g) =>
        group1 g ::
        match s with
        | _ :: s' => findall_from p (pred (length s - length rest)) s'
        | [] => []
        end
    | None =>
        match s with
        | _ :: s' => findall_from p 0 s'
        | [] => []
        end
    end.
Proof. destruct s; reflexivity. Qed.

Lemma marker_cons (x : str) :
  ARTIFACT_MARKER ++ x = 65%N :: (tl ARTIFACT_MARKER ++ x).
Proof. reflexivity. Qed.

Lemma scan_first_marker (pre tok rest : str) :
  token tok -> ends_token rest ->
  (forall before x, x <> [] -> pre = before ++ x ->
     ~ marked_at (pre ++ ARTIFACT_MARKER ++ tok ++ rest) before) ->
  find_artifact_paths (pre ++ ARTIFACT_MARKER ++ tok ++ rest)
  = tok :: find_artifact_paths rest.
Proof.
  unfold find_artifact_paths, findall. intros Ht Hr.
  induction pre as [|c pre IH]; intros H.
  - cbn [app]. rewrite findall_from_zero.
    rewrite (match_artifact_token tok rest Ht Hr).
    cbn [group1]. f_equal.
    rewrite marker_cons.
    replace (Nat.pred (length (65%N :: tl ARTIFACT_MARKER ++ tok ++ rest)
                       - length rest))
      with (length (tl ARTIFACT_MARKER ++ tok)).
    + rewrite (app_assoc (tl ARTIFACT_MARKER) tok rest).
      apply findall_skip.
    + cbn [length]. rewrite !length_app. lia.
  - cbn [app]. rewrite findall_from_zero.
    destruct (match_here artifact_pattern
                (c :: pre ++ ARTIFACT_MARKER ++ tok ++ rest) None None)
      as [[r g]|] eqn:E.
    + exfalso. apply (H [] (c :: pre)); [discriminate|reflexivity|].
      eapply match_artifact_marked; eauto.
    + apply IH. intros before x Hx Hpre Hm.
      apply (H (c :: before) x Hx); [now rewrite Hpre|].
      now apply marked_at_cons.
Qed.

End ScannerFacts.

(** ** Dictionaries *)

Lemma dict_get_head {V} (k : str) (v : V) (d : dict V) :
  dict_get ((k, v) :: d) k = Some v.
Proof. simpl. now rewrite str_eqb_refl. Qed.

Lemma dict_get_set {V} (d : dict V) (k : str) (v : V) :
  dict_get (dict_set d k v) k = Some v.
Proof.
  induction d as [|[k' v'] d IH]; simpl.
  - now rewrite str_eqb_refl.
  - destruct (str_eqb k' k) eqn:E; simpl; rewrite E; [reflexivity|exact IH].
Qed.

(** ** The response *)

Lemma response_success (ex : Execution) (s : SessionSandbox) (da : list str) :
  dict_get (response ex s da) (py "success") = Some (RBool (error_is_none ex)).
Proof. unfold response. cbn [app]. apply dict_get_head. Qed.

Lemma response_exit_code (ex : Execution) (s : SessionSandbox) (da : list str) :
  dict_get (response ex s da) (py "exit_code")
  = Some (RInt (if error_is_none ex then 0 else 1)).
Proof.
  unfold response. cbn [app]. cbn [dict_get].
  change (str_eqb (py "success") (py "exit_code")) with false.
  cbv iota. now rewrite str_eqb_refl.
Qed.

Lemma response_no_error_key (ex : Execution) (s : SessionSandbox) :
  dict_get (response ex s []) (py "error") = None
  /\ dict_get (response ex s []) (py "downloaded_artifacts") = None.
Proof. unfold response. cbn [app]. cbn [dict_get]. split; reflexivity. Qed.

Lemma response_downloaded (ex : Execution) (s : SessionSandbox) (da : list str) :
  dict_get (response ex s da) (py "downloaded_artifacts")
  = match da with [] => None | _ => Some (RList da) end.
Proof.
  unfold response. cbn [app]. cbn [dict_get].
  destruct da; cbn [app dict_get]; [reflexivity|].
  now rewrite str_eqb_refl.
Qed.

(** ** execute_code, phase by phase *)

Section ExecuteFacts.

Variable env : Env.

(** A request that fails validation is answered at once: the process is
    the one it was. *)
Lemma execute_code_empty (language : str) (p : Process) :
  execute_code env [] language p
  = (Ok [ (py "error", RStr (py "Code cannot be empty")) ], p).
Proof. reflexivity. Qed.

Lemma execute_code_unsupported (code language : str) (p : Process) :
  code <> [] ->
  strip (str_lower env language) <> py "python" ->
  execute_code env code language p
  = (Ok [ (py "error",
            RStr (py "Language '" ++ strip (str_lower env language)
                  ++ py "' not supported"));
          (py "supported_languages", RList [py "python"]) ], p).
Proof.
  intros Hc Hl. unfold execute_code.
  destruct code as [|c code]; [contradiction|].
  apply str_eqb_neq in Hl. rewrite Hl. reflexivity.
Qed.

(** A valid request runs the body of the outer [try] on the singleton. *)
Lemma execute_code_valid (code language : str) (p p0 p1 : Process)
      (gs : dict gval) (s : SessionSandbox) :
  valid_request env code language ->
  lift_io (read_global_state env) p = (Ok gs, p0) ->
  get_instance p0 = (Ok s, p1) ->
  execute_code env code language p
  = match run_and_collect env code gs (mk_state s (calls p1)) with
    | (Ok d, st) => (Ok d, process_of st)
    | (Raise e, st) => (Ok (unexpected_error e), process_of st)
    end.
Proof.
  intros [Hc Hl] Hg Hi. unfold execute_code.
  destruct code as [|c code]; [contradiction|].
  rewrite Hl, str_eqb_refl. cbn [negb].
  unfold bind at 1. rewrite Hg.
  unfold bind at 1. rewrite Hi.
  unfold try_except, on_session, process_of.
  destruct (run_and_collect env (c :: code) gs (mk_state s (calls p1)))
    as [[d|e] st]; reflexivity.
Qed.

(** The global state is read without raising, and the singleton is
    always there. *)
Lemma read_global_state_ok (p : Process) :
  exists gs p0, lift_io (read_global_state env) p = (Ok gs, p0).
Proof.
  unfold lift_io, read_global_state, try_except, io, ret.
  destruct (get_global_state env (calls p)) as [gs|e]; eauto.
Qed.

Lemma get_instance_ok (p : Process) :
  exists s p1, get_instance p = (Ok s, p1).
Proof.
  unfold get_instance. destruct (_instance p); eauto.
Qed.

(** Once [run_code] has returned, the answer is the report, or the
    response of the outer handler when the report raises. *)
Lemma execute_code_after_run (code language : str) (p : Process)
      (gs : dict gval) (ex : Execution) (st : State) :
  valid_request env code language ->
  reaches_backend env code p gs ex st ->
  execute_code env code language p
  = match report env ex gs st with
    | (Ok d, st') => (Ok d, process_of st')
    | (Raise e, st') => (Ok (unexpected_error e), process_of st')
    end.
Proof.
  intros Hv (p0 & s & p1 & sb & st1 & Hg & Hi & Hs & Hr).
  rewrite (execute_code_valid code language p p0 p1 gs s Hv Hg Hi).
  unfold run_and_collect.
  unfold bind at 1. rewrite Hs.
  unfold bind at 1. unfold try_except.
  unfold bind at 1. rewrite Hr.
  unfold ret at 1. reflexivity.
Qed.

(** Whatever the body of the outer [try] returns carries [success]. *)
Lemma report_success (ex : Execution) (gs : dict gval) (st st' : State)
      (d : dict rval) :
  report env ex gs st = (Ok d, st') ->
  exists da, d = response ex (self st') da.
Proof.
  unfold report. unfold bind at 1, of_result.
  destruct (stdout_text (logs ex)) as [out|e]; [|discriminate].
  unfold bind at 1.
  destruct (collect_artifacts env (error_is_none ex) out gs st)
    as [[da|e] st2]; [|discriminate].
  unfold bind, get_self, ret. intros H. inversion H; subst. eauto.
Qed.

Lemma run_and_collect_success (code : str) (gs : dict gval) (st st' : State)
      (d : dict rval) :
  run_and_collect env code gs st = (Ok d, st') ->
  dict_has d (py "success") = true.
Proof.
  unfold run_and_collect. unfold bind at 1.
  destruct (get_or_create_sandbox env 3600 st) as [[sb|e] st1];
    [|discriminate].
  unfold bind at 1, try_except. unfold bind at 1.
  destruct (on_object sb (fun o => lift (run_code env o code)) st1)
    as [[ex|e] st2].
  - unfold ret at 1. intros H. apply report_success in H as [da ->].
    unfold dict_has. now rewrite response_success.
  - unfold ret. intros H. inversion H; subst. reflexivity.
Qed.

End ExecuteFacts.

(** ** Claims on execute_code *)

Lemma collect_unsuccessful (env : Env) (out : str) (gs : dict gval)
      (st : State) :
  collect_artifacts env false out gs st = (Ok [], st).
Proof. reflexivity. Qed.

Lemma collect_no_data_path (env : Env) (success : bool) (out : str)
      (gs : dict gval) (st : State) :
  truthy (dict_get gs (py "data_path")) = false ->
  collect_artifacts env success out gs st = (Ok [], st).
Proof.
  intros H. unfold collect_artifacts. rewrite H, andb_false_r.
  destruct (success && contains ARTIFACT_MARKER out); reflexivity.
Qed.

(** C3. For every non-empty code and every language that normalises to
    "python", [execute_code] returns (it does not raise), and the
    dictionary it returns has the key [success], whatever the environment
    answers or raises during session creation, execution and download. *)
Theorem execute_code_never_raises (env : Env) (code language : str)
        (p : Process) :
  valid_request env code language ->
  exists d p',
    execute_code env code language p = (Ok d, p')
    /\ dict_has d (py "success") = true.
Proof.
  intros Hv.
  destruct (read_global_state_ok env p) as (gs & p0 & Hg).
  destruct (get_instance_ok p0) as (s & p1 & Hi).
  rewrite (execute_code_valid env code language p p0 p1 gs s Hv Hg Hi).
  destruct (run_and_collect env code gs (mk_state s (calls p1)))
    as [[d|e] st] eqn:E.
  - exists d, (process_of st). split; [reflexivity|].
    eapply run_and_collect_success; eauto.
  - exists (unexpected_error e), (process_of st). split; reflexivity.
Qed.

Lemma execute_code_never_raises_witness :
  valid_request cloud_world_readonly (py "print(1)") (py "Python ")
  /\ exists d p',
       execute_code cloud_world_readonly (py "print(1)") (py "Python ")
                    fresh_process = (Ok d, p')
       /\ dict_has d (py "success") = true.
Proof.
  assert (Hv : valid_request cloud_world_readonly (py "print(1)")
                             (py "Python ")).
  { split; [discriminate|reflexivity]. }
  split; [exact Hv|].
  exact (execute_code_never_raises cloud_world_readonly (py "print(1)")
           (py "Python ") fresh_process Hv).
Defined.

(** C4, as stated, fails: the run returns a result whose error is null,
    the download directory cannot be created, and the response marks
    failure and carries no exit code. *)
Lemma success_flag_counterexample :
  exists st d p',
    valid_request cloud_world_readonly (py "print(1)") (py "python")
    /\ reaches_backend cloud_world_readonly (py "print(1)") fresh_process
                       task_state two_artifacts st
    /\ error two_artifacts = None
    /\ execute_code cloud_world_readonly (py "print(1)") (py "python")
                    fresh_process = (Ok d, p')
    /\ dict_get d (py "success") = Some (RBool false)
    /\ dict_get d (py "exit_code") = None.
Proof.
  eexists. eexists. eexists.
  split; [split; [discriminate|reflexivity]|].
  split.
  { unfold reaches_backend. do 5 eexists.
    split; [vm_compute; reflexivity|].
    split; [vm_compute; reflexivity|].
    split; vm_compute; reflexivity. }
  split; [reflexivity|].
  split; [vm_compute; reflexivity|].
  split; vm_compute; reflexivity.
Qed.

(** C4, amended. When the run reaches the backend and returns a result,
    [execute_code] answers either with the regular response, whose
    [success] is true exactly when the error is null and whose [exit_code]
    is 0 on success and 1 otherwise, or, when an exception escapes the
    steps after the run, with the response of the outer handler:
    [success] false and no [exit_code]. *)
Theorem success_flag_and_exit_code (env : Env) (code language : str)
        (p : Process) (gs : dict gval) (ex : Execution) (st : State) :
  valid_request env code language ->
  reaches_backend env code p gs ex st ->
  exists d p',
    execute_code env code language p = (Ok d, p')
    /\ ((exists st', report env ex gs st = (Ok d, st')
         /\ dict_get d (py "success") = Some (RBool (error_is_none ex))
         /\ dict_get d (py "exit_code")
            = Some (RInt (if error_is_none ex then 0 else 1)))
        \/ (exists e st', report env ex gs st = (Raise e, st')
            /\ d = unexpected_error e
            /\ dict_get d (py "success") = Some (RBool false)
            /\ dict_get d (py "exit_code") = None)).
Proof.
  intros Hv Hr. rewrite (execute_code_after_run env code language p gs ex st Hv Hr).
  destruct (report env ex gs st) as [[d|e] st'] eqn:E.
  - exists d, (process_of st'). split; [reflexivity|]. left.
    exists st'. split; [reflexivity|].
    apply report_success in E as [da ->].
    split; [apply response_success|apply response_exit_code].
  - exists (unexpected_error e), (process_of st'). split; [reflexivity|].
    right. exists e, st'. repeat split; reflexivity.
Qed.

Lemma success_flag_and_exit_code_witness :
  exists st,
    valid_request cloud_world (py "print(1)") (py "python")
    /\ reaches_backend cloud_world (py "print(1)") fresh_process
                       task_state two_artifacts st
    /\ exists d p',
         execute_code cloud_world (py "print(1)") (py "python") fresh_process
         = (Ok d, p')
         /\ ((exists st', report cloud_world two_artifacts task_state st
                          = (Ok d, st')
              /\ dict_get d (py "success")
                 = Some (RBool (error_is_none two_artifacts))
              /\ dict_get d (py "exit_code")
                 = Some (RInt (if error_is_none two_artifacts then 0 else 1)))
             \/ (exists e st', report cloud_world two_artifacts task_state st
                               = (Raise e, st')
                 /\ d = unexpected_error e
                 /\ dict_get d (py "success") = Some (RBool false)
                 /\ dict_get d (py "exit_code") = None)).
Proof.
  assert (Hv : valid_request cloud_world (py "print(1)") (py "python")).
  { split; [discriminate|reflexivity]. }
  eexists ?[st].
  assert (Hr : reaches_backend cloud_world (py "print(1)") fresh_process
                               task_state two_artifacts ?st).
  { unfold reaches_backend. do 5 eexists.
    split; [vm_compute; reflexivity|].
    split; [vm_compute; reflexivity|].
    split; vm_compute; reflexivity. }
  split; [exact Hv|]. split; [exact Hr|].
  exact (success_flag_and_exit_code cloud_world (py "print(1)") (py "python")
           fresh_process task_state two_artifacts _ Hv Hr).
Defined.

(** C10. When the global state has no [data_path], or an empty one, the
    answer to a run that returned is the regular response with no
    downloaded artifact: the key [downloaded_artifacts] and the key [error]
    are absent, and the session and the calls are those [run_code] left
    (nothing is read from the sandbox, no directory is made, no file is
    written), whatever markers the output holds. *)
Theorem no_data_path_no_download (env : Env) (code language : str)
        (p : Process) (gs : dict gval) (ex : Execution) (st : State)
        (out : str) :
  valid_request env code language ->
  reaches_backend env code p gs ex st ->
  stdout_text (logs ex) = Ok out ->
  truthy (dict_get gs (py "data_path")) = false ->
  execute_code env code language p
  = (Ok (response ex (self st) []), process_of st)
  /\ dict_get (response ex (self st) []) (py "downloaded_artifacts") = None
  /\ dict_get (response ex (self st) []) (py "error") = None
  /\ dict_get (response ex (self st) []) (py "success")
     = Some (RBool (error_is_none ex)).
Proof.
  intros Hv Hr Ho Hd.
  rewrite (execute_code_after_run env code language p gs ex st Hv Hr).
  unfold report. unfold bind at 1, of_result. rewrite Ho.
  unfold bind at 1. rewrite (collect_no_data_path env _ out gs st Hd).
  unfold bind, get_self, ret.
  destruct (response_no_error_key ex (self st)) as [He Hk].
  split; [reflexivity|]. split; [exact Hk|]. split; [exact He|].
  apply response_success.
Qed.

Lemma no_data_path_no_download_witness :
  exists st out,
    valid_request cloud_world_no_data_path (py "print(1)") (py "python")
    /\ reaches_backend cloud_world_no_data_path (py "print(1)") fresh_process
                       [ (py "current_date", GStr (py "2026-01-01")) ]
                       two_artifacts st
    /\ stdout_text (logs two_artifacts) = Ok out
    /\ contains ARTIFACT_MARKER out = true
    /\ truthy (dict_get [ (py "current_date", GStr (py "2026-01-01")) ]
                        (py "data_path")) = false
    /\ execute_code cloud_world_no_data_path (py "print(1)") (py "python")
                    fresh_process
       = (Ok (response two_artifacts (self st) []), process_of st)
    /\ dict_get (response two_artifacts (self st) [])
                (py "downloaded_artifacts") = None
    /\ dict_get (response two_artifacts (self st) []) (py "error") = None
    /\ dict_get (response two_artifacts (self st) []) (py "success")
       = Some (RBool (error_is_none two_artifacts)).
Proof.
  assert (Hv : valid_request cloud_world_no_data_path (py "print(1)")
                             (py "python")).
  { split; [discriminate|reflexivity]. }
  eexists ?[st]. eexists ?[out].
  assert (Hr : reaches_backend cloud_world_no_data_path (py "print(1)")
                 fresh_process
                 [ (py "current_date", GStr (py "2026-01-01")) ]
                 two_artifacts ?st).
  { unfold reaches_backend. do 5 eexists.
    split; [vm_compute; reflexivity|].
    split; [vm_compute; reflexivity|].
    split; vm_compute; reflexivity. }
  assert (Ho : stdout_text (logs two_artifacts) = Ok ?out).
  { vm_compute. reflexivity. }
  split; [exact Hv|]. split; [exact Hr|]. split; [exact Ho|].
  split; [vm_compute; reflexivity|]. split; [reflexivity|].
  exact (no_data_path_no_download cloud_world_no_data_path (py "print(1)")
           (py "python") fresh_process _ two_artifacts _ _ Hv Hr Ho
           eq_refl).
Defined.

(** C8, as stated, fails on the wording of the message: for empty code the
    answer is "Code cannot be empty", with a capital letter. *)
Lemma empty_code_message_counterexample :
  exists d,
    execute_code container_world [] (py "python") fresh_process
    = (Ok d, fresh_process)
    /\ dict_get d (py "error") = Some (RStr (py "Code cannot be empty"))
    /\ dict_get d (py "error") <> Some (RStr (py "code cannot be empty")).
Proof.
  eexists. split; [reflexivity|]. split; [reflexivity|]. discriminate.
Qed.

(** C8, amended. For empty code, and for a language that does not
    normalise (lowercased, then stripped) to "python", [execute_code]
    returns a dictionary without [success]: for empty code
    [{"error": "Code cannot be empty"}], otherwise the error naming the
    normalised language together with [supported_languages = ["python"]].
    The process is left as it was: no session is created, no call is
    made. *)
Theorem validation_touches_nothing (env : Env) (code language : str)
        (p : Process) :
  code = [] \/ strip (str_lower env language) <> py "python" ->
  exists d,
    execute_code env code language p = (Ok d, p)
    /\ dict_get d (py "success") = None
    /\ (code = [] ->
        d = [ (py "error", RStr (py "Code cannot be empty")) ])
    /\ (code <> [] ->
        d = [ (py "error",
                RStr (py "Language '" ++ strip (str_lower env language)
                      ++ py "' not supported"));
              (py "supported_languages", RList [py "python"]) ]).
Proof.
  intros H. destruct code as [|c code].
  - eexists. split; [apply execute_code_empty|].
    split; [reflexivity|]. split; [reflexivity|]. intros Hc. now elim Hc.
  - destruct H as [H|H]; [discriminate|].
    eexists. split; [apply execute_code_unsupported; [discriminate|exact H]|].
    split; [reflexivity|]. split; [discriminate|reflexivity].
Qed.

Lemma validation_touches_nothing_witness :
  (py "print(1)" = []
   \/ strip (str_lower container_world (py " Ruby ")) <> py "python")
  /\ exists d,
       execute_code container_world (py "print(1)") (py " Ruby ")
                    fresh_process = (Ok d, fresh_process)
       /\ dict_get d (py "success") = None
       /\ (py "print(1)" = [] ->
           d = [ (py "error", RStr (py "Code cannot be empty")) ])
       /\ (py "print(1)" <> [] ->
           d = [ (py "error",
                   RStr (py "Language '"
                         ++ strip (str_lower container_world (py " Ruby "))
                         ++ py "' not supported"));
                 (py "supported_languages", RList [py "python"]) ]).
Proof.
  assert (H : py "print(1)" = []
              \/ strip (str_lower container_world (py " Ruby "))
                 <> py "python").
  { right. discriminate. }
  split; [exact H|].
  exact (validation_touches_nothing container_world (py "print(1)")
           (py " Ruby ") fresh_process H).
Defined.

(** ** Claims on the artifact protocol *)

(** C1, as stated, fails: a marker inside a token that is being extracted
    is an occurrence of the marker, and nothing is extracted for it. *)
Lemma each_occurrence_counterexample :
  find_artifact_paths (py "ARTIFACT_PATH:ARTIFACT_PATH:/x")
  = [py "ARTIFACT_PATH:/x"]
  /\ tokens_after_each_marker (py "ARTIFACT_PATH:ARTIFACT_PATH:/x")
     = [py "ARTIFACT_PATH:/x"; py "/x"]
  /\ find_artifact_paths (py "ARTIFACT_PATH:ARTIFACT_PATH:/x")
     <> tokens_after_each_marker (py "ARTIFACT_PATH:ARTIFACT_PATH:/x").
Proof.
  split; [vm_compute; reflexivity|].
  split; [vm_compute; reflexivity|].
  vm_compute. discriminate.
Qed.

Lemma report_unsuccessful (env : Env) (ex : Execution) (gs : dict gval)
      (st : State) :
  error ex <> None ->
  report env ex gs st
  = match stdout_text (logs ex) with
    | Ok _ => (Ok (response ex (self st) []), st)
    | Raise e => (Raise e, st)
    end.
Proof.
  intros He. unfold report, error_is_none.
  destruct (error ex) as [e|]; [|contradiction].
  unfold bind at 1, of_result.
  destruct (stdout_text (logs ex)) as [out|e']; reflexivity.
Qed.

(** C1, amended. The scan goes through the text from left to right.  A
    text in which no marker is followed by a non-whitespace character
    yields nothing.  Otherwise, at the first marker that is followed by a
    non-whitespace character, the whole run of non-whitespace characters
    after it is extracted, and the scan goes on after that run: order and
    duplicates are kept, a marker inside an extracted token yields nothing
    of its own.  On the text of the example the result is
    ["/tmp/x.txt", "/tmp/y.png"].  When the run reports an error, the
    answer has no [downloaded_artifacts] and the session and the calls are
    those [run_code] left: nothing is scanned for, nothing downloaded. *)
Theorem artifact_scan :
  (forall s, (forall pre, ~ marked_at s pre) -> find_artifact_paths s = [])
  /\ (forall pre tok rest,
        token tok -> ends_token rest ->
        (forall before x, x <> [] -> pre = before ++ x ->
           ~ marked_at (pre ++ ARTIFACT_MARKER ++ tok ++ rest) before) ->
        find_artifact_paths (pre ++ ARTIFACT_MARKER ++ tok ++ rest)
        = tok :: find_artifact_paths rest)
  /\ find_artifact_paths
       (py "a" ++ NL ++ py "ARTIFACT_PATH:/tmp/x.txt" ++ NL ++ py "b" ++ NL
        ++ py "ARTIFACT_PATH:/tmp/y.png" ++ NL)
     = [py "/tmp/x.txt"; py "/tmp/y.png"]
  /\ (forall env code language p gs ex st,
        valid_request env code language ->
        reaches_backend env code p gs ex st ->
        error ex <> None ->
        exists d,
          execute_code env code language p = (Ok d, process_of st)
          /\ dict_get d (py "success") = Some (RBool false)
          /\ dict_get d (py "downloaded_artifacts") = None).
Proof.
  split; [exact scan_no_marker|].
  split; [exact scan_first_marker|].
  split; [vm_compute; reflexivity|].
  intros env code language p gs ex st Hv Hr He.
  rewrite (execute_code_after_run env code language p gs ex st Hv Hr).
  rewrite (report_unsuccessful env ex gs st He).
  destruct (stdout_text (logs ex)) as [out|e].
  - eexists. split; [reflexivity|].
    rewrite response_success. unfold error_is_none.
    destruct (error ex); [|contradiction].
    split; [reflexivity|]. apply response_no_error_key.
  - eexists. split; [reflexivity|]. split; reflexivity.
Qed.

(** Refutes [marked_at s pre] for a text [s] given in full: [pre] is
    tried at every length. *)
Ltac refute_step :=
  match goal with
  | H : _ = ?pre ++ _ |- _ =>
      is_var pre; destruct pre; simpl in H;
      [ first [ discriminate H
              | inversion H; subst;
                match goal with
                | Hc : is_space _ = false |- _ => cbv in Hc; discriminate Hc
                end ]
      | first [ discriminate H
              | apply (f_equal (@tl N)) in H; simpl in H ] ]
  end.

Ltac refute_marked H :=
  unfold ARTIFACT_MARKER in H; simpl in H; repeat refute_step.

Lemma artifact_scan_witness :
  (forall pre, ~ marked_at (py "ARTIFACT_PATH: /x") pre)
  /\ find_artifact_paths (py "ARTIFACT_PATH: /x") = []
  /\ token (py "/x") /\ ends_token NL
  /\ find_artifact_paths (py "a " ++ ARTIFACT_MARKER ++ py "/x" ++ NL)
     = py "/x" :: find_artifact_paths NL
  /\ exists st,
       valid_request cloud_world_failed_run (py "print(x)") (py "python")
       /\ reaches_backend cloud_world_failed_run (py "print(x)")
                          fresh_process task_state two_artifacts_failed st
       /\ error two_artifacts_failed <> None
       /\ exists d,
            execute_code cloud_world_failed_run (py "print(x)") (py "python")
                         fresh_process = (Ok d, process_of st)
            /\ dict_get d (py "success") = Some (RBool false)
            /\ dict_get d (py "downloaded_artifacts") = None.
Proof.
  assert (H1 : forall pre, ~ marked_at (py "ARTIFACT_PATH: /x") pre).
  { intros pre (c & post & H & Hc). refute_marked H. }
  assert (Ht : token (py "/x")).
  { split; [discriminate|]. repeat constructor. }
  assert (Hn : ends_token NL) by reflexivity.
  assert (H2 : forall before x, x <> [] -> py "a " = before ++ x ->
                 ~ marked_at (py "a " ++ ARTIFACT_MARKER ++ py "/x" ++ NL)
                             before).
  { intros before x Hx Hp (c & post & H & Hc).
    destruct before as [|b0 [|b1 [|b2 before]]]; simpl in Hp;
      try discriminate Hp.
    - simpl in H. discriminate H.
    - simpl in H. discriminate H.
    - injection Hp as _ _ Hp. subst x. now elim Hx. }
  split; [exact H1|].
  split; [exact (proj1 artifact_scan _ H1)|].
  split; [exact Ht|]. split; [exact Hn|].
  split; [exact (proj1 (proj2 artifact_scan) _ _ _ Ht Hn H2)|].
  assert (Hv : valid_request cloud_world_failed_run (py "print(x)")
                             (py "python")).
  { split; [discriminate|reflexivity]. }
  eexists ?[st].
  assert (Hr : reaches_backend cloud_world_failed_run (py "print(x)")
                 fresh_process task_state two_artifacts_failed ?st).
  { unfold reaches_backend. do 5 eexists.
    split; [vm_compute; reflexivity|].
    split; [vm_compute; reflexivity|].
    split; vm_compute; reflexivity. }
  assert (He : error two_artifacts_failed <> None) by discriminate.
  split; [exact Hv|]. split; [exact Hr|]. split; [exact He|].
  exact (proj2 (proj2 (proj2 artifact_scan)) _ _ _ _ _ _ _ Hv Hr He).
Defined.

(** ** Claims on the session manager *)

Section SessionFacts.

Variable env : Env.

Lemma lift_self {A} (m : M trace A) (st : State) :
  self (snd (lift m st)) = self st.
Proof. unfold lift. destruct (m (world st)); reflexivity. Qed.

(** With no sandbox there is nothing to probe. *)
Lemma get_or_create_none (s : SessionSandbox) (t : trace) (timeout : Z) :
  sandbox s = None ->
  get_or_create_sandbox env timeout (mk_state s t)
  = match create_sandbox env timeout (mk_state s t) with
    | (Ok _, st) => (Ok (sandbox (self st)), st)
    | (Raise e, st) => (Raise e, st)
    end.
Proof.
  intros H. unfold get_or_create_sandbox, health_check.
  unfold bind at 1. unfold bind at 1. unfold get_self at 1.
  cbn [self]. rewrite H. unfold ret at 1.
  unfold bind at 1. unfold get_self at 1. cbn [self]. rewrite H.
  unfold bind at 1.
  destruct (create_sandbox env timeout (mk_state s t)) as [[u|e] st];
    reflexivity.
Qed.

End SessionFacts.

(** C5, as stated, fails: with a usable credential but no E2B SDK, no
    cloud creation is attempted (the only call is the lookup of the
    credential) and the session is "beta9-primary". *)
Lemma credential_without_sdk_counterexample :
  Sandbox_imported volume_world = false
  /\ key_usable (os_getenv volume_world [] (py "E2B_API_KEY")) = true
  /\ get_or_create_sandbox volume_world 3600 fresh_state
     = (Ok (Some (Beta9 Beta9Sandbox_init)),
        mk_state (mk_session (Some (Beta9 Beta9Sandbox_init))
                             (Some (py "beta9-primary")) [] true)
                 [CGetenv (py "E2B_API_KEY")]).
Proof.
  split; [reflexivity|]. split; [reflexivity|]. vm_compute. reflexivity.
Qed.

(** C5, amended. With no sandbox, [get_or_create_sandbox] returns a
    sandbox and stores it.  When the E2B SDK is imported and the credential
    is present, non-blank and not the placeholder, [Sandbox.create] is
    called: on success the session is the E2B sandbox under the id that
    object carries, on failure it is a Beta9 sandbox under
    "beta9-fallback".  Otherwise, when the Beta9 library is imported, the
    session is a Beta9 sandbox under "beta9-primary" and no creation is
    attempted on E2B; otherwise it is the Docker sandbox under
    "docker-fallback". *)
Theorem creation_policy (env : Env) (s : SessionSandbox) (t : trace)
        (timeout : Z) :
  sandbox s = None ->
  let key := os_getenv env t (py "E2B_API_KEY") in
  let t1 := t ++ [CGetenv (py "E2B_API_KEY")] in
  let attempt := CE2BCreate (py "gdpval-workspace") timeout in
  exists sb s' t',
    get_or_create_sandbox env timeout (mk_state s t)
    = (Ok (Some sb), mk_state s' t')
    /\ sandbox s' = Some sb
    /\ uploaded_reference_files s' = uploaded_reference_files s
    /\ if Sandbox_imported env && key_usable key then
         match Sandbox_create env t1 (py "gdpval-workspace") timeout with
         | Ok h =>
             sb = E2B h /\ sandbox_id s' = e2b_id h
             /\ use_local_fallback s' = false /\ t' = t1 ++ [attempt]
         | Raise _ =>
             sb = Beta9 Beta9Sandbox_init
             /\ sandbox_id s' = Some (py "beta9-fallback")
             /\ use_local_fallback s' = true /\ t' = t1 ++ [attempt]
         end
       else if beta9_imported env then
         sb = Beta9 Beta9Sandbox_init
         /\ sandbox_id s' = Some (py "beta9-primary")
         /\ use_local_fallback s' = true /\ t' = t1
       else
         exists d,
           sb = Docker d
           /\ sandbox_id s' = Some (py "docker-fallback")
           /\ use_local_fallback s' = true
           /\ t' = t1 ++ [CPathExists (docker_compose_file d)].
Proof.
  intros H key t1 attempt.
  rewrite (get_or_create_none env s t timeout H).
  unfold create_sandbox. unfold bind at 1. unfold lift at 1, io at 1.
  cbn [world self]. fold key. fold t1.
  destruct (Sandbox_imported env && key_usable key).
  - unfold try_except. unfold bind at 1. unfold lift at 1, io at 1.
    cbn [world self]. fold attempt.
    destruct (Sandbox_create env t1 (py "gdpval-workspace") timeout)
      as [h|e].
    + do 3 eexists. cbn. repeat split; reflexivity.
    + do 3 eexists. cbn. repeat split; reflexivity.
  - destruct (beta9_imported env).
    + do 3 eexists. cbn. repeat split; reflexivity.
    + do 3 eexists. cbn. split; [reflexivity|]. split; [reflexivity|].
      split; [reflexivity|]. eexists. repeat split; reflexivity.
Qed.

Lemma creation_policy_witness :
  sandbox SessionSandbox_init = None
  /\ exists sb s' t',
       get_or_create_sandbox cloud_world 3600
                             (mk_state SessionSandbox_init [])
       = (Ok (Some sb), mk_state s' t')
       /\ sandbox s' = Some sb
       /\ sandbox_id s' = Some (py "sbx-1").
Proof.
  split; [reflexivity|].
  destruct (creation_policy cloud_world SessionSandbox_init [] 3600 eq_refl)
    as (sb & s' & t' & Hg & Hs & _ & Hp).
  exists sb, s', t'. split; [exact Hg|]. split; [exact Hs|].
  exact (proj1 (proj2 Hp)).
Defined.

(** The two local adapters answer the probe whatever happens: their
    listing swallows every exception. *)
Lemma local_listing_never_raises (env : Env) (sb : backend) (path : str)
      (t : trace) :
  (forall h, sb <> E2B h) ->
  exists l t', files_list env sb path t = (Ok l, t').
Proof.
  intros H. destruct sb as [h|b|d]; [now elim (H h)| |].
  - unfold files_list, Beta9_list, try_except.
    match goal with
    | |- context [bind ?m ?k t] => destruct (bind m k t) as [[l|e] t']
    end; do 2 eexists; reflexivity.
  - unfold files_list, Docker_list, try_except.
    match goal with
    | |- context [bind ?m ?k t] => destruct (bind m k t) as [[l|e] t']
    end; do 2 eexists; reflexivity.
Qed.

(** A sandbox that answers the listing is returned as it is. *)
Lemma health_check_alive (env : Env) (s : SessionSandbox) (sb : backend)
      (t t' : trace) (l : list str) (timeout : Z) :
  sandbox s = Some sb ->
  files_list env sb (py "/") t = (Ok l, t') ->
  get_or_create_sandbox env timeout (mk_state s t)
  = (Ok (Some sb), mk_state s t').
Proof.
  intros H E. unfold get_or_create_sandbox, health_check.
  unfold bind at 1. unfold bind at 1. unfold get_self at 1.
  cbn [self]. rewrite H.
  unfold try_except at 1. unfold bind at 1. unfold lift at 1.
  cbn [world self]. rewrite E. reflexivity.
Qed.

(** A sandbox on which the listing raises is killed and forgotten. *)
Lemma health_check_dead (env : Env) (s : SessionSandbox) (sb : backend)
      (t t' : trace) (e : exn) (timeout : Z) :
  sandbox s = Some sb ->
  files_list env sb (py "/") t = (Raise e, t') ->
  get_or_create_sandbox env timeout (mk_state s t)
  = get_or_create_sandbox env timeout
      (mk_state (mk_session None None [] (use_local_fallback s))
                (snd (kill env sb t'))).
Proof.
  intros H E.
  rewrite (get_or_create_none env
             (mk_session None None [] (use_local_fallback s))
             (snd (kill env sb t')) timeout eq_refl).
  unfold get_or_create_sandbox, health_check.
  unfold bind at 1. unfold bind at 1. unfold get_self at 1.
  cbn [self]. rewrite H.
  unfold try_except at 1. unfold bind at 1. unfold lift at 1.
  cbn [world self]. rewrite E.
  unfold bind at 1. unfold try_except at 1. unfold lift at 1.
  cbn [world self].
  destruct (kill env sb t') as [[u|e'] t'']; reflexivity.
Qed.



(** An upload that returns has recorded what it returns. *)
Lemma upload_records (env : Env) (local remote_dir : str) (st st1 : State)
      (r : str) :
  upload_reference_file env local remote_dir st = (Ok r, st1) ->
  dict_get (uploaded_reference_files (self st1)) local = Some r.
Proof.
  unfold upload_reference_file.
  unfold bind at 1. unfold lift at 1, io at 1. cbn [world self].
  destruct (os_path_exists env (world st) local); cbn [negb];
    [|discriminate].
  unfold bind at 1. unfold get_self at 1. cbn [self].
  destruct (dict_get (uploaded_reference_files (self st)) local)
    as [r0|] eqn:Ec.
  - intros H. inversion H; subst. exact Ec.
  - unfold bind at 1.
    destruct (get_or_create_sandbox env 3600 _) as [[sb|e] st2];
      [|discriminate].
    unfold bind at 1. unfold lift at 1, io at 1.
    destruct (read_file env (world st2) local) as [content|e];
      [|discriminate].
    unfold try_except. unfold bind at 1.
    destruct sb as [o|]; [|discriminate].
    unfold on_object at 1. unfold lift at 1. cbn [world self].
    destruct (files_write env o _ _ _) as [[u|e] t4]; [|discriminate].
    unfold bind at 1. unfold set_self at 1. cbn [world self].
    unfold bind at 1. unfold get_self at 1.
    cbn [world self set_uploaded use_local_fallback].
    destruct (use_local_fallback (self st2)); [destruct o|];
      cbn; intros H; try discriminate H;
      inversion H; subst; cbn; apply dict_get_set.
Qed.

(** A recorded path is handed back after the existence check alone. *)
Lemma upload_cached (env : Env) (local remote_dir : str) (st : State)
      (r : str) :
  dict_get (uploaded_reference_files (self st)) local = Some r ->
  os_path_exists env (world st) local = true ->
  upload_reference_file env local remote_dir st
  = (Ok r, mk_state (self st) (world st ++ [CPathExists local])).
Proof.
  intros Hc He. unfold upload_reference_file.
  unfold bind at 1. unfold lift at 1, io at 1. cbn [world self].
  rewrite He. cbn [negb].
  unfold bind at 1. unfold get_self at 1. cbn [self]. rewrite Hc.
  reflexivity.
Qed.

(** C6, as stated, fails: the existence of the local file is checked
    before the cache is looked up, so a second upload of a file that was
    removed after the first raises [FileNotFoundError] where the first
    returned the remote path. *)
Lemma upload_after_removal_counterexample :
  exists st1,
    upload_reference_file removed_after_write_world (py "/in/a.png")
                          (py "/home/user/reference_files") fresh_state
    = (Ok (py "/home/user/reference_files/a.png"), st1)
    /\ dict_get (uploaded_reference_files (self st1)) (py "/in/a.png")
       = Some (py "/home/user/reference_files/a.png")
    /\ upload_reference_file removed_after_write_world (py "/in/a.png")
                             (py "/home/user/reference_files") st1
       = (Raise (mk_exn FileNotFoundError
                   (py "Reference file not found: /in/a.png")),
          mk_state (self st1) (world st1 ++ [CPathExists (py "/in/a.png")])).
Proof.
  eexists. split; [vm_compute; reflexivity|].
  split; vm_compute; reflexivity.
Qed.

(** C6, amended. Let an upload of [local_path] return [r].  When the path
    was not in the cache of the session, that call has got the sandbox,
    read the local file and written its bytes to the sandbox at [r], which
    is [remote_dir/basename]; the write is the last call it made.  When
    the path was in the cache, [r] is the cached path and the call has
    only checked that the file exists.  A second upload of [local_path],
    to any directory, first checks that the local file exists, and makes
    no other call: when the file is still there it returns [r] again, so
    nothing is written to the sandbox, and when the file is gone it raises
    [FileNotFoundError]; either way the session is left as it was. *)
Theorem upload_twice (env : Env) (local remote_dir : str)
        (st st1 : State) (r : str) :
  upload_reference_file env local remote_dir st = (Ok r, st1) ->
  match dict_get (uploaded_reference_files (self st)) local with
  | Some r0 =>
      r = r0 /\ st1 = mk_state (self st) (world st ++ [CPathExists local])
  | None =>
      exists sb content st2,
        get_or_create_sandbox env 3600
          (mk_state (self st) (world st ++ [CPathExists local]))
        = (Ok (Some sb), st2)
        /\ read_file env (world st2) local = Ok content
        /\ r = remote_dir ++ py "/" ++ os_path_basename local
        /\ files_write env sb r (VBytes content)
                       (world st2 ++ [CReadFile local])
           = (Ok tt, world st1)
  end
  /\ forall remote_dir',
       upload_reference_file env local remote_dir' st1
       = (if os_path_exists env (world st1) local
          then Ok r
          else Raise (mk_exn FileNotFoundError
                        (py "Reference file not found: " ++ local)),
          mk_state (self st1) (world st1 ++ [CPathExists local])).
Proof.
  intros H1. split.
  - revert H1. unfold upload_reference_file.
    unfold bind at 1. unfold lift at 1, io at 1. cbn [world self].
    destruct (os_path_exists env (world st) local); cbn [negb];
      [|discriminate].
    unfold bind at 1. unfold get_self at 1. cbn [self].
    destruct (dict_get (uploaded_reference_files (self st)) local)
      as [r0|] eqn:Ec.
    + intros H. inversion H; subst. split; reflexivity.
    + unfold bind at 1.
      destruct (get_or_create_sandbox env 3600 _) as [[sb|e] st2] eqn:Eg;
        [|discriminate].
      unfold bind at 1. unfold lift at 1, io at 1.
      destruct (read_file env (world st2) local) as [content|e] eqn:Er;
        [|discriminate].
      unfold try_except. unfold bind at 1.
      destruct sb as [o|]; [|discriminate].
      unfold on_object at 1. unfold lift at 1. cbn [world self].
      destruct (files_write env o _ _ _) as [[u|e] t4] eqn:Ew;
        [|discriminate].
      unfold bind at 1. unfold set_self at 1. cbn [world self].
      unfold bind at 1. unfold get_self at 1.
      cbn [world self set_uploaded use_local_fallback].
      destruct u.
      destruct (use_local_fallback (self st2)); [destruct o|];
        cbn; intros H; try discriminate H;
        inversion H; subst; cbn [world];
        do 3 eexists; repeat split; first [eassumption|reflexivity].
  - intros remote_dir'.
    pose proof (upload_records env local remote_dir st st1 r H1) as Hc.
    unfold upload_reference_file.
    unfold bind at 1. unfold lift at 1, io at 1. cbn [world self].
    destruct (os_path_exists env (world st1) local); cbn [negb].
    + unfold bind at 1. unfold get_self at 1. cbn [self]. rewrite Hc.
      reflexivity.
    + reflexivity.
Qed.

Lemma upload_twice_witness :
  exists st1,
    upload_reference_file cloud_world (py "/in/a.png")
                          (py "/home/user/reference_files") fresh_state
    = (Ok (py "/home/user/reference_files/a.png"), st1)
    /\ (exists sb content st2,
          get_or_create_sandbox cloud_world 3600
            (mk_state SessionSandbox_init [CPathExists (py "/in/a.png")])
          = (Ok (Some sb), st2)
          /\ read_file cloud_world (world st2) (py "/in/a.png") = Ok content
          /\ files_write cloud_world sb
                         (py "/home/user/reference_files/a.png")
                         (VBytes content)
                         (world st2 ++ [CReadFile (py "/in/a.png")])
             = (Ok tt, world st1))
    /\ upload_reference_file cloud_world (py "/in/a.png") (py "/elsewhere") st1
       = (Ok (py "/home/user/reference_files/a.png"),
          mk_state (self st1) (world st1 ++ [CPathExists (py "/in/a.png")])).
Proof.
  eexists ?[st1].
  assert (H1 : upload_reference_file cloud_world (py "/in/a.png")
                 (py "/home/user/reference_files") fresh_state
               = (Ok (py "/home/user/reference_files/a.png"), ?st1)).
  { vm_compute. reflexivity. }
  split; [exact H1|].
  destruct (upload_twice cloud_world (py "/in/a.png")
              (py "/home/user/reference_files")
              fresh_state _ (py "/home/user/reference_files/a.png") H1)
    as (Hfirst & Hsecond).
  split.
  - cbn [fresh_state self uploaded_reference_files SessionSandbox_init
         dict_get world app] in Hfirst.
    destruct Hfirst as (sb & content & st2 & Hg & Hr & _ & Hw).
    exists sb, content, st2. split; [exact Hg|]. split; [exact Hr|exact Hw].
  - exact (Hsecond (py "/elsewhere")).
Defined.

(** The write of the Beta9 adapter returns whatever the copy does: its
    handler prints the exception of a failed copy and goes on. *)
Lemma beta9_write_returns (env : Env) (b : Beta9Sandbox) (path : str)
      (content : pyval) (t : trace) (tp : str) (data : bytes) :
  temp_file env t = Ok tp ->
  as_bytes env content = Ok data ->
  write_file env (t ++ [CTempFile]) tp data = Ok tt ->
  (forall t', os_unlink env t' tp = Ok tt) ->
  Beta9_write env b path content t
  = (Ok tt,
     t ++ [CTempFile] ++ [CWriteFile tp data]
       ++ [CSubprocess (beta9_cp b tp path) None] ++ [CUnlink tp]).
Proof.
  intros Ht Hd Hw Hu. unfold Beta9_write.
  unfold bind at 1. unfold io at 1. rewrite Ht.
  unfold bind at 1. unfold of_result at 1. rewrite Hd.
  unfold bind at 1. unfold io at 1. rewrite Hw.
  unfold try_finally, try_except.
  unfold bind at 1. unfold subprocess_run. unfold bind at 1.
  unfold io at 1. fold (beta9_cp b tp path).
  rewrite <- !app_assoc. cbn [app].
  destruct (subprocess_raw env _ (beta9_cp b tp path) None) as [c|e].
  - unfold bind at 1. unfold check_status. cbn [andb].
    destruct (negb (returncode c =? 0)%Z); cbn; rewrite Hu;
      rewrite <- ?app_assoc; reflexivity.
  - cbn. rewrite Hu. rewrite <- ?app_assoc. reflexivity.
Qed.

(** The write of the Docker adapter, for comparison, raises when the
    command that writes fails. *)
Lemma docker_write_raises (env : Env) (d : DockerSandbox) (path : str)
      (content : bytes) (t : trace) (c : Completed) :
  (forall t',
     subprocess_raw env t'
       (docker_exec d [py "sh"; py "-c"; py "cat > '" ++ path ++ py "'"])
       (Some content) = Ok c) ->
  returncode c <> 0%Z ->
  exists e t', Docker_write env d path (VBytes content) t = (Raise e, t').
Proof.
  intros Hs Hc. apply Z.eqb_neq in Hc.
  assert (Hw : forall t0,
             exists e t',
               (input_bytes <- of_result (as_bytes env (VBytes content)) ;;
                subprocess_run env
                  (docker_exec d [py "sh"; py "-c";
                                  py "cat > '" ++ path ++ py "'"])
                  (Some input_bytes) true ;;;
                ret tt) t0 = (Raise e, t')).
  { intros t0. unfold bind at 1. unfold of_result at 1. cbn [as_bytes].
    unfold bind at 1. unfold subprocess_run. unfold bind at 1.
    unfold io at 1. rewrite Hs. unfold bind at 1. unfold check_status.
    cbn [andb]. rewrite Hc. cbn [negb]. do 2 eexists. reflexivity. }
  unfold Docker_write. unfold bind at 1.
  match goal with
  | |- context [match ?m t with _ => _ end] => destruct (m t) as [[u|e] t1]
  end.
  - apply Hw.
  - do 2 eexists. reflexivity.
Qed.

(** C7 does not hold on the Beta9 adapter.  With a Beta9 sandbox in the
    session, a local file that is there and not yet uploaded, and a copy
    to the volume that fails (it raises or exits with a status other than
    0), [upload_reference_file] returns the remote path and records it:
    no [RuntimeError], and the upload cache has the entry of a file that
    is not on the volume. *)
Theorem beta9_failed_write_is_recorded (env : Env) (s : SessionSandbox)
        (b : Beta9Sandbox) (t : trace) (local remote_dir : str)
        (content : bytes) (tp : str) :
  sandbox s = Some (Beta9 b) ->
  dict_get (uploaded_reference_files s) local = None ->
  (forall t', os_path_exists env t' local = true) ->
  (forall t', read_file env t' local = Ok content) ->
  (forall t', temp_file env t' = Ok tp) ->
  (forall t', write_file env t' tp content = Ok tt) ->
  (forall t', os_unlink env t' tp = Ok tt) ->
  (forall t',
     command_failed
       (subprocess_raw env t'
          (beta9_cp b tp (remote_dir ++ py "/" ++ os_path_basename local))
          None)) ->
  exists st',
    upload_reference_file env local remote_dir (mk_state s t)
    = (Ok (remote_dir ++ py "/" ++ os_path_basename local), st')
    /\ dict_get (uploaded_reference_files (self st')) local
       = Some (remote_dir ++ py "/" ++ os_path_basename local)
    /\ In (CSubprocess
             (beta9_cp b tp (remote_dir ++ py "/" ++ os_path_basename local))
             None) (world st').
Proof.
  intros Hs Hc He Hr Ht Hw Hu _.
  unfold upload_reference_file.
  unfold bind at 1. unfold lift at 1, io at 1. cbn [world self].
  rewrite He. cbn [negb].
  unfold bind at 1. unfold get_self at 1. cbn [self]. rewrite Hc.
  unfold bind at 1.
  destruct (local_listing_never_raises env (Beta9 b) (py "/")
              (t ++ [CPathExists local])) as (l & t1 & Hl);
    [discriminate|].
  rewrite (health_check_alive env s (Beta9 b) _ t1 l 3600 Hs Hl).
  unfold bind at 1. unfold lift at 1, io at 1. cbn [world self].
  rewrite Hr.
  unfold try_except. unfold bind at 1.
  unfold on_object at 1. unfold lift at 1. cbn [world self files_write].
  rewrite (beta9_write_returns env b _ (VBytes content) _ tp content
             (Ht _) eq_refl (Hw _) Hu).
  unfold bind at 1. unfold set_self at 1. cbn [world self].
  unfold bind at 1. unfold get_self at 1.
  cbn [world self set_uploaded use_local_fallback].
  destruct (use_local_fallback s); cbn;
    (eexists; split; [reflexivity|]; split; [apply dict_get_set|]);
    cbn [world]; rewrite !in_app_iff; cbn [In]; tauto.
Qed.

Lemma beta9_failed_write_is_recorded_witness :
  exists st',
    upload_reference_file volume_world (py "/in/a.png")
      (py "/home/user/reference_files")
      (mk_state (mk_session (Some (Beta9 Beta9Sandbox_init))
                            (Some (py "beta9-primary")) [] true) [])
    = (Ok (py "/home/user/reference_files/a.png"), st')
    /\ dict_get (uploaded_reference_files (self st')) (py "/in/a.png")
       = Some (py "/home/user/reference_files/a.png")
    /\ command_failed
         (subprocess_raw volume_world (world st')
            (beta9_cp Beta9Sandbox_init (py "/tmp/tmp0")
                      (py "/home/user/reference_files/a.png")) None).
Proof.
  destruct (beta9_failed_write_is_recorded volume_world
              (mk_session (Some (Beta9 Beta9Sandbox_init))
                          (Some (py "beta9-primary")) [] true)
              Beta9Sandbox_init [] (py "/in/a.png")
              (py "/home/user/reference_files") png_bytes (py "/tmp/tmp0")
              eq_refl eq_refl
              (fun _ => eq_refl) (fun _ => eq_refl) (fun _ => eq_refl)
              (fun _ => eq_refl) (fun _ => eq_refl)
              (fun _ => ltac:(cbn; discriminate)))
    as (st' & H1 & H2 & _).
  exists st'. split; [exact H1|]. split; [exact H2|].
  cbn. discriminate.
Defined.

(** The read of the Docker adapter, asked for bytes, never returns: the
    output of the command is [bytes] and [encode] is called on it. *)
Lemma docker_read_bytes_raises (env : Env) (d : DockerSandbox) (path : str)
      (t : trace) :
  exists e,
    Docker_read env d path (py "bytes") t
    = (Raise e, t ++ [CSubprocess (docker_exec d [py "cat"; path]) None]).
Proof.
  unfold Docker_read. unfold bind at 1. unfold subprocess_run.
  unfold bind at 1. unfold io at 1.
  destruct (subprocess_raw env t (docker_exec d [py "cat"; path]) None)
    as [c|e].
  - unfold bind at 1. unfold check_status. cbn [andb]. unfold ret at 1.
    unfold ret at 1.
    destruct (negb (returncode c =? 0)%Z).
    + eexists. reflexivity.
    + change (str_eqb (py "bytes") (py "bytes")) with true. cbv iota.
      eexists. reflexivity.
  - eexists. reflexivity.
Qed.

(** C2 does not hold on the Docker adapter.  With a Docker sandbox in the
    session, [download_artifact] raises [RuntimeError] for every remote
    path, whatever the container holds; the only call made is the [cat] of
    the remote file, so no local file is written. *)
Theorem docker_download_always_fails (env : Env) (s : SessionSandbox)
        (d : DockerSandbox) (t : trace) (remote_path local_dir : str) :
  sandbox s = Some (Docker d) ->
  exists e,
    download_artifact env remote_path local_dir (mk_state s t)
    = (Raise e,
       mk_state s (t ++ [CSubprocess (docker_exec d [py "cat"; remote_path])
                                     None]))
    /\ exn_kind e = RuntimeError.
Proof.
  intros H. unfold download_artifact.
  unfold bind at 1. unfold get_self at 1. cbn [self]. rewrite H.
  unfold try_except. unfold bind at 1. unfold lift at 1.
  cbn [world self files_read].
  destruct (docker_read_bytes_raises env d remote_path t) as [e He].
  rewrite He. eexists. split; reflexivity.
Qed.

Lemma docker_download_always_fails_witness :
  exists st,
    upload_reference_file container_world (py "/in/a.png")
                          (py "/home/user/reference_files") fresh_state
    = (Ok (py "/home/user/reference_files/a.png"), st)
    /\ subprocess_raw container_world (world st)
         (docker_exec (mk_docker (py "docker-sandbox") 3600 (py "/app")
                                 (py "/app/docker-compose.yml"))
                      [py "cat"; py "/home/user/reference_files/a.png"])
         None
       = Ok (mk_completed 0 png_bytes [])
    /\ sandbox (self st)
       = Some (Docker (mk_docker (py "docker-sandbox") 3600 (py "/app")
                                 (py "/app/docker-compose.yml")))
    /\ exists e,
         download_artifact container_world
           (py "/home/user/reference_files/a.png") (py "/data/sandbox")
           (mk_state (self st) (world st))
         = (Raise e,
            mk_state (self st)
              (world st
               ++ [CSubprocess
                     (docker_exec
                        (mk_docker (py "docker-sandbox") 3600 (py "/app")
                                   (py "/app/docker-compose.yml"))
                        [py "cat"; py "/home/user/reference_files/a.png"])
                     None]))
         /\ exn_kind e = RuntimeError.
Proof.
  exists (snd (upload_reference_file container_world (py "/in/a.png")
                 (py "/home/user/reference_files") fresh_state)).
  split; [vm_compute; reflexivity|]. split; [vm_compute; reflexivity|].
  assert (H2 : sandbox
                 (self (snd (upload_reference_file container_world
                               (py "/in/a.png")
                               (py "/home/user/reference_files")
                               fresh_state)))
               = Some (Docker (mk_docker (py "docker-sandbox") 3600
                                         (py "/app")
                                         (py "/app/docker-compose.yml")))).
  { vm_compute. reflexivity. }
  split; [exact H2|].
  exact (docker_download_always_fails container_world _ _ _
           (py "/home/user/reference_files/a.png") (py "/data/sandbox") H2).
Defined.

(** On a backend whose read returns bytes, the download writes those
    bytes, as they are, under the base name of the remote path. *)
Lemma download_writes_what_was_read (env : Env) (s : SessionSandbox)
      (sb : backend) (t t1 : trace) (remote_path local_dir : str)
      (b : bytes) :
  sandbox s = Some sb ->
  files_read env sb remote_path (py "bytes") t = (Ok (VBytes b), t1) ->
  (forall t', os_makedirs env t' local_dir = Ok tt) ->
  (forall t' p, write_file env t' p b = Ok tt) ->
  download_artifact env remote_path local_dir (mk_state s t)
  = (Ok (os_path_join local_dir [os_path_basename remote_path]),
     mk_state s
       (t1 ++ [CMakedirs local_dir]
           ++ [CWriteFile
                 (os_path_join local_dir [os_path_basename remote_path]) b])).
Proof.
  intros H Hr Hm Hw. unfold download_artifact.
  unfold bind at 1. unfold get_self at 1. cbn [self]. rewrite H.
  unfold try_except. unfold bind at 1. unfold lift at 1.
  cbn [world self]. rewrite Hr.
  unfold bind at 1. unfold lift at 1, io at 1. cbn [world self].
  rewrite Hm.
  unfold bind at 1. unfold lift at 1, io at 1. cbn [world self].
  rewrite Hw. unfold ret. rewrite <- app_assoc. reflexivity.
Qed.

(* ================================================================= *)
(** * Further properties *)

(** ** The scanner, continued *)

Section ScannerMore.

Import Re.

Lemma take_while_all (f : N -> bool) (s : str) :
  Forall (fun c => f c = true) (take_while f s).
Proof.
  induction s as [|c s IH]; simpl; [constructor|].
  destruct (f c) eqn:E; constructor; assumption.
Qed.

Lemma drop_while_head (f : N -> bool) (s : str) :
  match drop_while f s with
  | [] => True
  | c :: _ => f c = false
  end.
Proof.
  induction s as [|c s IH]; simpl; [exact I|].
  destruct (f c) eqn:E; [exact IH|exact E].
Qed.

(** A match of the pattern is the marker, a token, and the text after the
    token. *)
Lemma match_artifact_some (s rest : str) (g : option str) :
  match_here artifact_pattern s None None = Some (rest, g) ->
  exists tok,
    g = Some tok /\ s = ARTIFACT_MARKER ++ tok ++ rest
    /\ token tok /\ ends_token rest.
Proof.
  rewrite match_artifact.
  destruct (startswith s ARTIFACT_MARKER) eqn:Hs; [|discriminate].
  apply startswith_split in Hs.
  set (r := skipn (length ARTIFACT_MARKER) s) in *.
  pose proof (take_drop_while (atom_ok NotSpace) r) as Htd.
  pose proof (take_while_all (atom_ok NotSpace) r) as Hall.
  pose proof (drop_while_head (atom_ok NotSpace) r) as Hhd.
  destruct (take_while (atom_ok NotSpace) r) as [|c tok] eqn:Et;
    [discriminate|].
  intros H. inversion H; subst rest g. clear H.
  exists (c :: tok). split; [reflexivity|].
  split; [now rewrite Htd|].
  split.
  - split; [discriminate|].
    eapply Forall_impl; [|exact Hall].
    intros a Ha. simpl in Ha. now destruct (is_space a).
  - unfold ends_token.
    destruct (drop_while (atom_ok NotSpace) r) as [|d q]; [exact I|].
    simpl in Hhd. now destruct (is_space d).
Qed.

Lemma findall_from_sound (s : str) :
  forall skip p,
    In p (findall_from artifact_pattern skip s) ->
    exists pre post,
      s = pre ++ ARTIFACT_MARKER ++ p ++ post /\ token p /\ ends_token post.
Proof.
  induction s as [|c s IH]; intros skip p Hin.
  - destruct skip as [|k]; [|contradiction].
    rewrite findall_from_zero, match_artifact in Hin.
    change (startswith [] ARTIFACT_MARKER) with false in Hin.
    contradiction.
  - destruct skip as [|k].
    + rewrite findall_from_zero in Hin.
      destruct (match_here artifact_pattern (c :: s) None None)
        as [[rest g]|] eqn:E.
      * destruct Hin as [Hp|Hin].
        -- apply match_artifact_some in E as (tok & -> & Hs & Ht & He).
           simpl in Hp. subst p. exists [], rest.
           split; [exact Hs|]. split; assumption.
        -- apply IH in Hin as (pre & post & -> & Ht & He).
           exists (c :: pre), post.
        split; [reflexivity|]. split; assumption.
      * apply IH in Hin as (pre & post & -> & Ht & He).
        exists (c :: pre), post.
        split; [reflexivity|]. split; assumption.
    + cbn [findall_from] in Hin.
      apply IH in Hin as (pre & post & -> & Ht & He).
      exists (c :: pre), post.
        split; [reflexivity|]. split; assumption.
Qed.

Lemma findall_from_bound (s : str) :
  forall skip,
    length (findall_from artifact_pattern skip s) * 15 <= length s - skip.
Proof.
  induction s as [|c s IH]; intros skip.
  - destruct skip as [|k]; [|simpl; lia].
    rewrite findall_from_zero, match_artifact.
    change (startswith [] ARTIFACT_MARKER) with false. simpl. lia.
  - destruct skip as [|k].
    + rewrite findall_from_zero.
      destruct (match_here artifact_pattern (c :: s) None None)
        as [[rest g]|] eqn:E.
      * apply match_artifact_some in E as (tok & -> & Hs & [Hne _] & _).
        assert (Hl : length (c :: s) = 14 + length tok + length rest).
        { rewrite Hs, !length_app. reflexivity. }
        specialize (IH (Nat.pred (length (c :: s) - length rest))).
        cbn [length] in *.
        destruct tok as [|a tok]; [contradiction|]. cbn [length] in *.
        lia.
      * specialize (IH 0). cbn [length]. lia.
    + cbn [findall_from length]. specialize (IH k). lia.
Qed.

Lemma contains_here (needle s : str) :
  startswith s needle = true -> contains needle s = true.
Proof. intros H. destruct s; simpl; rewrite H; reflexivity. Qed.

Lemma contains_app (needle pre post : str) :
  contains needle (pre ++ needle ++ post) = true.
Proof.
  induction pre as [|c pre IH].
  - cbn [app]. apply contains_here. apply startswith_app.
  - cbn [app contains]. rewrite IH. apply orb_true_r.
Qed.

End ScannerMore.

(** X1. Every path the scan extracts is a token (not empty, free of
    whitespace) that stands in the text right after a marker and ends at a
    whitespace or at the end of the text. *)
Theorem scan_sound (s p : str) :
  In p (find_artifact_paths s) ->
  token p
  /\ exists pre post,
       s = pre ++ ARTIFACT_MARKER ++ p ++ post /\ ends_token post.
Proof.
  intros H. apply findall_from_sound in H as (pre & post & Hs & Ht & He).
  split; [exact Ht|]. exists pre, post. split; assumption.
Qed.

Lemma scan_sound_witness :
  In (py "/tmp/y.png")
     (find_artifact_paths
        (py "ARTIFACT_PATH:/tmp/x.txt ARTIFACT_PATH:/tmp/y.png"))
  /\ token (py "/tmp/y.png").
Proof.
  assert (H : In (py "/tmp/y.png")
                 (find_artifact_paths
                    (py "ARTIFACT_PATH:/tmp/x.txt ARTIFACT_PATH:/tmp/y.png"))).
  { vm_compute. tauto. }
  split; [exact H|]. exact (proj1 (scan_sound _ _ H)).
Defined.

(** X2. A text of n characters yields at most n/15 paths: each path takes
    the fourteen characters of the marker and one more at least, and
    matches do not overlap. *)
Theorem scan_count_bound (s : str) :
  length (find_artifact_paths s) * 15 <= length s.
Proof.
  pose proof (findall_from_bound s 0) as H.
  unfold find_artifact_paths, Re.findall. lia.
Qed.

(** X3. The test ["ARTIFACT_PATH:" in stdout_str] that guards the scan
    changes nothing: where it fails, the scan finds nothing. *)
Theorem scan_guard_redundant (s : str) :
  contains ARTIFACT_MARKER s = false -> find_artifact_paths s = [].
Proof.
  intros Hc. destruct (find_artifact_paths s) as [|p l] eqn:E;
    [reflexivity|].
  assert (Hin : In p (find_artifact_paths s)) by (rewrite E; now left).
  apply findall_from_sound in Hin as (pre & post & Hs & _ & _).
  rewrite Hs, contains_app in Hc. discriminate.
Qed.

Lemma scan_guard_redundant_witness :
  contains ARTIFACT_MARKER (py "ARTIFACT_PATH /tmp/x") = false
  /\ find_artifact_paths (py "ARTIFACT_PATH /tmp/x") = [].
Proof.
  assert (H : contains ARTIFACT_MARKER (py "ARTIFACT_PATH /tmp/x") = false)
    by reflexivity.
  split; [exact H|]. exact (scan_guard_redundant _ H).
Defined.

(** ** Listings and local paths *)




Lemma basename_from_no_sep (s cur : str) :
  ~ In SEP cur -> ~ In SEP (basename_from s cur).
Proof.
  revert cur. induction s as [|c s IH]; intros cur H; simpl.
  - now rewrite <- in_rev.
  - destruct (c =? SEP)%N eqn:E.
    + apply IH. intros [].
    + apply IH. intros [Hc|Hc]; [|now apply H].
      subst c. now rewrite N.eqb_refl in E.
Qed.

Lemma no_sep_not_absolute (b : str) :
  ~ In SEP b -> startswith b [SEP] = false.
Proof.
  intros H. destruct b as [|c b]; [reflexivity|].
  cbn [startswith]. destruct (SEP =? c)%N eqn:E; [|reflexivity].
  apply N.eqb_eq in E. elim H. now left.
Qed.

(** X5. The local path of a download is the download directory followed
    by one path component: the base name of the remote path holds no "/",
    so it never replaces the directory (as an absolute component would)
    and never names a subdirectory of it. *)
Theorem download_path_under_dir (local_dir remote_path : str) :
  ~ In SEP (os_path_basename remote_path)
  /\ exists sep,
       (sep = [] \/ sep = [SEP])
       /\ os_path_join local_dir [os_path_basename remote_path]
          = local_dir ++ sep ++ os_path_basename remote_path.
Proof.
  assert (Hb : ~ In SEP (os_path_basename remote_path)).
  { apply basename_from_no_sep. intros []. }
  split; [exact Hb|].
  unfold os_path_join. cbn [fold_left]. unfold join2.
  rewrite (no_sep_not_absolute _ Hb).
  destruct local_dir as [|c d].
  - exists []. split; [now left|reflexivity].
  - destruct (endswith_sep (c :: d)).
    + exists []. split; [now left|reflexivity].
    + exists [SEP]. split; [now right|reflexivity].
Qed.

(** ** The session manager, continued *)

Lemma session_ok_set_uploaded (v : dict str) (s : SessionSandbox) :
  session_ok s -> session_ok (set_uploaded v s).
Proof. intros H. exact H. Qed.

(** Creation always succeeds: each failure has a fallback. *)
Lemma create_sandbox_ok (env : Env) (timeout : Z) (s : SessionSandbox)
      (t : trace) :
  exists s' t' sb,
    create_sandbox env timeout (mk_state s t) = (Ok tt, mk_state s' t')
    /\ sandbox s' = Some sb
    /\ session_ok s'
    /\ uploaded_reference_files s' = uploaded_reference_files s.
Proof.
  unfold create_sandbox. unfold bind at 1. unfold lift at 1, io at 1.
  cbn [world self].
  destruct (Sandbox_imported env && key_usable _).
  - unfold try_except. unfold bind at 1. unfold lift at 1, io at 1.
    cbn [world self].
    destruct (Sandbox_create env _ (py "gdpval-workspace") timeout)
      as [h|e].
    + do 3 eexists. cbn. split; [reflexivity|]. split; [reflexivity|].
      split; [|reflexivity]. unfold session_ok. cbn. split; reflexivity.
    + do 3 eexists. cbn. split; [reflexivity|]. split; [reflexivity|].
      split; [|reflexivity]. unfold session_ok. cbn.
      split; [reflexivity|]. split; [reflexivity|]. now left.
  - destruct (beta9_imported env).
    + do 3 eexists. cbn. split; [reflexivity|]. split; [reflexivity|].
      split; [|reflexivity]. unfold session_ok. cbn.
      split; [reflexivity|]. split; [reflexivity|]. now right.
    + do 3 eexists. cbn. split; [reflexivity|]. split; [reflexivity|].
      split; [|reflexivity]. unfold session_ok. cbn. split; reflexivity.
Qed.

(** What [get_or_create_sandbox] does to a session, in every case. *)
Lemma get_or_create_cases (env : Env) (timeout : Z) (st : State) :
  exists sb st',
    get_or_create_sandbox env timeout st = (Ok (Some sb), st')
    /\ sandbox (self st') = Some sb
    /\ (session_ok (self st) -> session_ok (self st'))
    /\ (uploaded_reference_files (self st')
        = uploaded_reference_files (self st)
        \/ uploaded_reference_files (self st') = []).
Proof.
  destruct st as [s t].
  assert (Hnone : forall s0 t0,
             sandbox s0 = None ->
             exists sb st',
               get_or_create_sandbox env timeout (mk_state s0 t0)
               = (Ok (Some sb), st')
               /\ sandbox (self st') = Some sb
               /\ session_ok (self st')
               /\ uploaded_reference_files (self st')
                  = uploaded_reference_files s0).
  { intros s0 t0 H0. rewrite (get_or_create_none env s0 t0 timeout H0).
    destruct (create_sandbox_ok env timeout s0 t0)
      as (s' & t' & sb & Hc & Hs & Hok & Hu).
    rewrite Hc. cbn [self]. rewrite Hs.
    exists sb, (mk_state s' t'). cbn [self]. tauto. }
  destruct (sandbox s) as [sb|] eqn:Es.
  - destruct (files_list env sb (py "/") t) as [[l|e] t'] eqn:El.
    + rewrite (health_check_alive env s sb t t' l timeout Es El).
      exists sb, (mk_state s t'). cbn [self]. tauto.
    + rewrite (health_check_dead env s sb t t' e timeout Es El).
      destruct (Hnone (mk_session None None [] (use_local_fallback s))
                      (snd (kill env sb t')) eq_refl)
        as (sb' & st' & Hg & Hs & Hok & Hu).
      exists sb', st'. cbn [self]. split; [exact Hg|].
      split; [exact Hs|]. split; [intros _; exact Hok|]. right. exact Hu.
  - destruct (Hnone s t Es) as (sb' & st' & Hg & Hs & Hok & Hu).
    exists sb', st'. cbn [self]. split; [exact Hg|].
    split; [exact Hs|]. split; [intros _; exact Hok|]. left. exact Hu.
Qed.

(** X6. [get_or_create_sandbox] never raises and never returns [None]:
    from every session and whatever the environment answers, it returns a
    sandbox, and that sandbox is the one the session holds afterwards. *)
Theorem get_or_create_always_returns (env : Env) (timeout : Z) (st : State) :
  exists sb st',
    get_or_create_sandbox env timeout st = (Ok (Some sb), st')
    /\ sandbox (self st') = Some sb.
Proof.
  destruct (get_or_create_cases env timeout st) as (sb & st' & H & Hs & _).
  exists sb, st'. split; assumption.
Qed.

(** X7. On a session whose sandbox is one of the two local adapters the
    health check cannot fail, since their listing swallows every
    exception: [get_or_create_sandbox] returns that same sandbox and
    leaves the session as it was, whatever the state of the container or
    of the volume. *)
Theorem local_sandbox_never_recreated (env : Env) (s : SessionSandbox)
        (sb : backend) (t : trace) (timeout : Z) :
  sandbox s = Some sb ->
  is_local sb = true ->
  exists t',
    get_or_create_sandbox env timeout (mk_state s t)
    = (Ok (Some sb), mk_state s t').
Proof.
  intros Hs Hl.
  destruct (local_listing_never_raises env sb (py "/") t) as (l & t' & H).
  { intros h ->. discriminate. }
  exists t'. eapply health_check_alive; eauto.
Qed.

Lemma local_sandbox_never_recreated_witness :
  exists t',
    get_or_create_sandbox volume_world 3600
      (mk_state (mk_session (Some (Beta9 Beta9Sandbox_init))
                            (Some (py "beta9-primary")) [] true) [])
    = (Ok (Some (Beta9 Beta9Sandbox_init)),
       mk_state (mk_session (Some (Beta9 Beta9Sandbox_init))
                            (Some (py "beta9-primary")) [] true) t').
Proof.
  exact (local_sandbox_never_recreated volume_world
           (mk_session (Some (Beta9 Beta9Sandbox_init))
                       (Some (py "beta9-primary")) [] true)
           (Beta9 Beta9Sandbox_init) [] 3600 eq_refl eq_refl).
Defined.

(** ** Downloads *)

Lemma keeps_self_lift {A} (m : M trace A) : keeps_self (lift m).
Proof. intros st. unfold lift. destruct (m (world st)); reflexivity. Qed.

Lemma keeps_self_ret {A} (a : A) : keeps_self (ret a).
Proof. intros st. reflexivity. Qed.

Lemma keeps_self_raise {A} (e : exn) : keeps_self (@raise State A e).
Proof. intros st. reflexivity. Qed.

Lemma keeps_self_of_result {A} (r : result A) : keeps_self (of_result r).
Proof. intros st. reflexivity. Qed.

Lemma keeps_self_get_self : keeps_self get_self.
Proof. intros st. reflexivity. Qed.

Lemma keeps_self_bind {A B} (m : M State A) (k : A -> M State B) :
  keeps_self m -> (forall a, keeps_self (k a)) -> keeps_self (bind m k).
Proof.
  intros Hm Hk st. unfold bind. specialize (Hm st).
  destruct (m st) as [[a|e] st1]; cbn [snd] in *.
  - rewrite (Hk a st1). exact Hm.
  - exact Hm.
Qed.

Lemma keeps_self_try_except {A} (m : M State A) (h : exn -> M State A) :
  keeps_self m -> (forall e, keeps_self (h e)) -> keeps_self (try_except m h).
Proof.
  intros Hm Hh st. unfold try_except. specialize (Hm st).
  destruct (m st) as [[a|e] st1]; cbn [snd] in *.
  - exact Hm.
  - rewrite (Hh e st1). exact Hm.
Qed.

Ltac keeps :=
  repeat first
    [ apply keeps_self_lift | apply keeps_self_ret | apply keeps_self_raise
    | apply keeps_self_of_result | apply keeps_self_get_self
    | apply keeps_self_bind | apply keeps_self_try_except | intro ].

Lemma download_keeps_self (env : Env) (remote_path local_dir : str) :
  keeps_self (download_artifact env remote_path local_dir).
Proof.
  unfold download_artifact. apply keeps_self_bind; [keeps|].
  intros s. destruct (sandbox s); [|keeps].
  apply keeps_self_try_except; [|keeps].
  apply keeps_self_bind; [keeps|]. intros content.
  apply keeps_self_bind; [keeps|]. intros _.
  apply keeps_self_bind; [|keeps]. destruct content; keeps.
Qed.

Lemma download_returns (env : Env) (remote_path local_dir : str)
      (st st' : State) (x : str) :
  download_artifact env remote_path local_dir st = (Ok x, st') ->
  x = local_copy local_dir remote_path.
Proof.
  unfold download_artifact. unfold bind at 1. unfold get_self at 1.
  destruct (sandbox (self st)) as [sb|]; [|discriminate].
  unfold try_except. unfold bind at 1.
  destruct (lift (files_read env sb remote_path (py "bytes")) st)
    as [[content|e] st1]; [|discriminate].
  unfold bind at 1.
  destruct (lift (io (CMakedirs local_dir) _) st1) as [[u|e] st2];
    [|discriminate].
  unfold bind at 1.
  match goal with
  | |- context [match ?m st2 with _ => _ end] =>
      destruct (m st2) as [[u'|e] st3]; [|discriminate]
  end.
  unfold ret. intros H. inversion H. reflexivity.
Qed.

(** X8. [download_artifact] raises nothing but [RuntimeError]: whatever
    the read of the remote file, the creation of the directory or the
    write of the local file raises is wrapped.  With no sandbox in the
    session it raises at once, before any call. *)
Theorem download_raises_runtime_error (env : Env)
        (remote_path local_dir : str) (st : State) :
  (forall e st',
     download_artifact env remote_path local_dir st = (Raise e, st') ->
     exn_kind e = RuntimeError)
  /\ (sandbox (self st) = None ->
      download_artifact env remote_path local_dir st
      = (Raise (mk_exn RuntimeError (py "No active sandbox")), st)).
Proof.
  split.
  - unfold download_artifact. unfold bind at 1. unfold get_self at 1.
    destruct (sandbox (self st)) as [sb|].
    + unfold try_except.
      match goal with
      | |- context [match ?m st with _ => _ end] =>
          destruct (m st) as [[a|e0] st0]
      end.
      * intros e st' H. discriminate.
      * intros e st' H. inversion H. reflexivity.
    + intros e st' H. inversion H. reflexivity.
  - intros H. unfold download_artifact. unfold bind at 1.
    unfold get_self at 1. rewrite H. reflexivity.
Qed.

Lemma download_raises_runtime_error_witness :
  sandbox (self fresh_state) = None
  /\ download_artifact cloud_world (py "/tmp/x.txt") (py "/data") fresh_state
     = (Raise (mk_exn RuntimeError (py "No active sandbox")), fresh_state)
  /\ exists e st',
       download_artifact broken_container_world (py "/tmp/x.txt") (py "/data")
                         (mk_state container_session [])
       = (Raise e, st')
       /\ exn_kind e = RuntimeError.
Proof.
  split; [reflexivity|]. split.
  - exact (proj2 (download_raises_runtime_error cloud_world (py "/tmp/x.txt")
                    (py "/data") fresh_state) eq_refl).
  - destruct (download_artifact broken_container_world (py "/tmp/x.txt")
                (py "/data") (mk_state container_session []))
      as [[x|e] st'] eqn:E; [vm_compute in E; discriminate E|].
    exists e, st'. split; [reflexivity|].
    exact (proj1 (download_raises_runtime_error broken_container_world
                    (py "/tmp/x.txt") (py "/data")
                    (mk_state container_session [])) e st' E).
Defined.

(** What the loop over the artifact paths returns. *)
Lemma download_each_result (env : Env) (artifact_paths : list str)
        (sandbox_dir : str) (downloaded : list str) (st : State) :
  exists mask st',
    length mask = length artifact_paths
    /\ download_each env artifact_paths sandbox_dir downloaded st
       = (Ok (downloaded
              ++ map (local_copy sandbox_dir) (keep mask artifact_paths)),
          st')
    /\ self st' = self st.
Proof.
  revert downloaded st.
  induction artifact_paths as [|p paths IH]; intros downloaded st.
  - exists [], st. cbn. rewrite app_nil_r. repeat split.
  - cbn [download_each]. unfold bind at 1. unfold try_except.
    unfold bind at 1.
    pose proof (download_keeps_self env p sandbox_dir st) as Hk.
    destruct (download_artifact env p sandbox_dir st) as [[x|e] st1] eqn:E;
      cbn [snd] in Hk.
    + apply download_returns in E. subst x. unfold ret at 1.
      destruct (IH (downloaded ++ [local_copy sandbox_dir p]) st1)
        as (mask & st' & Hl & Hd & Hs).
      exists (true :: mask), st'. split; [cbn; now rewrite Hl|].
      split; [|now rewrite Hs].
      rewrite Hd. cbn [keep map]. now rewrite <- app_assoc.
    + unfold ret at 1.
      destruct (IH downloaded st1) as (mask & st' & Hl & Hd & Hs).
      exists (false :: mask), st'. split; [cbn; now rewrite Hl|].
      split; [|now rewrite Hs]. rewrite Hd. reflexivity.
Qed.

(** The loop returns the copies of exactly the downloads that return. *)
Lemma download_each_exact (env : Env) (artifact_paths : list str)
      (sandbox_dir : str) (downloaded : list str) (st : State) :
  download_each env artifact_paths sandbox_dir downloaded st
  = (Ok (downloaded
         ++ map (local_copy sandbox_dir)
                (keep (downloads_returned env artifact_paths sandbox_dir st)
                      artifact_paths)),
     after_downloads env artifact_paths sandbox_dir st).
Proof.
  revert downloaded st.
  induction artifact_paths as [|p paths IH]; intros downloaded st.
  - cbn. rewrite app_nil_r. reflexivity.
  - cbn [download_each downloads_returned after_downloads].
    unfold bind at 1. unfold try_except. unfold bind at 1.
    destruct (download_artifact env p sandbox_dir st) as [[x|e] st1] eqn:E;
      cbn [snd].
    + apply download_returns in E. subst x. unfold ret at 1.
      rewrite IH. cbn [keep map]. now rewrite <- app_assoc.
    + unfold ret at 1. rewrite IH. reflexivity.
Qed.

Lemma after_downloads_self (env : Env) (artifact_paths : list str)
      (sandbox_dir : str) (st : State) :
  self (after_downloads env artifact_paths sandbox_dir st) = self st.
Proof.
  revert st. induction artifact_paths as [|p paths IH]; intros st.
  - reflexivity.
  - cbn [after_downloads]. rewrite IH.
    apply (download_keeps_self env p sandbox_dir st).
Qed.

(** X9. The loop over the artifact paths, as [execute_code] starts it
    (with nothing downloaded yet), never raises and leaves the session as
    it was.  Every path is tried, each from the state the download before
    it left, whether that one returned or raised.  The loop returns the
    local copies, each the download directory joined with the base name
    of the remote path, of exactly the paths whose download returned, in
    the order of the paths: a path whose download raised is left out, the
    paths after it are not. *)
Theorem download_each_keeps_going (env : Env) (artifact_paths : list str)
        (sandbox_dir : str) (st : State) :
  let returned := downloads_returned env artifact_paths sandbox_dir st in
  download_each env artifact_paths sandbox_dir [] st
  = (Ok (map (local_copy sandbox_dir) (keep returned artifact_paths)),
     after_downloads env artifact_paths sandbox_dir st)
  /\ length returned = length artifact_paths
  /\ (forall i remote_path,
        nth_error artifact_paths i = Some remote_path ->
        nth_error returned i
        = Some (match download_artifact env remote_path sandbox_dir
                        (after_downloads env (firstn i artifact_paths)
                                         sandbox_dir st)
                with
                | (Ok _, _) => true
                | (Raise _, _) => false
                end))
  /\ self (after_downloads env artifact_paths sandbox_dir st) = self st.
Proof.
  intros returned. subst returned.
  split; [apply (download_each_exact env artifact_paths sandbox_dir [] st)|].
  split; [|split; [|apply after_downloads_self]].
  - revert st. induction artifact_paths as [|p paths IH]; intros st.
    + reflexivity.
    + cbn [downloads_returned].
      destruct (download_artifact env p sandbox_dir st) as [[x|e] st1];
        cbn [length]; now rewrite IH.
  - revert st. induction artifact_paths as [|p paths IH]; intros st i q Hq.
    + destruct i; discriminate Hq.
    + destruct i as [|i].
      * cbn in Hq. inversion Hq; subst q. cbn [firstn after_downloads].
        cbn [downloads_returned].
        destruct (download_artifact env p sandbox_dir st) as [[x|e] st1];
          reflexivity.
      * cbn [nth_error] in Hq. cbn [firstn after_downloads].
        cbn [downloads_returned].
        pose proof (IH (snd (download_artifact env p sandbox_dir st)) i q Hq)
          as Hi.
        destruct (download_artifact env p sandbox_dir st) as [[x|e] st1];
          cbn [snd] in Hi; cbn [nth_error snd]; exact Hi.
Qed.

(** A run of the loop where the first download raises: the second path
    is downloaded all the same. *)
Example download_each_after_a_failure :
  download_each cloud_world_unreadable [py "/tmp/x.txt"; py "/tmp/y.png"]
                (py "/data/sandbox/2026-01-01") []
                (mk_state cloud_session [])
  = (Ok [py "/data/sandbox/2026-01-01/y.png"],
     mk_state cloud_session
       [CE2BRead (mk_e2b 1 (Some (py "sbx-1"))) (py "/tmp/x.txt")
                 (py "bytes");
        CE2BRead (mk_e2b 1 (Some (py "sbx-1"))) (py "/tmp/y.png")
                 (py "bytes");
        CMakedirs (py "/data/sandbox/2026-01-01");
        CWriteFile (py "/data/sandbox/2026-01-01/y.png") png_bytes]).
Proof. vm_compute. reflexivity. Qed.

(** ** Uploads *)

(** Every way an upload can end. *)
Lemma upload_cases (env : Env) (local remote_dir : str) (st : State) :
  forall res st',
    upload_reference_file env local remote_dir st = (res, st') ->
    (session_ok (self st) -> session_ok (self st'))
    /\ match res with
       | Ok r =>
           dict_get (uploaded_reference_files (self st')) local = Some r
           /\ (dict_get (uploaded_reference_files (self st)) local = Some r
               \/ r = remote_dir ++ py "/" ++ os_path_basename local)
       | Raise e =>
           ((os_path_exists env (world st) local = false
             /\ exn_kind e = FileNotFoundError /\ self st' = self st)
            \/ (exists t, read_file env t local = Raise e)
            \/ exn_kind e = RuntimeError)
           /\ (session_ok (self st) ->
               uploaded_reference_files (self st')
               = uploaded_reference_files (self st)
               \/ uploaded_reference_files (self st') = [])
       end.
Proof.
  unfold upload_reference_file.
  unfold bind at 1. unfold lift at 1, io at 1. cbn [world self].
  destruct (os_path_exists env (world st) local) eqn:Ex; cbn [negb].
  2:{ intros res st' H. inversion H; subst; clear H. cbn [self].
      split; [tauto|]. split; [left; repeat split|]. intros _. now left. }
  unfold bind at 1. unfold get_self at 1. cbn [self].
  destruct (dict_get (uploaded_reference_files (self st)) local)
    as [r0|] eqn:Ec.
  { intros res st' H. inversion H; subst; clear H. cbn [self].
    split; [tauto|]. split; [exact Ec|]. now left. }
  unfold bind at 1.
  destruct (get_or_create_cases env 3600
              (mk_state (self st) (world st ++ [CPathExists local])))
    as (sb & st2 & Hg & Hs & Hok & Hu).
  cbn [self] in Hok, Hu. rewrite Hg.
  unfold bind at 1. unfold lift at 1, io at 1.
  destruct (read_file env (world st2) local) as [content|e] eqn:Er.
  2:{ intros res st' H. inversion H; subst; clear H. cbn [self].
      split; [exact Hok|]. split; [right; left; eauto|].
      intros _. exact Hu. }
  unfold try_except. unfold bind at 1.
  unfold on_object at 1. unfold lift at 1. cbn [world self].
  destruct (files_write env sb _ _ _) as [[u|e] t4].
  2:{ intros res st' H. inversion H; subst; clear H. cbn [self].
      split; [exact Hok|]. split; [right; right; reflexivity|].
      intros _. exact Hu. }
  unfold bind at 1. unfold set_self at 1. cbn [world self].
  unfold bind at 1. unfold get_self at 1.
  cbn [world self set_uploaded use_local_fallback].
  destruct (use_local_fallback (self st2)) eqn:Ef.
  - destruct sb as [h|b|d]; cbn; intros res st' H; inversion H; subst;
      clear H; cbn [self].
    + split; [exact Hok|]. split; [right; right; reflexivity|].
      intros H. apply Hok in H. unfold session_ok in H. rewrite Hs in H.
      destruct H as [_ H]. congruence.
    + split; [exact Hok|]. split; [apply dict_get_set|now right].
    + split; [exact Hok|]. split; [apply dict_get_set|now right].
  - cbn. intros res st' H. inversion H; subst; clear H. cbn [self].
    split; [exact Hok|]. split; [apply dict_get_set|now right].
Qed.

(** X10. What [upload_reference_file] returns and what it raises.  A
    returned path is recorded for the local path, and it is either the
    path recorded before or [remote_dir], "/", and the base name of the
    local path.  A raised exception is [FileNotFoundError] when the local
    file is missing (the session is then untouched, even if the path had
    been uploaded before), the exception of the read of the local file,
    passed on as it is, or [RuntimeError]. *)
Theorem upload_outcomes (env : Env) (local remote_dir : str) (st : State) :
  match upload_reference_file env local remote_dir st with
  | (Ok r, st') =>
      dict_get (uploaded_reference_files (self st')) local = Some r
      /\ (dict_get (uploaded_reference_files (self st)) local = Some r
          \/ r = remote_dir ++ py "/" ++ os_path_basename local)
  | (Raise e, st') =>
      (os_path_exists env (world st) local = false
       /\ exn_kind e = FileNotFoundError /\ self st' = self st)
      \/ (exists t, read_file env t local = Raise e)
      \/ exn_kind e = RuntimeError
  end.
Proof.
  destruct (upload_reference_file env local remote_dir st) as [[r|e] st']
    eqn:E; apply upload_cases in E as [_ H]; [exact H|exact (proj1 H)].
Qed.

(** X11. On a session whose flag agrees with its sandbox, an upload that
    raises records nothing: the upload cache is the one it was, or it is
    empty (when the health check found the sandbox dead and replaced
    it). *)
Theorem failed_upload_records_nothing (env : Env) (local remote_dir : str)
        (st st' : State) (e : exn) :
  session_ok (self st) ->
  upload_reference_file env local remote_dir st = (Raise e, st') ->
  uploaded_reference_files (self st') = uploaded_reference_files (self st)
  \/ uploaded_reference_files (self st') = [].
Proof.
  intros Hok H.
  apply upload_cases in H as [_ [_ Hc]]. exact (Hc Hok).
Qed.

Lemma failed_upload_records_nothing_witness :
  session_ok container_session
  /\ exists e st',
       upload_reference_file broken_container_world (py "/in/a.png")
                             REFERENCE_DIR (mk_state container_session [])
       = (Raise e, st')
       /\ exn_kind e = RuntimeError
       /\ (uploaded_reference_files (self st')
           = uploaded_reference_files container_session
           \/ uploaded_reference_files (self st') = []).
Proof.
  assert (Hok : session_ok container_session).
  { unfold session_ok. cbn. split; reflexivity. }
  split; [exact Hok|].
  destruct (upload_reference_file broken_container_world (py "/in/a.png")
              REFERENCE_DIR (mk_state container_session []))
    as [[r|e] st'] eqn:E; [vm_compute in E; discriminate E|].
  exists e, st'. split; [reflexivity|].
  split; [vm_compute in E; inversion E; reflexivity|].
  exact (failed_upload_records_nothing broken_container_world
           (py "/in/a.png") REFERENCE_DIR (mk_state container_session [])
           st' e Hok E).
Defined.

(** X12. The remote path of an upload depends on the base name of the
    local path alone: two local files of the same name in different
    directories, uploaded to the same remote directory, get the same
    remote path, so the second upload overwrites the first in the
    sandbox. *)
Theorem same_name_same_remote_path (env : Env) (local1 local2 : str)
        (remote_dir : str) (st1 st1' st2 st2' : State) (r1 r2 : str) :
  os_path_basename local1 = os_path_basename local2 ->
  dict_get (uploaded_reference_files (self st1)) local1 = None ->
  dict_get (uploaded_reference_files (self st2)) local2 = None ->
  upload_reference_file env local1 remote_dir st1 = (Ok r1, st1') ->
  upload_reference_file env local2 remote_dir st2 = (Ok r2, st2') ->
  r1 = r2.
Proof.
  intros Hb Hc1 Hc2 H1 H2.
  apply upload_cases in H1 as [_ [_ [H1| ->]]]; [congruence|].
  apply upload_cases in H2 as [_ [_ [H2| ->]]]; [congruence|].
  now rewrite Hb.
Qed.

Lemma same_name_same_remote_path_witness :
  exists st1' st2',
    py "/in/a.png" <> py "/other/a.png"
    /\ upload_reference_file cloud_world (py "/in/a.png") REFERENCE_DIR
                             fresh_state
       = (Ok (py "/home/user/reference_files/a.png"), st1')
    /\ upload_reference_file cloud_world (py "/other/a.png") REFERENCE_DIR
                             st1'
       = (Ok (py "/home/user/reference_files/a.png"), st2').
Proof.
  pose (st1' := snd (upload_reference_file cloud_world (py "/in/a.png")
                       REFERENCE_DIR fresh_state)).
  pose (r2 := fst (upload_reference_file cloud_world (py "/other/a.png")
                     REFERENCE_DIR st1')).
  pose (st2' := snd (upload_reference_file cloud_world (py "/other/a.png")
                       REFERENCE_DIR st1')).
  assert (H1 : upload_reference_file cloud_world (py "/in/a.png")
                 REFERENCE_DIR fresh_state
               = (Ok (py "/home/user/reference_files/a.png"), st1')).
  { vm_compute. reflexivity. }
  assert (H2 : exists r, upload_reference_file cloud_world (py "/other/a.png")
                           REFERENCE_DIR st1' = (Ok r, st2')).
  { eexists. vm_compute. reflexivity. }
  destruct H2 as [r H2].
  exists st1', st2'. split; [discriminate|]. split; [exact H1|].
  rewrite (same_name_same_remote_path cloud_world (py "/in/a.png")
             (py "/other/a.png") REFERENCE_DIR fresh_state st1' st1' st2'
             (py "/home/user/reference_files/a.png") r
             eq_refl eq_refl eq_refl H1 H2).
  exact H2.
Defined.

(** ** The invariant of the session *)

Lemma keeps_self_keeps_ok {A} (m : M State A) : keeps_self m -> keeps_ok m.
Proof. intros H st Hok. now rewrite H. Qed.

Lemma keeps_ok_bind {A B} (m : M State A) (k : A -> M State B) :
  keeps_ok m -> (forall a, keeps_ok (k a)) -> keeps_ok (bind m k).
Proof.
  intros Hm Hk st Hok. unfold bind. specialize (Hm st Hok).
  destruct (m st) as [[a|e] st1]; cbn [snd] in *.
  - apply Hk. exact Hm.
  - exact Hm.
Qed.

Lemma keeps_ok_try_except {A} (m : M State A) (h : exn -> M State A) :
  keeps_ok m -> (forall e, keeps_ok (h e)) -> keeps_ok (try_except m h).
Proof.
  intros Hm Hh st Hok. unfold try_except. specialize (Hm st Hok).
  destruct (m st) as [[a|e] st1]; cbn [snd] in *.
  - exact Hm.
  - apply Hh. exact Hm.
Qed.

Lemma get_or_create_keeps_ok (env : Env) (timeout : Z) :
  keeps_ok (get_or_create_sandbox env timeout).
Proof.
  intros st Hok.
  destruct (get_or_create_cases env timeout st) as (sb & st' & Hg & _ & H & _).
  rewrite Hg. cbn [snd]. now apply H.
Qed.

Lemma upload_keeps_ok (env : Env) (local remote_dir : str) :
  keeps_ok (upload_reference_file env local remote_dir).
Proof.
  intros st Hok.
  destruct (upload_reference_file env local remote_dir st) as [res st']
    eqn:E.
  apply upload_cases in E as [H _]. cbn [snd]. now apply H.
Qed.

Lemma collect_keeps_self (env : Env) (success : bool) (out : str)
      (gs : dict gval) :
  keeps_self (collect_artifacts env success out gs).
Proof.
  unfold collect_artifacts.
  destruct (success && contains ARTIFACT_MARKER out); [|keeps].
  destruct (_ && truthy _); [|keeps].
  apply keeps_self_bind; [destruct (dict_get gs (py "data_path")); keeps|].
  intros data. apply keeps_self_bind; [keeps|]. intros date.
  apply keeps_self_bind; [keeps|]. intros _.
  intros st.
  destruct (download_each_result env (find_artifact_paths out)
              (os_path_join data [py "sandbox"; date]) [] st)
    as (mask & st' & _ & Hd & Hs).
  rewrite Hd. exact Hs.
Qed.

Lemma report_keeps_self (env : Env) (ex : Execution) (gs : dict gval) :
  keeps_self (report env ex gs).
Proof.
  unfold report. apply keeps_self_bind; [keeps|]. intros out.
  apply keeps_self_bind; [apply collect_keeps_self|]. keeps.
Qed.

Lemma run_and_collect_keeps_ok (env : Env) (code : str) (gs : dict gval) :
  keeps_ok (run_and_collect env code gs).
Proof.
  unfold run_and_collect.
  apply keeps_ok_bind; [apply get_or_create_keeps_ok|]. intros sb.
  apply keeps_ok_bind.
  - apply keeps_self_keeps_ok. apply keeps_self_try_except; [|keeps].
    apply keeps_self_bind; [|keeps]. destruct sb; keeps.
  - intros [ex|failure]; apply keeps_self_keeps_ok;
      [apply report_keeps_self|keeps].
Qed.

Lemma upload_each_keeps_ok (env : Env) (paths : list str) :
  forall acc, keeps_ok (upload_each env paths acc).
Proof.
  induction paths as [|l paths IH]; intros acc.
  - apply keeps_self_keeps_ok. keeps.
  - cbn [upload_each]. apply keeps_ok_bind; [|intros r; apply IH].
    apply keeps_ok_try_except.
    + apply keeps_ok_bind; [apply upload_keeps_ok|].
      intros r. apply keeps_self_keeps_ok. keeps.
    + intros e. apply keeps_self_keeps_ok. keeps.
Qed.

Lemma cleanup_result (env : Env) (st : State) :
  exists t',
    cleanup env st
    = (Ok tt,
       match sandbox (self st) with
       | Some _ =>
           mk_state (mk_session None None [] (use_local_fallback (self st)))
                    t'
       | None => st
       end).
Proof.
  unfold cleanup. unfold bind at 1. unfold get_self at 1.
  destruct (sandbox (self st)) as [sb|]; [|exists (world st); reflexivity].
  unfold bind at 1. unfold try_except. unfold lift.
  destruct (kill env sb (world st)) as [[u|e] t'];
    exists t'; reflexivity.
Qed.

Lemma on_session_instance {A} (s : SessionSandbox) (m : M State A)
      (p : Process) :
  keeps_ok m -> session_ok s -> process_ok (snd (on_session s m p)).
Proof.
  intros Hm Hs. unfold on_session.
  specialize (Hm (mk_state s (calls p)) Hs).
  destruct (m (mk_state s (calls p))) as [r st]. exact Hm.
Qed.

Lemma get_instance_ok_session (p : Process) :
  process_ok p ->
  exists s,
    get_instance p = (Ok s, mk_process (Some s) (calls p)) /\ session_ok s.
Proof.
  unfold process_ok, get_instance. destruct p as [[s|] t]; cbn.
  - intros H. exists s. split; [reflexivity|exact H].
  - intros _. exists SessionSandbox_init. split; [reflexivity|exact I].
Qed.

(** X13. Every session the module builds keeps its sandbox, its id and
    its fallback flag in agreement: an E2B sandbox goes with the id that
    object carries and the flag off; the Beta9 sandbox with
    "beta9-fallback" or "beta9-primary" and the flag on; the Docker
    sandbox with "docker-fallback" and the flag on.  This holds of the
    fresh process and is kept by [get_or_create_sandbox],
    [upload_reference_file], [download_artifact], [cleanup],
    [execute_code], [upload_task_reference_files] and [reset], whatever
    the environment answers. *)
Theorem session_invariant (env : Env) :
  process_ok fresh_process
  /\ (forall timeout, keeps_ok (get_or_create_sandbox env timeout))
  /\ (forall local remote_dir,
        keeps_ok (upload_reference_file env local remote_dir))
  /\ (forall remote_path local_dir,
        keeps_ok (download_artifact env remote_path local_dir))
  /\ keeps_ok (cleanup env)
  /\ (forall code language p,
        process_ok p -> process_ok (snd (execute_code env code language p)))
  /\ (forall paths p,
        process_ok p ->
        process_ok (snd (upload_task_reference_files env paths p)))
  /\ (forall p, process_ok (snd (reset env p))).
Proof.
  split; [exact I|].
  split; [apply get_or_create_keeps_ok|].
  split; [apply upload_keeps_ok|].
  split; [intros r d; apply keeps_self_keeps_ok, download_keeps_self|].
  split.
  { intros st Hok. destruct (cleanup_result env st) as [t' H]. rewrite H.
    cbn [snd]. destruct (sandbox (self st)); [exact I|exact Hok]. }
  split.
  { intros code language p Hp. unfold execute_code.
    destruct code as [|c code]; [exact Hp|].
    destruct (negb _); [exact Hp|].
    unfold bind at 1. unfold lift_io.
    destruct (read_global_state env (calls p)) as [[gs|e] t1]; [|exact Hp].
    unfold bind at 1.
    destruct (get_instance_ok_session (mk_process (_instance p) t1) Hp)
      as (s & Hi & Hs).
    rewrite Hi. unfold try_except.
    pose proof (on_session_instance s
                  (run_and_collect env (c :: code) gs)
                  (mk_process (Some s) t1)
                  (run_and_collect_keeps_ok env (c :: code) gs) Hs) as Ho.
    destruct (on_session s _ _) as [[d|e] p']; exact Ho. }
  split.
  { intros paths p Hp. unfold upload_task_reference_files.
    destruct paths as [|l paths]; [exact Hp|].
    unfold bind at 1.
    destruct (get_instance_ok_session p Hp) as (s & Hi & Hs).
    rewrite Hi. apply on_session_instance; [|exact Hs].
    apply keeps_ok_bind; [apply get_or_create_keeps_ok|].
    intros _. apply upload_each_keeps_ok. }
  intros p. unfold reset.
  match goal with
  | |- context [match ?m p with _ => _ end] => destruct (m p) as [r p']
  end.
  exact I.
Qed.

Lemma session_invariant_witness :
  process_ok fresh_process
  /\ process_ok
       (snd (execute_code cloud_world_dead (py "print(1)") (py "python")
               (snd (upload_task_reference_files cloud_world
                       [py "/in/a.png"] fresh_process)))).
Proof.
  destruct (session_invariant cloud_world) as (H0 & _ & _ & _ & _ & _ & Hu & _).
  destruct (session_invariant cloud_world_dead)
    as (_ & _ & _ & _ & _ & He & _ & _).
  split; [exact H0|]. apply He. apply Hu. exact H0.
Defined.

(** ** Ending a session *)

(** X14. [cleanup] never raises, whatever [kill] does.  Afterwards the
    session has no sandbox, and if it had one, no id and an empty upload
    cache; a second [cleanup] makes no call and changes nothing. *)
Theorem cleanup_is_idempotent (env : Env) (st : State) :
  fst (cleanup env st) = Ok tt
  /\ sandbox (self (snd (cleanup env st))) = None
  /\ (sandbox (self st) <> None ->
      sandbox_id (self (snd (cleanup env st))) = None
      /\ uploaded_reference_files (self (snd (cleanup env st))) = [])
  /\ cleanup env (snd (cleanup env st)) = (Ok tt, snd (cleanup env st)).
Proof.
  destruct (cleanup_result env st) as [t' H]. rewrite H. cbn [fst snd].
  destruct (sandbox (self st)) as [sb|] eqn:E.
  - cbn. repeat split; reflexivity.
  - split; [reflexivity|]. split; [exact E|]. split; [intros C; now elim C|].
    unfold cleanup. unfold bind. unfold get_self. now rewrite E.
Qed.

(** X15. [reset] never raises, whatever [kill] does, and leaves no
    instance behind; the only call it makes is the [kill] of an E2B
    sandbox.  After it the next [get_instance] builds a new session, with
    no sandbox and an empty upload cache, and a second [reset] does
    nothing. *)
Theorem reset_forgets_the_session (env : Env) (p : Process) :
  exists t',
    reset env p = (Ok tt, mk_process None t')
    /\ t' = calls p
            ++ match _instance p with
               | Some s =>
                   match sandbox s with
                   | Some (E2B h) => [CE2BKill h]
                   | _ => []
                   end
               | None => []
               end
    /\ reset env (mk_process None t') = (Ok tt, mk_process None t')
    /\ get_instance (mk_process None t')
       = (Ok SessionSandbox_init, mk_process (Some SessionSandbox_init) t').
Proof.
  unfold reset. destruct p as [[s|] t]; cbn [_instance calls].
  - destruct (sandbox s) as [[h|b|d]|]; cbn.
    + unfold lift_io, try_except, io, ret. cbn [calls _instance].
      destruct (e2b_kill env t h) as [[]|e]; eexists;
        repeat split; reflexivity.
    + eexists. rewrite app_nil_r. repeat split; reflexivity.
    + eexists. rewrite app_nil_r. repeat split; reflexivity.
    + eexists. rewrite app_nil_r. repeat split; reflexivity.
  - cbn. eexists. rewrite app_nil_r. repeat split; reflexivity.
Qed.



(** ** The adapters *)

(** X17. [DockerSandbox.run_code] never raises: it makes one call, the
    [docker compose exec], and returns a result.  The error of the result
    is null exactly when the command ran, its output decoded, and it
    exited with status 0; the logs are then its output. *)
Theorem docker_run_code_result (env : Env) (d : DockerSandbox) (code : str)
        (t : trace) :
  exists ex,
    Docker_run_code env d code t
    = (Ok ex,
       t ++ [CSubprocess (docker_exec d [py "python"; py "-c"; code]) None])
    /\ (error ex = None <->
        exists c out err,
          subprocess_raw env t (docker_exec d [py "python"; py "-c"; code])
                         None = Ok c
          /\ utf8_decode env (raw_stdout c) = Ok out
          /\ utf8_decode env (raw_stderr c) = Ok err
          /\ returncode c = 0%Z
          /\ logs ex = LogsObj (OutText out) (OutText err)).
Proof.
  unfold Docker_run_code, try_except, subprocess_run_text.
  unfold bind at 1. unfold bind at 1. unfold io at 1.
  destruct (subprocess_raw env t _ None) as [c|e] eqn:Es.
  - unfold bind at 1. unfold of_result at 1.
    destruct (utf8_decode env (raw_stdout c)) as [out|e] eqn:Eo.
    + unfold bind at 1. unfold of_result at 1.
      destruct (utf8_decode env (raw_stderr c)) as [err|e] eqn:Ee.
      * cbn. destruct (returncode c =? 0)%Z eqn:Er.
        -- eexists. split; [reflexivity|]. cbn. split; [intros _|reflexivity].
           apply Z.eqb_eq in Er. exists c, out, err. tauto.
        -- eexists. split; [reflexivity|]. cbn. split; [discriminate|].
           intros (c' & out' & err' & Hc & _ & _ & Hr & _).
           inversion Hc; subst c'. apply Z.eqb_neq in Er. contradiction.
      * cbn. eexists. split; [reflexivity|]. cbn. split; [discriminate|].
        intros (c' & out' & err' & Hc & _ & He & _).
        inversion Hc; subst c'. congruence.
    + cbn. eexists. split; [reflexivity|]. cbn. split; [discriminate|].
      intros (c' & out' & err' & Hc & Ho & _).
      inversion Hc; subst c'. congruence.
  - cbn. eexists. split; [reflexivity|]. cbn. split; [discriminate|].
    intros (c' & out' & err' & Hc & _). discriminate.
Qed.

(** X18. When the command of the Docker adapter exits with a status
    other than 0, the response of [execute_code] carries neither its
    output nor its error output: [stdout] is the empty string and
    [stderr] is "Process exited with code N". *)
Theorem docker_failure_hides_output (env : Env) (d : DockerSandbox)
        (code : str) (t : trace) (c : Completed) (out err : str) :
  subprocess_raw env t (docker_exec d [py "python"; py "-c"; code]) None
  = Ok c ->
  utf8_decode env (raw_stdout c) = Ok out ->
  utf8_decode env (raw_stderr c) = Ok err ->
  returncode c <> 0%Z ->
  exists ex t',
    Docker_run_code env d code t = (Ok ex, t')
    /\ logs ex = LogsObj (OutText out) (OutText err)
    /\ forall s da,
         dict_get (response ex s da) (py "success") = Some (RBool false)
         /\ dict_get (response ex s da) (py "stdout") = Some (RStr [])
         /\ dict_get (response ex s da) (py "stderr")
            = Some (RStr (py "Process exited with code "
                          ++ str_of_Z (returncode c))).
Proof.
  intros Hs Ho He Hr. apply Z.eqb_neq in Hr.
  unfold Docker_run_code, try_except, subprocess_run_text.
  unfold bind at 1. unfold bind at 1. unfold io at 1. rewrite Hs.
  unfold bind at 1. unfold of_result at 1. rewrite Ho.
  unfold bind at 1. unfold of_result at 1. rewrite He.
  cbn. rewrite Hr.
  eexists. eexists. split; [reflexivity|]. split; [reflexivity|].
  intros s da. unfold response, error_is_none. cbn [error ExecutionResult].
  split; [reflexivity|]. split; reflexivity.
Qed.

Lemma docker_failure_hides_output_witness :
  exists ex t',
    Docker_run_code broken_container_world
      (mk_docker (py "docker-sandbox") 3600 (py "/app")
                 (py "/app/docker-compose.yml"))
      (py "print(1/0)") [] = (Ok ex, t')
    /\ logs ex = LogsObj (OutText []) (OutText [])
    /\ forall s da,
         dict_get (response ex s da) (py "success") = Some (RBool false)
         /\ dict_get (response ex s da) (py "stdout") = Some (RStr [])
         /\ dict_get (response ex s da) (py "stderr")
            = Some (RStr (py "Process exited with code "
                          ++ str_of_Z (returncode (mk_completed 1 [] [])))).
Proof.
  refine (docker_failure_hides_output broken_container_world
            (mk_docker (py "docker-sandbox") 3600 (py "/app")
                       (py "/app/docker-compose.yml"))
            (py "print(1/0)") [] (mk_completed 1 [] []) [] []
            eq_refl eq_refl eq_refl _).
  discriminate.
Defined.

(** X19. [Beta9Sandbox.run_code] never raises.  When the configuration
    file is missing it makes no request: it looks for the two files and
    returns a result whose error names the missing configuration and
    whose output is empty. *)
Theorem beta9_run_code_returns (env : Env) (b : Beta9Sandbox) (code : str)
        (t : trace) :
  exists ex t',
    Beta9_run_code env b code t = (Ok ex, t')
    /\ (os_path_exists env t (beta9_config_path env) = false ->
        t' = t ++ [CPathExists (beta9_config_path env)]
               ++ [CPathExists
                     (os_path_join (home env)
                                   [py ".beta9"; py "contexts.json"])]
        /\ (ex = failed (py "Beta9 config not found (~/.beta9/config.ini)")
            \/ ex = failed (py "Please update Beta9Sandbox to support contexts.json (found but not using)"))).
Proof.
  unfold Beta9_run_code, try_except. fold (beta9_config_path env).
  unfold bind at 1. unfold io at 1.
  destruct (os_path_exists env t (beta9_config_path env)) eqn:Ec;
    cbn [negb].
  - match goal with
    | |- context [match ?m ?s with _ => _ end] =>
        destruct (m s) as [[ex|e] t']
    end; do 2 eexists; (split; [reflexivity|discriminate]).
  - clear Ec. unfold bind at 1. unfold io at 1.
    match goal with
    | |- context [os_path_exists env ?t1 ?p1] =>
        destruct (os_path_exists env t1 p1)
    end;
      do 2 eexists; (split; [reflexivity|]); intros _;
      rewrite <- app_assoc; (split; [reflexivity|]); tauto.
Qed.

Lemma beta9_run_code_returns_witness :
  os_path_exists unconfigured_world [] (beta9_config_path unconfigured_world)
  = false
  /\ exists ex t',
       Beta9_run_code unconfigured_world Beta9Sandbox_init (py "print(1)") []
       = (Ok ex, t')
       /\ ex = failed (py "Beta9 config not found (~/.beta9/config.ini)")
       /\ t' = [CPathExists (py "/root/.beta9/config.ini");
                CPathExists (py "/root/.beta9/contexts.json")].
Proof.
  split; [reflexivity|].
  destruct (beta9_run_code_returns unconfigured_world Beta9Sandbox_init
              (py "print(1)") []) as (ex & t' & H & Hc).
  destruct (Hc eq_refl) as [Ht _].
  exists ex, t'. split; [exact H|].
  split; [vm_compute in H; inversion H; reflexivity|exact Ht].
Defined.

(** X20. Once its staging file is made, and if removing that file does
    not raise, [Beta9Files.read] raises nothing but [FileNotFoundError]
    with the message "File not found: <path>": a failed copy, an
    unreadable staging file and, in text mode, content that is no UTF-8
    are all reported so.  In bytes mode what it returns is the content of
    the staging file, as bytes. *)
Theorem beta9_read_outcomes (env : Env) (b : Beta9Sandbox)
        (path format : str) (t : trace) (tp : str) :
  temp_file env t = Ok tp ->
  (forall t', os_unlink env t' tp = Ok tt) ->
  match Beta9_read env b path format t with
  | (Ok v, _) =>
      format = py "bytes" ->
      exists t0 content, read_file env t0 tp = Ok content /\ v = VBytes content
  | (Raise e, _) =>
      e = mk_exn FileNotFoundError (py "File not found: " ++ path)
  end.
Proof.
  intros Ht Hu. unfold Beta9_read.
  unfold bind at 1. unfold io at 1. rewrite Ht.
  unfold try_finally.
  assert (Hfin : forall t1,
             exists t2,
               (found <- io (CPathExists tp)
                            (fun t => Ok (os_path_exists env t tp)) ;;
                if found
                then io (CUnlink tp) (fun t => os_unlink env t tp)
                else ret tt) t1 = (Ok tt, t2)).
  { intros t1. unfold bind, io. destruct (os_path_exists env t1 tp).
    - rewrite Hu. eauto.
    - unfold ret. eauto. }
  unfold try_except. unfold bind at 1. unfold subprocess_run.
  unfold bind at 1. unfold io at 1.
  destruct (subprocess_raw env _ _ None) as [c|e].
  - unfold bind at 1. unfold check_status. cbn [andb].
    destruct (negb (returncode c =? 0)%Z).
    + unfold raise at 1. unfold raise at 1.
      match goal with
      | |- context [bind ?m ?k ?t1] => destruct (Hfin t1) as [t2 H2]
      end. rewrite H2. reflexivity.
    + unfold ret at 1. unfold ret at 1. unfold bind at 1. unfold io at 1.
      match goal with
      | |- context [read_file env ?t0 tp] =>
          destruct (read_file env t0 tp) as [content|e] eqn:Er
      end.
      * destruct (str_eqb format (py "bytes")) eqn:Ef.
        -- unfold ret at 1.
           match goal with
           | |- context [bind ?m ?k ?t1] => destruct (Hfin t1) as [t2 H2]
           end. rewrite H2. intros _. eauto.
        -- unfold bind at 1. unfold of_result at 1.
           destruct (utf8_decode env content) as [s|e].
           ++ unfold ret at 1.
              match goal with
              | |- context [bind ?m ?k ?t1] => destruct (Hfin t1) as [t2 H2]
              end. rewrite H2. intros Hf. subst format.
              rewrite str_eqb_refl in Ef. discriminate.
           ++ unfold raise at 1.
              match goal with
              | |- context [bind ?m ?k ?t1] => destruct (Hfin t1) as [t2 H2]
              end. rewrite H2. reflexivity.
      * unfold raise at 1.
        match goal with
        | |- context [bind ?m ?k ?t1] => destruct (Hfin t1) as [t2 H2]
        end. rewrite H2. reflexivity.
  - unfold raise at 1.
    match goal with
    | |- context [bind ?m ?k ?t1] => destruct (Hfin t1) as [t2 H2]
    end. rewrite H2. reflexivity.
Qed.

Lemma beta9_read_outcomes_witness :
  temp_file volume_world [] = Ok (py "/tmp/tmp0")
  /\ exists t',
       Beta9_read volume_world Beta9Sandbox_init (py "/tmp/x.txt")
                  (py "bytes") []
       = (Raise (mk_exn FileNotFoundError (py "File not found: /tmp/x.txt")),
          t').
Proof.
  split; [reflexivity|].
  pose proof (beta9_read_outcomes volume_world Beta9Sandbox_init
                (py "/tmp/x.txt") (py "bytes") [] (py "/tmp/tmp0")
                eq_refl (fun _ => eq_refl)) as H.
  destruct (Beta9_read volume_world Beta9Sandbox_init (py "/tmp/x.txt")
              (py "bytes") []) as [[v|e] t'] eqn:E.
  - vm_compute in E. discriminate E.
  - exists t'. rewrite H. reflexivity.
Defined.

(** ** The endpoint and the adapter that calls it *)

(** Entering the files directory leaves the two captures as they are. *)
Lemma enter_files_dir_captures (w : Endpoint.WorkerEnv)
      (s s' : Endpoint.Worker) (r : result str) :
  Endpoint.enter_files_dir w s = (r, s') ->
  Endpoint.stdout_capture s' = Endpoint.stdout_capture s
  /\ Endpoint.stderr_capture s' = Endpoint.stderr_capture s.
Proof.
  unfold Endpoint.enter_files_dir, try_except, bind, Endpoint.eio, ret.
  cbn [Endpoint.wcalls Endpoint.stdout_capture Endpoint.stderr_capture].
  destruct (Endpoint.worker_chdir w _ (py "/sandbox")).
  - intros H; inversion H; subst; split; reflexivity.
  - destruct (Endpoint.worker_makedirs w _ _).
    + destruct (Endpoint.worker_chdir w _ _);
        intros H; inversion H; subst; split; reflexivity.
    + intros H; inversion H; subst; split; reflexivity.
Qed.

(** The exit code and the [error] of the endpoint's dictionary. *)
Lemma endpoint_exit_and_error (w : Endpoint.WorkerEnv) (code : str)
      (t t' : Endpoint.etrace) (r : Endpoint.Reply) :
  Endpoint.run_code w code t = (Ok r, t') ->
  exists te,
    match Endpoint.ended_with (Endpoint.worker_exec w te code) with
    | None => Endpoint.r_exit_code r = 0%Z /\ Endpoint.r_error r = None
    | Some ex =>
        Endpoint.r_exit_code r = 1%Z
        /\ Endpoint.r_error r
           = option_map exn_str
               (Endpoint.print_raised
                  (Endpoint.worker_print_exc w (te ++ [Endpoint.EExec code])
                     ex))
    end.
Proof.
  unfold Endpoint.run_code, Endpoint.run_code_body.
  unfold bind at 1.
  destruct (Endpoint.eio (Endpoint.EMakedirs (py "/sandbox")) _ _)
    as [[u|e] s1]; [|discriminate].
  unfold bind at 1.
  destruct (Endpoint.eio Endpoint.EGetcwd _ s1) as [[cwd|e] s2];
    [|discriminate].
  unfold bind at 1.
  destruct (Endpoint.enter_files_dir w s2) as [[files_dir|e] s3];
    [|discriminate].
  unfold bind at 1. unfold try_finally, try_except.
  unfold bind at 1. unfold bind at 1.
  unfold Endpoint.exec_code at 1.
  destruct (Endpoint.ended_with (Endpoint.worker_exec w (Endpoint.wcalls s3)
                                   code)) as [ex|] eqn:Ee.
  - unfold bind at 1. unfold Endpoint.print_exc at 1.
    cbn [Endpoint.wcalls Endpoint.stdout_capture Endpoint.stderr_capture].
    destruct (Endpoint.print_raised _) as [e2|] eqn:Ep;
      unfold ret, bind, Endpoint.captures, Endpoint.eio;
      cbn [Endpoint.wcalls Endpoint.stdout_capture Endpoint.stderr_capture];
      (destruct (Endpoint.worker_chdir w _ cwd); [|discriminate]);
      intros H; inversion H; subst; clear H;
      exists (Endpoint.wcalls s3); rewrite Ee;
      cbn [Endpoint.r_exit_code Endpoint.r_error]; rewrite Ep;
      split; reflexivity.
  - unfold ret, bind, Endpoint.captures, Endpoint.eio.
    cbn [Endpoint.wcalls Endpoint.stdout_capture Endpoint.stderr_capture].
    destruct (Endpoint.worker_chdir w _ cwd); [|discriminate].
    intros H; inversion H; subst; clear H.
    exists (Endpoint.wcalls s3); rewrite Ee. split; reflexivity.
Qed.

(** X21. What the endpoint's dictionary says about the run.  The exit
    code is 0 exactly when the code ended without exception, and [stdout]
    is what the code wrote.  When the code raised, the exit code is 1 and
    [stderr] is what the code wrote followed by what
    [traceback.print_exc()] wrote; [error] is null when the traceback was
    printed, also though the code raised, and it is the text of the
    exception of [traceback.print_exc()] when that call raised in its
    turn, the captured output being kept. *)
Theorem endpoint_reply_fields (w : Endpoint.WorkerEnv) (code : str)
        (t t' : Endpoint.etrace) (r : Endpoint.Reply) :
  Endpoint.run_code w code t = (Ok r, t') ->
  exists te,
    Endpoint.r_stdout r
    = Endpoint.wrote_stdout (Endpoint.worker_exec w te code)
    /\ match Endpoint.ended_with (Endpoint.worker_exec w te code) with
       | None =>
           Endpoint.r_exit_code r = 0%Z
           /\ Endpoint.r_error r = None
           /\ Endpoint.r_stderr r
              = Endpoint.wrote_stderr (Endpoint.worker_exec w te code)
       | Some ex =>
           let printed :=
             Endpoint.worker_print_exc w (te ++ [Endpoint.EExec code]) ex in
           Endpoint.r_exit_code r = 1%Z
           /\ Endpoint.r_error r
              = option_map exn_str (Endpoint.print_raised printed)
           /\ Endpoint.r_stderr r
              = Endpoint.wrote_stderr (Endpoint.worker_exec w te code)
                ++ Endpoint.print_wrote printed
       end.
Proof.
  unfold Endpoint.run_code, Endpoint.run_code_body.
  unfold bind at 1. unfold Endpoint.eio at 1. cbn [Endpoint.wcalls
    Endpoint.stdout_capture Endpoint.stderr_capture].
  destruct (Endpoint.worker_makedirs w t (py "/sandbox")) as [u|e];
    [|discriminate].
  unfold bind at 1. unfold Endpoint.eio at 1. cbn [Endpoint.wcalls
    Endpoint.stdout_capture Endpoint.stderr_capture].
  destruct (Endpoint.worker_getcwd w _) as [cwd|e]; [|discriminate].
  unfold bind at 1.
  match goal with
  | |- context [Endpoint.enter_files_dir w ?s2] =>
      destruct (Endpoint.enter_files_dir w s2) as [[files_dir|e] s3] eqn:Ef;
        [|discriminate];
        apply enter_files_dir_captures in Ef;
        cbn [Endpoint.stdout_capture Endpoint.stderr_capture] in Ef;
        destruct Ef as (Hout & Herr)
  end.
  set (t3 := Endpoint.wcalls s3).
  unfold try_finally, try_except, bind, Endpoint.exec_code,
    Endpoint.print_exc, Endpoint.captures, Endpoint.eio, ret.
  cbn [Endpoint.wcalls Endpoint.stdout_capture Endpoint.stderr_capture].
  fold t3.
  set (ran := Endpoint.worker_exec w t3 code).
  destruct (Endpoint.ended_with ran) as [ex|] eqn:Ee.
  - cbn [Endpoint.wcalls Endpoint.stdout_capture Endpoint.stderr_capture].
    set (printed := Endpoint.worker_print_exc w (t3 ++ [Endpoint.EExec code])
                      ex).
    destruct (Endpoint.print_raised printed) as [e2|] eqn:Ep;
      cbn [Endpoint.wcalls Endpoint.stdout_capture Endpoint.stderr_capture];
      (destruct (Endpoint.worker_chdir w _ cwd); [|discriminate]);
      cbn [Endpoint.wcalls Endpoint.stdout_capture Endpoint.stderr_capture
           fst snd];
      intros H; inversion H; subst r t'; clear H;
      exists t3; fold ran; rewrite Ee;
      cbn [Endpoint.r_exit_code Endpoint.r_error Endpoint.r_stdout
           Endpoint.r_stderr];
      fold printed; rewrite Ep, Hout, Herr; repeat split; reflexivity.
  - cbn [Endpoint.wcalls Endpoint.stdout_capture Endpoint.stderr_capture].
    destruct (Endpoint.worker_chdir w _ cwd); [|discriminate].
    cbn [Endpoint.wcalls Endpoint.stdout_capture Endpoint.stderr_capture
         fst snd].
    intros H; inversion H; subst r t'; clear H.
    exists t3; fold ran; rewrite Ee.
    cbn [Endpoint.r_exit_code Endpoint.r_error Endpoint.r_stdout
         Endpoint.r_stderr].
    rewrite Hout, Herr. repeat split; reflexivity.
Qed.

Lemma endpoint_reply_fields_witness :
  exists t' r,
    Endpoint.run_code broken_stderr_worker (py "raise ValueError('boom')") []
    = (Ok r, t')
    /\ Endpoint.r_exit_code r = 1%Z
    /\ Endpoint.r_error r = Some (py "'int' object has no attribute 'write'").
Proof.
  eexists ?[t'], ?[r].
  assert (H : Endpoint.run_code broken_stderr_worker
                (py "raise ValueError('boom')") [] = (Ok ?r, ?t')).
  { vm_compute. reflexivity. }
  split; [exact H|].
  destruct (endpoint_reply_fields broken_stderr_worker _ _ _ _ H)
    as (te & _ & Hm).
  cbn in Hm. destruct Hm as (Hx & He & _).
  split; [exact Hx|exact He].
Defined.

(** X22. Code that raises on the Beta9 endpoint is reported as a
    success.  When the code raises and its traceback is printed, the
    endpoint's dictionary has exit code 1 and a null [error]; when the
    adapter finds its configuration and the request answers with that
    dictionary, the result the adapter builds has a null error, so the
    response of [execute_code] has [success] true and [exit_code] 0. *)
Theorem beta9_error_is_never_reported (env : Env) (b : Beta9Sandbox)
        (code : str) (t : trace) (w : Endpoint.WorkerEnv)
        (te te' : Endpoint.etrace) (r : Endpoint.Reply)
        (config : dict (dict str)) (section : dict str) :
  Endpoint.run_code w code te = (Ok r, te') ->
  (forall t0, Endpoint.ended_with (Endpoint.worker_exec w t0 code) <> None) ->
  (forall t0 ex,
     Endpoint.print_raised (Endpoint.worker_print_exc w t0 ex) = None) ->
  (forall t', os_path_exists env t' (beta9_config_path env) = true) ->
  (forall t', config_read env t' (beta9_config_path env) = Ok config) ->
  dict_get config (py "default") = Some section ->
  (forall t' url token timeout,
     requests_post env t' url code token timeout
     = Ok (reply_of_endpoint r)) ->
  Endpoint.r_exit_code r = 1%Z
  /\ exists ex t',
       Beta9_run_code env b code t = (Ok ex, t')
       /\ logs ex = LogsObj (OutText (Endpoint.r_stdout r))
                            (OutText (Endpoint.r_stderr r))
       /\ error ex = None
       /\ forall s da,
            dict_get (response ex s da) (py "success") = Some (RBool true)
            /\ dict_get (response ex s da) (py "exit_code") = Some (RInt 0).
Proof.
  intros Hr Hraised Hprinted Hx Hc Hd Hp.
  apply endpoint_exit_and_error in Hr. destruct Hr as (t0 & Hr).
  specialize (Hraised t0).
  destruct (Endpoint.ended_with (Endpoint.worker_exec w t0 code)) as [e0|];
    [|congruence].
  rewrite Hprinted in Hr. cbn [option_map] in Hr. destruct Hr as (Hexit & Hr).
  split; [exact Hexit|].
  unfold Beta9_run_code, try_except. fold (beta9_config_path env).
  unfold bind at 1. unfold io at 1. rewrite Hx. cbn [negb].
  unfold bind at 1. unfold io at 1. rewrite Hc. rewrite Hd.
  unfold try_except_request, try_except.
  unfold bind at 1. unfold io at 1. rewrite Hp.
  unfold ret. do 2 eexists. split; [reflexivity|].
  unfold reply_of_endpoint. cbn [reply_stdout reply_stderr reply_error].
  rewrite Hr. cbn [option_map].
  split; [reflexivity|]. split; [reflexivity|].
  intros s da. rewrite response_success, response_exit_code.
  split; reflexivity.
Qed.

Lemma beta9_error_is_never_reported_witness :
  (exists te',
     Endpoint.run_code crashing_worker (py "raise ValueError('boom')") []
     = (Ok crash_reply, te'))
  /\ Endpoint.r_exit_code crash_reply = 1%Z
  /\ (exists ex t',
        Beta9_run_code beta9_world Beta9Sandbox_init
                       (py "raise ValueError('boom')") [] = (Ok ex, t')
        /\ error ex = None
        /\ forall s da,
             dict_get (response ex s da) (py "success") = Some (RBool true)
             /\ dict_get (response ex s da) (py "exit_code")
                = Some (RInt 0))
  /\ exists d p',
       execute_code beta9_world (py "raise ValueError('boom')") (py "python")
                    fresh_process = (Ok d, p')
       /\ dict_get d (py "success") = Some (RBool true)
       /\ dict_get d (py "sandbox_id") = Some (RStr (py "beta9-primary")).
Proof.
  assert (Hr : Endpoint.run_code crashing_worker
                 (py "raise ValueError('boom')") []
               = (Ok crash_reply,
                  snd (Endpoint.run_code crashing_worker
                         (py "raise ValueError('boom')") []))).
  { vm_compute. reflexivity. }
  split; [eexists; exact Hr|].
  destruct (beta9_error_is_never_reported beta9_world Beta9Sandbox_init
              (py "raise ValueError('boom')") [] crashing_worker [] _
              crash_reply
              [ (py "default",
                  [ (py "gateway_host", py "gateway.local");
                    (py "token", py "secret") ]) ]
              [ (py "gateway_host", py "gateway.local");
                (py "token", py "secret") ]
              Hr (fun _ H => ltac:(discriminate H)) (fun _ _ => eq_refl)
              (fun _ => eq_refl) (fun _ => eq_refl) eq_refl
              (fun _ _ _ _ => eq_refl))
    as (Hexit & ex & t' & H & _ & He & Hs).
  split; [exact Hexit|]. split.
  - exists ex, t'. split; [exact H|]. split; [exact He|exact Hs].
  - do 2 eexists. split; [vm_compute; reflexivity|].
    split; vm_compute; reflexivity.
Defined.

(** X23. The Docker read never returns a [str], in either mode: what it
    returns is the raw output of [cat], as bytes, and it returns only
    when the mode asked for is not "bytes". *)
Theorem docker_read_returns_bytes (env : Env) (d : DockerSandbox)
        (path format : str) (t t' : trace) (v : pyval) :
  Docker_read env d path format t = (Ok v, t') ->
  format <> py "bytes"
  /\ exists c,
       subprocess_raw env t (docker_exec d [py "cat"; path]) None = Ok c
       /\ returncode c = 0%Z
       /\ v = VBytes (raw_stdout c).
Proof.
  unfold Docker_read. unfold bind at 1. unfold subprocess_run.
  unfold bind at 1. unfold io at 1.
  destruct (subprocess_raw env t (docker_exec d [py "cat"; path]) None)
    as [c|e]; [|discriminate].
  unfold bind at 1. unfold check_status. cbn [andb]. unfold ret at 1.
  unfold ret at 1.
  destruct (returncode c =? 0)%Z eqn:Er; cbn [negb]; [|discriminate].
  destruct (str_eqb format (py "bytes")) eqn:Ef; [discriminate|].
  unfold ret. intros H. inversion H; subst. split.
  - now apply str_eqb_neq.
  - exists c. apply Z.eqb_eq in Er. tauto.
Qed.

Lemma docker_read_returns_bytes_witness :
  exists t',
    Docker_read
      (scenario false false None (Ok two_artifacts) (Ok [])
                (fun _ _ _ => Ok (mk_completed 0 png_bytes []))
                (Ok tt) (Ok task_state))
      (mk_docker (py "docker-sandbox") 3600 (py "/app")
                 (py "/app/docker-compose.yml"))
      (py "/tmp/a.png") (py "text") []
    = (Ok (VBytes png_bytes), t')
    /\ py "text" <> py "bytes".
Proof.
  eexists ?[t'].
  assert (H : Docker_read
                (scenario false false None (Ok two_artifacts) (Ok [])
                          (fun _ _ _ => Ok (mk_completed 0 png_bytes []))
                          (Ok tt) (Ok task_state))
                (mk_docker (py "docker-sandbox") 3600 (py "/app")
                           (py "/app/docker-compose.yml"))
                (py "/tmp/a.png") (py "text") []
              = (Ok (VBytes png_bytes), ?t')).
  { vm_compute. reflexivity. }
  split; [exact H|].
  exact (proj1 (docker_read_returns_bytes _ _ _ _ _ _ _ H)).
Defined.

(** ** execute_code, end to end *)

(** X24. A process whose session holds a sandbox that answers the
    listing runs the code on that sandbox: between the read of the global
    state and the run there is the listing and nothing else, no sandbox
    is created, and the session is the one it was. *)
Theorem session_is_reused (env : Env) (code : str) (p : Process)
        (s : SessionSandbox) (sb : backend) (gs : dict gval)
        (t1 t2 t3 : trace) (l : list str) (ex : Execution) :
  _instance p = Some s ->
  sandbox s = Some sb ->
  read_global_state env (calls p) = (Ok gs, t1) ->
  files_list env sb (py "/") t1 = (Ok l, t2) ->
  run_code env sb code t2 = (Ok ex, t3) ->
  reaches_backend env code p gs ex (mk_state s t3).
Proof.
  intros Hi Hs Hg Hl Hr. unfold reaches_backend.
  exists (mk_process (_instance p) t1), s, (mk_process (Some s) t1),
         (Some sb), (mk_state s t2).
  split; [unfold lift_io; now rewrite Hg|].
  split; [unfold get_instance; cbn [_instance calls]; now rewrite Hi|].
  split; [cbn [calls]; now apply (health_check_alive env s sb t1 t2 l)|].
  unfold on_object, lift. cbn [world self]. now rewrite Hr.
Qed.

Lemma session_is_reused_witness :
  exists t3,
    reaches_backend cloud_world (py "print(1)")
                    (mk_process (Some cloud_session) [])
                    task_state two_artifacts (mk_state cloud_session t3)
    /\ t3 = [CGlobalState;
             CE2BList (mk_e2b 1 (Some (py "sbx-1"))) (py "/");
             CE2BRunCode (mk_e2b 1 (Some (py "sbx-1"))) (py "print(1)")].
Proof.
  eexists. split; [|reflexivity].
  exact (session_is_reused cloud_world (py "print(1)")
           (mk_process (Some cloud_session) []) cloud_session
           (E2B (mk_e2b 1 (Some (py "sbx-1")))) task_state
           [CGlobalState]
           [CGlobalState; CE2BList (mk_e2b 1 (Some (py "sbx-1"))) (py "/")]
           _ [] two_artifacts eq_refl eq_refl eq_refl eq_refl eq_refl).
Defined.

(** X25. The artifact protocol, end to end.  When the run returns without
    error, its output is a text, the global state holds a non-empty
    [data_path] and a [current_date] that is a [str] (or none, which
    counts as "unknown"), and the download directory
    [data_path/sandbox/current_date] can be made, the answer is the
    regular response whose downloaded artifacts are the local copies, in
    that directory and in the order of the scan, of exactly the scanned
    paths whose download returns, the downloads being made one after the
    other once the directory is made; with no scanned path nothing is
    made or downloaded.  The session is left as [run_code] left it. *)
Theorem artifacts_are_downloaded (env : Env) (code language : str)
        (p : Process) (gs : dict gval) (ex : Execution) (st : State)
        (out data_path date : str) :
  valid_request env code language ->
  reaches_backend env code p gs ex st ->
  error ex = None ->
  stdout_text (logs ex) = Ok out ->
  dict_get gs (py "data_path") = Some (GStr data_path) ->
  data_path <> [] ->
  current_date_of gs = Some date ->
  (forall t,
     os_makedirs env t (os_path_join data_path [py "sandbox"; date])
     = Ok tt) ->
  let sandbox_dir := os_path_join data_path [py "sandbox"; date] in
  let artifact_paths := find_artifact_paths out in
  let made := mk_state (self st) (world st ++ [CMakedirs sandbox_dir]) in
  let st' := match artifact_paths with
             | [] => st
             | _ => after_downloads env artifact_paths sandbox_dir made
             end in
  execute_code env code language p
  = (Ok (response ex (self st)
           (map (local_copy sandbox_dir)
                (keep (downloads_returned env artifact_paths sandbox_dir made)
                      artifact_paths))),
     process_of st')
  /\ self st' = self st.
Proof.
  intros Hv Hr He Ho Hd Hne Hdate Hm. cbv zeta.
  assert (Hf : contains ARTIFACT_MARKER out = false ->
               find_artifact_paths out = []).
  { intros Ec.
    destruct (find_artifact_paths out) as [|a l] eqn:E; [reflexivity|].
    assert (Hin : In a (find_artifact_paths out)) by (rewrite E; now left).
    apply findall_from_sound in Hin as (pre & post & Hs' & _ & _).
    rewrite Hs', contains_app in Ec. discriminate. }
  rewrite (execute_code_after_run env code language p gs ex st Hv Hr).
  unfold report. unfold bind at 1, of_result. rewrite Ho.
  unfold error_is_none at 1. rewrite He.
  unfold bind at 1. unfold collect_artifacts.
  cbn [andb].
  destruct (contains ARTIFACT_MARKER out) eqn:Ec.
  2:{ rewrite (Hf eq_refl). split; reflexivity. }
  clear Hf.
  destruct (find_artifact_paths out) as [|a paths] eqn:Ef.
  { split; reflexivity. }
  rewrite Hd. unfold truthy, gval_truthy.
  destruct data_path as [|c0 dp]; [now elim Hne|]. cbn [andb].
  unfold current_date_of in Hdate.
  assert (Hdt : fspath match dict_get gs (py "current_date") with
                       | Some v => v
                       | None => GStr (py "unknown")
                       end = Ok date).
  { destruct (dict_get gs (py "current_date")) as [[d|b]|];
      inversion Hdate; reflexivity. }
  unfold bind at 1. unfold of_result at 1. cbn [fspath].
  unfold bind at 1. unfold of_result at 1. rewrite Hdt.
  unfold bind at 1. unfold lift at 1, io at 1. rewrite Hm.
  rewrite (download_each_exact env (a :: paths)).
  cbn [app]. unfold bind, get_self, ret.
  rewrite after_downloads_self. cbn [self].
  split; reflexivity.
Qed.

Lemma artifacts_are_downloaded_witness :
  exists st st',
    reaches_backend cloud_world (py "print(1)") fresh_process
                    task_state two_artifacts st
    /\ execute_code cloud_world (py "print(1)") (py "python") fresh_process
       = (Ok (response two_artifacts (self st)
                [py "/data/sandbox/2026-01-01/x.txt";
                 py "/data/sandbox/2026-01-01/y.png"]),
          process_of st')
    /\ self st' = self st.
Proof.
  assert (Hv : valid_request cloud_world (py "print(1)") (py "python")).
  { split; [discriminate|reflexivity]. }
  eexists ?[st].
  assert (Hr : reaches_backend cloud_world (py "print(1)") fresh_process
                               task_state two_artifacts ?st).
  { unfold reaches_backend. do 5 eexists.
    split; [vm_compute; reflexivity|].
    split; [vm_compute; reflexivity|].
    split; vm_compute; reflexivity. }
  pose proof (artifacts_are_downloaded cloud_world (py "print(1)")
                (py "python") fresh_process task_state two_artifacts _
                (join NL [py "a"; py "ARTIFACT_PATH:/tmp/x.txt"; py "b";
                          py "ARTIFACT_PATH:/tmp/y.png"])
                (py "/data") (py "2026-01-01")
                Hv Hr eq_refl eq_refl eq_refl ltac:(discriminate) eq_refl
                (fun _ => eq_refl))
    as H.
  cbv zeta in H. destruct H as (He & Hs).
  eexists. split; [exact Hr|]. split; [|exact Hs].
  rewrite He. vm_compute. reflexivity.
Defined.

(** ** Runs of the properties above on concrete worlds *)

Lemma cleanup_is_idempotent_witness :
  sandbox cloud_session <> None
  /\ sandbox_id (self (snd (cleanup cloud_world (mk_state cloud_session []))))
     = None
  /\ uploaded_reference_files
       (self (snd (cleanup cloud_world (mk_state cloud_session [])))) = []
  /\ world (snd (cleanup cloud_world (mk_state cloud_session [])))
     = [CE2BKill (mk_e2b 1 (Some (py "sbx-1")))].
Proof.
  assert (H : sandbox cloud_session <> None) by discriminate.
  destruct (cleanup_is_idempotent cloud_world (mk_state cloud_session []))
    as (_ & _ & Hc & _).
  destruct (Hc H) as [Hi Hu].
  split; [exact H|]. split; [exact Hi|]. split; [exact Hu|reflexivity].
Defined.


Lemma docker_run_code_result_witness :
  exists ex,
    Docker_run_code broken_container_world
      (mk_docker (py "docker-sandbox") 3600 (py "/app")
                 (py "/app/docker-compose.yml"))
      (py "print(1)") []
    = (Ok ex,
       [CSubprocess
          (docker_exec (mk_docker (py "docker-sandbox") 3600 (py "/app")
                                  (py "/app/docker-compose.yml"))
                       [py "python"; py "-c"; py "print(1)"]) None])
    /\ error ex <> None.
Proof.
  destruct (docker_run_code_result broken_container_world
              (mk_docker (py "docker-sandbox") 3600 (py "/app")
                         (py "/app/docker-compose.yml"))
              (py "print(1)") []) as (ex & H & Hiff).
  exists ex. split; [exact H|].
  intros He. apply Hiff in He as (c & out & err & Hc & _ & _ & Hr & _).
  vm_compute in Hc. inversion Hc; subst c. discriminate Hr.
Defined.

(** ** More on single operations *)

(** X26. When [run_code] raises (or there is no sandbox to call it on),
    [execute_code] answers [{"success": False, "error": "Sandbox
    execution failed: ..."}]: no exit code, no scan, no download; the
    session and the calls are those the failed run left. *)
Theorem failed_run_is_reported (env : Env) (code language : str)
        (p p0 p1 : Process) (gs : dict gval) (s : SessionSandbox)
        (sb : option backend) (st1 st2 : State) (e : exn) :
  valid_request env code language ->
  lift_io (read_global_state env) p = (Ok gs, p0) ->
  get_instance p0 = (Ok s, p1) ->
  get_or_create_sandbox env 3600 (mk_state s (calls p1)) = (Ok sb, st1) ->
  on_object sb (fun o => lift (run_code env o code)) st1 = (Raise e, st2) ->
  execute_code env code language p
  = (Ok (execution_failed e), process_of st2)
  /\ dict_get (execution_failed e) (py "success") = Some (RBool false)
  /\ dict_get (execution_failed e) (py "exit_code") = None.
Proof.
  intros Hv Hg Hi Hs Hr.
  rewrite (execute_code_valid env code language p p0 p1 gs s Hv Hg Hi).
  unfold run_and_collect.
  unfold bind at 1. rewrite Hs.
  unfold bind at 1. unfold try_except.
  unfold bind at 1. rewrite Hr.
  unfold ret. repeat split; reflexivity.
Qed.

Lemma failed_run_is_reported_witness :
  exists p0 p1 st1 st2 e,
    lift_io
      (read_global_state
         (scenario true true (Some (py "e2b_live_key"))
                   (Raise (os_error "timeout")) (Ok []) failing_commands
                   (Ok tt) (Ok task_state)))
      (mk_process (Some cloud_session) []) = (Ok task_state, p0)
    /\ get_instance p0 = (Ok cloud_session, p1)
    /\ get_or_create_sandbox
         (scenario true true (Some (py "e2b_live_key"))
                   (Raise (os_error "timeout")) (Ok []) failing_commands
                   (Ok tt) (Ok task_state))
         3600 (mk_state cloud_session (calls p1))
       = (Ok (sandbox cloud_session), st1)
    /\ execute_code
         (scenario true true (Some (py "e2b_live_key"))
                   (Raise (os_error "timeout")) (Ok []) failing_commands
                   (Ok tt) (Ok task_state))
         (py "print(1)") (py "python") (mk_process (Some cloud_session) [])
       = (Ok (execution_failed e), process_of st2)
    /\ exn_str e = py "timeout".
Proof.
  do 4 eexists. exists (os_error "timeout").
  split; [vm_compute; reflexivity|].
  split; [vm_compute; reflexivity|].
  split; [vm_compute; reflexivity|].
  split; [|reflexivity].
  refine (proj1 (failed_run_is_reported
                   (scenario true true (Some (py "e2b_live_key"))
                             (Raise (os_error "timeout")) (Ok [])
                             failing_commands (Ok tt) (Ok task_state))
                   (py "print(1)") (py "python")
                   (mk_process (Some cloud_session) [])
                   _ _ task_state cloud_session (sandbox cloud_session)
                   _ _ (os_error "timeout") _ _ _ _ _)).
  - split; [discriminate|reflexivity].
  - vm_compute. reflexivity.
  - vm_compute. reflexivity.
  - vm_compute. reflexivity.
  - vm_compute. reflexivity.
Defined.

(** X27. Whenever the endpoint's [run_code] returns, its last call has
    put the working directory back to what [os.getcwd] answered, and the
    directory it reports is "/sandbox" or, when that could not be
    entered, "/tmp/sandbox_files". *)
Theorem endpoint_restores_cwd (w : Endpoint.WorkerEnv) (code : str)
        (t t' : Endpoint.etrace) (r : Endpoint.Reply) :
  Endpoint.run_code w code t = (Ok r, t') ->
  (exists t0 cwd,
     t' = t0 ++ [Endpoint.EChdir cwd]
     /\ Endpoint.worker_getcwd w (t ++ [Endpoint.EMakedirs (py "/sandbox")])
        = Ok cwd)
  /\ (Endpoint.r_files_dir r = py "/sandbox"
      \/ Endpoint.r_files_dir r = py "/tmp/sandbox_files").
Proof.
  unfold Endpoint.run_code, Endpoint.run_code_body.
  unfold bind at 1. unfold Endpoint.eio at 1. cbn [Endpoint.wcalls].
  destruct (Endpoint.worker_makedirs w t (py "/sandbox")) as [u|e];
    [|discriminate].
  unfold bind at 1. unfold Endpoint.eio at 1. cbn [Endpoint.wcalls].
  destruct (Endpoint.worker_getcwd w _) as [cwd|e] eqn:Eg; [|discriminate].
  unfold bind at 1.
  assert (Hdir : forall s2 files_dir s3,
             Endpoint.enter_files_dir w s2 = (Ok files_dir, s3) ->
             files_dir = py "/sandbox"
             \/ files_dir = py "/tmp/sandbox_files").
  { intros s2 fd s3.
    unfold Endpoint.enter_files_dir, try_except, bind, Endpoint.eio, ret.
    destruct (Endpoint.worker_chdir w _ (py "/sandbox")).
    - intros H. inversion H. now left.
    - destruct (Endpoint.worker_makedirs w _ _); [|discriminate].
      destruct (Endpoint.worker_chdir w _ _); [|discriminate].
      intros H. inversion H. now right. }
  match goal with
  | |- context [Endpoint.enter_files_dir w ?s2] =>
      destruct (Endpoint.enter_files_dir w s2) as [[files_dir|e] s3] eqn:Ed;
        [|discriminate]
  end.
  apply Hdir in Ed.
  unfold try_finally, try_except, bind, Endpoint.exec_code,
    Endpoint.print_exc, Endpoint.captures, Endpoint.eio, ret.
  cbn [Endpoint.wcalls].
  destruct (Endpoint.ended_with (Endpoint.worker_exec w _ code)) as [ex|];
    [destruct (Endpoint.print_raised (Endpoint.worker_print_exc w _ ex))|];
    (destruct (Endpoint.worker_chdir w _ cwd); [|discriminate]);
    intros H; inversion H; subst r t'; clear H;
    cbn [Endpoint.r_files_dir];
    (split; [eexists; exists cwd; split; [reflexivity|reflexivity]
            |exact Ed]).
Qed.

Lemma endpoint_restores_cwd_witness :
  exists t0,
    snd (Endpoint.run_code crashing_worker (py "raise ValueError('boom')") [])
    = t0 ++ [Endpoint.EChdir (py "/workspace")]
    /\ Endpoint.r_files_dir crash_reply = py "/sandbox".
Proof.
  assert (H : Endpoint.run_code crashing_worker
                (py "raise ValueError('boom')") []
              = (Ok crash_reply,
                 snd (Endpoint.run_code crashing_worker
                        (py "raise ValueError('boom')") []))).
  { vm_compute. reflexivity. }
  destruct (endpoint_restores_cwd crashing_worker _ _ _ _ H)
    as [(t0 & cwd & Ht & Hc) _].
  vm_compute in Hc. inversion Hc; subst cwd.
  exists t0. split; [exact Ht|reflexivity].
Defined.

(** ** How much [get_or_create_sandbox] does *)

Lemma text_command_calls (env : Env) (cmd : list str) (input : option bytes)
      (check : bool) (t : trace) :
  snd (subprocess_run_text env cmd input check t)
  = t ++ [CSubprocess cmd input].
Proof.
  unfold subprocess_run_text, bind, io, of_result, check_status.
  destruct (subprocess_raw env t cmd input) as [c|e]; [|reflexivity].
  destruct (utf8_decode env (raw_stdout c)); [|reflexivity].
  destruct (utf8_decode env (raw_stderr c)); [|reflexivity].
  destruct (check && negb (returncode c =? 0)%Z); reflexivity.
Qed.

Lemma files_list_calls (env : Env) (sb : backend) (path : str) (t : trace) :
  exists c,
    snd (files_list env sb path t) = t ++ [c] /\ is_create c = false.
Proof.
  destruct sb as [h|b|d]; cbn [files_list].
  - eexists. split; reflexivity.
  - unfold Beta9_list, try_except. unfold bind.
    match goal with
    | |- context [subprocess_run_text env ?cmd None false t] =>
        pose proof (text_command_calls env cmd None false t) as H;
          destruct (subprocess_run_text env cmd None false t)
          as [[[[rc out] err]|e] t1]
    end; cbn [snd] in H; subst t1.
    + destruct (rc =? 0)%Z; eexists; split; reflexivity.
    + eexists. split; reflexivity.
  - unfold Docker_list, try_except. unfold bind.
    match goal with
    | |- context [subprocess_run_text env ?cmd None false t] =>
        pose proof (text_command_calls env cmd None false t) as H;
          destruct (subprocess_run_text env cmd None false t)
          as [[[[rc out] err]|e] t1]
    end; cbn [snd] in H; subst t1.
    + destruct (rc =? 0)%Z; eexists; split; reflexivity.
    + eexists. split; reflexivity.
Qed.

Lemma kill_calls (env : Env) (sb : backend) (t : trace) :
  exists new,
    snd (kill env sb t) = t ++ new
    /\ length new <= 1 /\ filter is_create new = [].
Proof.
  destruct sb as [h|b|d]; cbn [kill].
  - exists [CE2BKill h]. repeat split. cbn. lia.
  - exists []. cbn. rewrite app_nil_r. repeat split. lia.
  - exists []. cbn. rewrite app_nil_r. repeat split. lia.
Qed.

Lemma create_calls (env : Env) (timeout : Z) (s : SessionSandbox)
      (t : trace) :
  exists new,
    world (snd (create_sandbox env timeout (mk_state s t))) = t ++ new
    /\ length new <= 2 /\ length (filter is_create new) <= 1.
Proof.
  unfold create_sandbox. unfold bind at 1. unfold lift at 1, io at 1.
  cbn [world self].
  destruct (Sandbox_imported env && key_usable _).
  - unfold try_except. unfold bind at 1. unfold lift at 1, io at 1.
    cbn [world self].
    destruct (Sandbox_create env _ (py "gdpval-workspace") timeout);
      cbn; rewrite <- app_assoc; eexists;
      (split; [reflexivity|]); cbn; lia.
  - destruct (beta9_imported env); cbn.
    + eexists. split; [reflexivity|]. cbn. lia.
    + rewrite <- app_assoc. eexists. split; [reflexivity|]. cbn. lia.
Qed.

Lemma create_after_none (env : Env) (timeout : Z) (s : SessionSandbox)
      (t : trace) :
  sandbox s = None ->
  world (snd (get_or_create_sandbox env timeout (mk_state s t)))
  = world (snd (create_sandbox env timeout (mk_state s t))).
Proof.
  intros H. rewrite (get_or_create_none env s t timeout H).
  destruct (create_sandbox env timeout (mk_state s t)) as [[u|e] st];
    reflexivity.
Qed.

(** X28. One call of [get_or_create_sandbox] makes four calls at most
    (the listing, the kill, the lookup of the credential, and the
    creation or the check of the compose file) and asks E2B for a sandbox
    once at most: a creation that fails is followed by the fallback, not
    by another attempt. *)
Theorem creation_is_attempted_once (env : Env) (timeout : Z) (st : State) :
  exists new,
    world (snd (get_or_create_sandbox env timeout st)) = world st ++ new
    /\ length new <= 4
    /\ length (filter is_create new) <= 1.
Proof.
  destruct st as [s t]. cbn [world].
  destruct (sandbox s) as [sb|] eqn:Es.
  - destruct (files_list_calls env sb (py "/") t) as (c & Hc & Hn).
    destruct (files_list env sb (py "/") t) as [[l|e] t'] eqn:El;
      cbn [snd] in Hc; subst t'.
    + rewrite (health_check_alive env s sb t _ l timeout Es El).
      exists [c]. cbn. rewrite Hn. split; [reflexivity|]. cbn. lia.
    + rewrite (health_check_dead env s sb t _ e timeout Es El).
      destruct (kill_calls env sb (t ++ [c])) as (k & Hk & Hkl & Hkc).
      rewrite Hk. rewrite create_after_none by reflexivity.
      destruct (create_calls env timeout
                  (mk_session None None [] (use_local_fallback s))
                  ((t ++ [c]) ++ k)) as (new & Hw & Hl & Hf).
      rewrite Hw. exists ([c] ++ k ++ new).
      split; [now rewrite <- !app_assoc|].
      rewrite !filter_app, !length_app, Hkc. cbn [filter]. rewrite Hn.
      cbn [length]. lia.
  - rewrite create_after_none by exact Es.
    destruct (create_calls env timeout s t) as (new & Hw & Hl & Hf).
    exists new. split; [exact Hw|]. lia.
Qed.
